(** * The compliance engine of [src/services/compliance_engine.py]

    A shallow embedding of the rule catalog, the pattern matcher, the
    criteria checker, the two scoring functions, the completeness scorer
    and the per-standard rollup, followed by the properties the
    specification states about them.

    Modelling choices, all visible in the definitions below:
    - Python [float] is IEEE 754 binary64; it is modelled by Rocq's
      primitive floats, which compute with the same rounding.  No real or
      rational idealisation is made: [0.1 + 0.2] is not [0.3] here either.
    - Python [str] is modelled by [string]; case conversion, whitespace and
      case-insensitive matching act on the ASCII range, other bytes are
      left alone (Unicode case folding is outside the model).
    - A [Dict[str, Any]] record is a [gmap string PyVal]; the values are
      what [json.loads] produces: [None], booleans, integers, floats,
      strings, lists and dicts with string keys.
    - Integers are rendered in full; the limit CPython 3.11 and later put
      on the number of digits of an integer that is read or printed
      (4300 by default) is outside the model, as are the limits on the
      depth of nested lists and dicts.
    - A [TypeError] is an explicit outcome of the functions that can raise
      one. *)

From Stdlib Require Import ZArith Floats Uint63 String Ascii List Bool Lia.
From Stdlib Require Import DecimalString Permutation Sorted.
From stdpp Require Import base option list gmap strings.

Set Warnings "-inexact-float,-register-all".
Local Open Scope string_scope.
Local Open Scope list_scope.

(** ** Python numbers *)

Module PyFloat.

(** [float(n)] for a non-negative Python [int] that is a length or a
    counter: exact below [2^53], which bounds every list the interpreter
    can hold. *)
Definition float_of_nat (n : nat) : float :=
  PrimFloat.of_uint63 (Uint63.of_Z (Z.of_nat n)).

(** [a / b] on two non-negative [int]s (true division). *)
Definition int_div (a b : nat) : float :=
  PrimFloat.div (float_of_nat a) (float_of_nat b).

(** [x >= y] *)
Definition ge (x y : float) : bool := PrimFloat.leb y x.

(** [min(x, y)]: the first argument unless the second is strictly
    smaller. *)
Definition py_min (x y : float) : float :=
  if PrimFloat.ltb y x then y else x.

(** truth value of a float: false on both zeros only *)
Definition truthy (x : float) : bool := negb (PrimFloat.eqb x 0%float).

(** [sum(xs)] of a list of floats: left to right from the integer [0].
    (CPython 3.12 and later also compensate the rounding error of the
    partial sums; the rollup statements use the sum only through the
    engine's own averages and do not depend on which of the two it is.) *)
Definition py_sum (xs : list float) : float :=
  fold_left PrimFloat.add xs 0%float.

(** [k] times [score += 1.0] from [0.0]. *)
Fixpoint add_ones (k : nat) : float :=
  match k with
  | O => 0%float
  | S k' => PrimFloat.add (add_ones k') 1%float
  end.

End PyFloat.

(** ** Python values and strings *)

Module Py.

(** The values [json.loads] produces.  A dict (a JSON object) has string
    keys; it is kept as the list of its items in insertion order, which is
    the order [join] and [repr] visit; the keys of a dict are distinct. *)
Inductive PyVal : Type :=
| PNone
| PBool (b : bool)
| PInt (z : Z)
| PFloat (x : float)
| PStr (s : string)
| PList (l : list PyVal)
| PDict (items : list (string * PyVal)).

(** The only exception the engine can raise on these values. *)
Inductive Exc (A : Type) : Type :=
| Return (a : A)
| TypeError.
Arguments Return {A} a.
Arguments TypeError {A}.

Definition bind {A B} (m : Exc A) (k : A -> Exc B) : Exc B :=
  match m with
  | Return a => k a
  | TypeError => TypeError
  end.

(** [bool(v)] *)
Definition truthy (v : PyVal) : bool :=
  match v with
  | PNone => false
  | PBool b => b
  | PInt z => negb (z =? 0)%Z
  | PFloat x => PyFloat.truthy x
  | PStr s => negb (String.eqb s "")
  | PList l => match l with [] => false | _ :: _ => true end
  | PDict items => match items with [] => false | _ :: _ => true end
  end.

(** [d.get(k)] is [None] when the key is absent; [bool(d.get(k))]. *)
Definition get_truthy (d : gmap string PyVal) (k : string) : bool :=
  match d !! k with
  | Some v => truthy v
  | None => false
  end.

(** [len(v)] *)
Definition len (v : PyVal) : Exc nat :=
  match v with
  | PStr s => Return (String.length s)
  | PList l => Return (List.length l)
  | PDict items => Return (List.length items)
  | _ => TypeError
  end.

(** *** Characters *)

Definition is_upper (c : ascii) : bool :=
  let n := N_of_ascii c in (65 <=? n)%N && (n <=? 90)%N.

Definition lower_char (c : ascii) : ascii :=
  if is_upper c then ascii_of_N (N_of_ascii c + 32) else c.

(** [str.lower()] *)
Fixpoint lower (s : string) : string :=
  match s with
  | EmptyString => EmptyString
  | String c s' => String (lower_char c) (lower s')
  end.

(** [sub in s] *)
Fixpoint contains (sub s : string) : bool :=
  if String.prefix sub s then true
  else match s with
       | EmptyString => false
       | String _ s' => contains sub s'
       end.

(** *** [str(v)], as an f-string renders a value *)

Definition backslash : ascii := ascii_of_N 92.
Definition squote : ascii := ascii_of_N 39.
Definition dquote : ascii := ascii_of_N 34.

Definition hex_digit (n : N) : ascii :=
  if (n <? 10)%N then ascii_of_N (48 + n) else ascii_of_N (87 + n).

(** One character of [repr(s)] with the chosen quote. *)
Definition repr_char (quote c : ascii) : string :=
  let n := N_of_ascii c in
  if Ascii.eqb c quote || Ascii.eqb c backslash then String backslash (String c "")
  else if (n =? 9)%N then String backslash "t"
  else if (n =? 10)%N then String backslash "n"
  else if (n =? 13)%N then String backslash "r"
  else if (n <? 32)%N || (n =? 127)%N
       then String backslash (String "x"%char
              (String (hex_digit (n / 16)) (String (hex_digit (n mod 16)) "")))
  else String c "".

Fixpoint repr_chars (quote : ascii) (s : string) : string :=
  match s with
  | EmptyString => EmptyString
  | String c s' => repr_char quote c +:+ repr_chars quote s'
  end.

(** [repr(s)]: single quotes unless the text has a single quote and no
    double quote. *)
Definition repr_str (s : string) : string :=
  let q := if contains (String squote "") s && negb (contains (String dquote "") s)
           then dquote else squote in
  String q (repr_chars q s +:+ String q "").

Definition str_of_int (z : Z) : string :=
  NilZero.string_of_int (Z.to_int z).

Fixpoint join_strings (sep : string) (l : list string) : string :=
  match l with
  | [] => ""
  | [x] => x
  | x :: l' => x +:+ sep +:+ join_strings sep l'
  end.

(** *** [repr] of a float: the shortest decimal that reads back as it *)

(** [a * 2^e * 10^q], for [a >= 0], as a fraction of two integers. *)
Definition scaled (a e q : Z) : Z * Z :=
  (a * 2 ^ Z.max e 0 * 10 ^ Z.max q 0, 2 ^ Z.max (- e) 0 * 10 ^ Z.max (- q) 0)%Z.

(** Comparison of two fractions with positive denominators. *)
Definition frac_compare (x y : Z * Z) : comparison :=
  (fst x * snd y ?= fst y * snd x)%Z.

(** The least [p] with [m * 2^e < 10^p].  The search starts below it: with
    [l] the position of the leading bit, [2^l <= m * 2^e] and
    [1233 / 4096 < log10 2], so [10 ^ (l * 1233 / 4096 - 1)] is not above
    the value. *)
Fixpoint decimal_point_from (fuel : nat) (m e p : Z) : Z :=
  match fuel with
  | O => p
  | S fuel' =>
      match frac_compare (scaled m e 0) (scaled 1 0 p) with
      | Lt => p
      | _ => decimal_point_from fuel' m e (p + 1)%Z
      end
  end.

Definition decimal_point (m e : Z) : Z :=
  let l := (e + Z.log2 m)%Z in
  decimal_point_from 8 m e (l * 1233 / 4096 - 1)%Z.

(** Does the decimal [d * 10^q] read back as the float [m * 2^e]?  It does
    when it lies between the midpoints to the two neighbours, a midpoint
    counting when [m] is even.  The gap below is half as wide when [m] is
    the least mantissa of its binade. *)
Definition reads_back (m e d q : Z) : bool :=
  let below := if (m =? 2 ^ 52)%Z then if (-1074 <? e)%Z then 1%Z else 2%Z else 2%Z in
  let x := scaled d 0 q in
  let lo := scaled (4 * m - below) (e - 2) 0 in
  let hi := scaled (4 * m + 2) (e - 2) 0 in
  let above_lo :=
    match frac_compare lo x with
    | Lt => true
    | Eq => Z.even m
    | Gt => false
    end in
  if above_lo then
    match frac_compare x hi with
    | Lt => true
    | Eq => Z.even m
    | Gt => false
    end
  else false.

(** The shortest digits: for 1, 2, ... digits, the two decimals around the
    value; the first length at which one of them reads back, and of two
    that do, the nearer. *)
Fixpoint shortest (fuel : nat) (m e p k : Z) : Z * Z :=
  let q := (p - k)%Z in
  let v := scaled m e (- q) in
  let d := (fst v / snd v)%Z in
  let down := reads_back m e d q in
  let up := reads_back m e (d + 1) q in
  let nearer_down := (2 * fst v <=? (2 * d + 1) * snd v)%Z in
  match fuel with
  | O => (d, q)
  | S fuel' =>
      if down then
        if up then (if nearer_down then (d, q) else ((d + 1)%Z, q)) else (d, q)
      else if up then ((d + 1)%Z, q)
      else shortest fuel' m e p (k + 1)%Z
  end.

(** Trailing zeros go to the exponent. *)
Fixpoint strip_zeros (fuel : nat) (d q : Z) : Z * Z :=
  match fuel with
  | O => (d, q)
  | S fuel' =>
      if (d mod 10 =? 0)%Z then strip_zeros fuel' (d / 10)%Z (q + 1)%Z else (d, q)
  end.

Fixpoint zeros (n : nat) : string :=
  match n with
  | O => ""
  | S n' => String "0" (zeros n')
  end.

Definition substring_from (n : nat) (s : string) : string :=
  String.substring n (String.length s - n) s.

(** The digits [ds] with the decimal point after [decpt] of them, as
    [repr] lays them out: positional for [-4 < decpt <= 16], with an
    exponent of at least two digits otherwise. *)
Definition layout (ds : string) (decpt : Z) : string :=
  let n := Z.of_nat (String.length ds) in
  if ((decpt <=? -4) || (16 <? decpt))%Z then
    let x := (decpt - 1)%Z in
    let mantissa :=
      match ds with
      | String c "" => ds
      | String c rest => String c (String "." rest)
      | EmptyString => ds
      end in
    let digits := str_of_int (Z.abs x) in
    mantissa +:+ "e" +:+ (if (x <? 0)%Z then "-" else "+")
      +:+ (if (Z.abs x <? 10)%Z then "0" else "") +:+ digits
  else if (decpt <=? 0)%Z then "0." +:+ zeros (Z.to_nat (- decpt)) +:+ ds
  else if (n <=? decpt)%Z then ds +:+ zeros (Z.to_nat (decpt - n)) +:+ ".0"
  else String.substring 0 (Z.to_nat decpt) ds +:+ "." +:+ substring_from (Z.to_nat decpt) ds.

Definition repr_float (f : float) : string :=
  match Prim2SF f with
  | S754_nan => "nan"
  | S754_infinity s => if s then "-inf" else "inf"
  | S754_zero s => if s then "-0.0" else "0.0"
  | S754_finite s m e =>
      let m := Zpos m in
      let p := decimal_point m e in
      let '(d, q) := shortest 17 m e p 1 in
      let '(d, q) := strip_zeros 17 d q in
      let ds := str_of_int d in
      (if s then "-" else "") +:+ layout ds (q + Z.of_nat (String.length ds))
  end.

(** *** [repr] and [str] of a value *)

Fixpoint repr (v : PyVal) : string :=
  match v with
  | PNone => "None"
  | PBool true => "True"
  | PBool false => "False"
  | PInt z => str_of_int z
  | PFloat x => repr_float x
  | PStr s => repr_str s
  | PList l => "[" +:+ join_strings ", " (List.map repr l) +:+ "]"
  | PDict items =>
      "{" +:+ join_strings ", "
                (List.map (fun kv => repr_str (fst kv) +:+ ": " +:+ repr (snd kv))
                   items)
          +:+ "}"
  end.

Definition str (v : PyVal) : string :=
  match v with
  | PStr s => s
  | _ => repr v
  end.

(** [f"{d.get(k, '')}"] *)
Definition get_str (d : gmap string PyVal) (k : string) : string :=
  match d !! k with
  | Some v => str v
  | None => ""
  end.

(** *** [sep.join(v)] *)

Fixpoint chars (s : string) : list string :=
  match s with
  | EmptyString => []
  | String c s' => String c "" :: chars s'
  end.

Fixpoint all_strings (l : list PyVal) : Exc (list string) :=
  match l with
  | [] => Return []
  | PStr s :: l' => bind (all_strings l') (fun r => Return (s :: r))
  | _ :: _ => TypeError
  end.

(** A string is joined character by character, a dict by its keys; a
    list item that is not a string and a value that cannot be iterated
    raise. *)
Definition join (sep : string) (v : PyVal) : Exc string :=
  match v with
  | PStr s => Return (join_strings sep (chars s))
  | PList l => bind (all_strings l) (fun ss => Return (join_strings sep ss))
  | PDict items => Return (join_strings sep (List.map fst items))
  | _ => TypeError
  end.

End Py.

(** ** Regular expressions: the dialect of the rule catalog *)

Module Re.

(** The catalog's patterns are built from literal characters, [\s],
    bracket sets of literals such as [[abc]], and the postfix [+].
    [compile] reads exactly this dialect and refuses anything else. *)
Inductive Atom : Type :=
| AChar (c : ascii)
| ASpace
| ASet (cs : list ascii).

(** An atom and whether [+] follows it. *)
Definition Regex : Type := list (Atom * bool).

Definition is_meta (c : ascii) : bool :=
  existsb (Ascii.eqb c)
    (Py.backslash :: list_ascii_of_string ".^$*+?{}()|[]").

(** Members of a bracket set up to the closing bracket; ranges, negation
    and escapes are outside the dialect. *)
Fixpoint read_set (s : string) : option (list ascii * string) :=
  match s with
  | EmptyString => None
  | String c s' =>
      if Ascii.eqb c "]"%char then Some ([], s')
      else if Ascii.eqb c "-"%char || Ascii.eqb c "^"%char
              || Ascii.eqb c Py.backslash || Ascii.eqb c "["%char then None
      else match read_set s' with
           | Some (cs, rest) => Some (c :: cs, rest)
           | None => None
           end
  end.

Definition read_atom (s : string) : option (Atom * string) :=
  match s with
  | EmptyString => None
  | String c s' =>
      if Ascii.eqb c Py.backslash then
        match s' with
        | String "s"%char s'' => Some (ASpace, s'')
        | _ => None
        end
      else if Ascii.eqb c "["%char then
        match read_set s' with
        | Some (c0 :: cs, rest) => Some (ASet (c0 :: cs), rest)
        | _ => None
        end
      else if is_meta c then None
      else Some (AChar c, s')
  end.

Definition read_plus (s : string) : option (bool * string) :=
  match s with
  | String c s' =>
      if Ascii.eqb c "+"%char then
        match s' with
        | String d _ =>
            if Ascii.eqb d "+"%char || Ascii.eqb d "?"%char
               || Ascii.eqb d "*"%char || Ascii.eqb d "{"%char
            then None else Some (true, s')
        | EmptyString => Some (true, s')
        end
      else if Ascii.eqb c "*"%char || Ascii.eqb c "?"%char
              || Ascii.eqb c "{"%char then None
      else Some (false, s)
  | EmptyString => Some (false, s)
  end.

Fixpoint compile_fuel (fuel : nat) (s : string) : option Regex :=
  match s with
  | EmptyString => Some []
  | _ =>
      match fuel with
      | O => None
      | S fuel' =>
          match read_atom s with
          | None => None
          | Some (a, s1) =>
              match read_plus s1 with
              | None => None
              | Some (p, s2) =>
                  match compile_fuel fuel' s2 with
                  | Some r => Some ((a, p) :: r)
                  | None => None
                  end
              end
          end
      end
  end.

(** Every atom consumes a character, so the length is fuel enough. *)
Definition compile (pattern : string) : option Regex :=
  compile_fuel (String.length pattern) pattern.

(** [\s] on the ASCII range: tab, newline, vertical tab, form feed,
    carriage return, the four separators 28..31 and the space. *)
Definition is_space (c : ascii) : bool :=
  let n := N_of_ascii c in
  ((9 <=? n)%N && (n <=? 13)%N) || ((28 <=? n)%N && (n <=? 32)%N).

(** One character against one atom under [re.IGNORECASE]. *)
Definition atom_matches (a : Atom) (x : ascii) : bool :=
  match a with
  | AChar c => Ascii.eqb (Py.lower_char x) (Py.lower_char c)
  | ASpace => is_space x
  | ASet cs => existsb (fun c => Ascii.eqb (Py.lower_char x) (Py.lower_char c)) cs
  end.

(** An atom followed by [+]: one matching character, then first try to
    take one more, and only then (backtracking) the rest of the
    expression. *)
Fixpoint match_plus (a : Atom) (rest : string -> bool) (s : string) : bool :=
  match s with
  | String x s' =>
      if atom_matches a x
      then if match_plus a rest s' then true else rest s'
      else false
  | EmptyString => false
  end.

(** Does some prefix of the text match the expression? *)
Fixpoint match_here (r : Regex) : string -> bool :=
  match r with
  | [] => fun _ => true
  | (a, false) :: r' =>
      fun s =>
        match s with
        | String x s' => if atom_matches a x then match_here r' s' else false
        | EmptyString => false
        end
  | (a, true) :: r' => match_plus a (match_here r')
  end.

(** Does the expression match at some position of the text? *)
Fixpoint search_regex (r : Regex) (s : string) : bool :=
  if match_here r s then true
  else match s with
       | String _ s' => search_regex r s'
       | EmptyString => false
       end.

(** [bool(re.search(pattern, text, re.IGNORECASE))].  A pattern outside
    the dialect is not given a meaning (it finds nothing);
    [catalog_patterns_in_dialect] below shows the catalog has none. *)
Definition search (pattern text : string) : bool :=
  match compile pattern with
  | Some r => search_regex r text
  | None => false
  end.

End Re.

(** ** The engine's records *)

Module ComplianceLevel.
Inductive t : Type := COMPLIANT | PARTIALLY_COMPLIANT | NON_COMPLIANT | UNKNOWN.

Definition value (l : t) : string :=
  match l with
  | COMPLIANT => "compliant"
  | PARTIALLY_COMPLIANT => "partially_compliant"
  | NON_COMPLIANT => "non_compliant"
  | UNKNOWN => "unknown"
  end.

Definition eqb (a b : t) : bool :=
  match a, b with
  | COMPLIANT, COMPLIANT | PARTIALLY_COMPLIANT, PARTIALLY_COMPLIANT
  | NON_COMPLIANT, NON_COMPLIANT | UNKNOWN, UNKNOWN => true
  | _, _ => false
  end.
End ComplianceLevel.

Module RiskLevel.
Inductive t : Type := HIGH | MEDIUM | LOW | UNKNOWN.
End RiskLevel.

Module ComplianceRule.
Record t : Type := mk {
  rule_id : string;
  standard : string;
  title : string;
  description : string;
  requirement_patterns : list string;
  test_case_patterns : list string;
  mandatory : bool;
  risk_level : RiskLevel.t;
  validation_criteria : gmap string bool
}.
End ComplianceRule.

Module ComplianceResult.
Record t : Type := mk {
  rule_id : string;
  standard : string;
  compliance_level : ComplianceLevel.t;
  score : float;
  findings : list string;
  recommendations : list string;
  evidence : list string;
  risk_assessment : RiskLevel.t
}.
End ComplianceResult.

(** A caller-supplied requirement or test case: [Dict[str, Any]]. *)
Abbreviation Entity := (gmap string Py.PyVal).

(** ** The rule catalog ([_initialize_compliance_rules]) *)

(** A dict literal of criteria, all flagged as written. *)
Definition criteria_of (l : list (string * bool)) : gmap string bool :=
  list_to_map l.

Definition FDA_820_001 : ComplianceRule.t :=
  ComplianceRule.mk "FDA_820_001" "FDA 21 CFR Part 820" "Design Controls"
    "Software development must follow design control procedures"
    [ "design\s+control"; "design\s+input"; "design\s+output";
      "design\s+review"; "design\s+verification"; "design\s+validation" ]
    [ "verify\s+design"; "validate\s+design"; "design\s+review"; "traceability" ]
    true RiskLevel.HIGH
    (criteria_of [ ("requires_traceability", true); ("requires_verification", true);
                   ("requires_validation", true) ]).

Definition FDA_820_002 : ComplianceRule.t :=
  ComplianceRule.mk "FDA_820_002" "FDA 21 CFR Part 820" "Risk Management"
    "Risk analysis and management throughout development"
    [ "risk\s+analysis"; "risk\s+management"; "hazard\s+analysis"; "failure\s+mode" ]
    [ "risk\s+test"; "safety\s+test"; "hazard\s+test"; "failure\s+test" ]
    true RiskLevel.HIGH
    (criteria_of [ ("requires_risk_analysis", true); ("requires_mitigation", true) ]).

Definition IEC_62304_001 : ComplianceRule.t :=
  ComplianceRule.mk "IEC_62304_001" "IEC 62304" "Software Safety Classification"
    "Software must be classified according to safety requirements"
    [ "safety\s+class"; "class\s+[abc]"; "safety\s+classification";
      "medical\s+device\s+software" ]
    [ "safety\s+test"; "class\s+[abc]\s+test"; "safety\s+verification" ]
    true RiskLevel.HIGH
    (criteria_of [ ("requires_classification", true); ("requires_safety_analysis", true) ]).

Definition IEC_62304_002 : ComplianceRule.t :=
  ComplianceRule.mk "IEC_62304_002" "IEC 62304" "Software Development Lifecycle"
    "Structured software development process"
    [ "software\s+development\s+plan"; "development\s+lifecycle";
      "software\s+architecture"; "software\s+design" ]
    [ "integration\s+test"; "system\s+test"; "software\s+test"; "unit\s+test" ]
    true RiskLevel.MEDIUM
    (criteria_of [ ("requires_documentation", true); ("requires_testing", true) ]).

Definition ISO_13485_001 : ComplianceRule.t :=
  ComplianceRule.mk "ISO_13485_001" "ISO 13485" "Quality Management System"
    "Quality management system for medical devices"
    [ "quality\s+management"; "qms"; "quality\s+system"; "quality\s+control" ]
    [ "quality\s+test"; "qms\s+test"; "quality\s+verification" ]
    true RiskLevel.MEDIUM
    (criteria_of [ ("requires_documentation", true); ("requires_procedures", true) ]).

Definition ISO_27001_001 : ComplianceRule.t :=
  ComplianceRule.mk "ISO_27001_001" "ISO 27001" "Information Security Management"
    "Information security controls and management"
    [ "information\s+security"; "data\s+security"; "security\s+control";
      "access\s+control"; "encryption"; "authentication" ]
    [ "security\s+test"; "access\s+control\s+test"; "authentication\s+test";
      "encryption\s+test"; "penetration\s+test" ]
    true RiskLevel.HIGH
    (criteria_of [ ("requires_security_testing", true); ("requires_access_control", true) ]).

Definition HIPAA_001 : ComplianceRule.t :=
  ComplianceRule.mk "HIPAA_001" "HIPAA" "Protected Health Information"
    "Protection of patient health information"
    [ "protected\s+health\s+information"; "phi"; "patient\s+data";
      "health\s+information"; "privacy"; "confidentiality" ]
    [ "privacy\s+test"; "phi\s+test"; "data\s+protection\s+test";
      "confidentiality\s+test" ]
    true RiskLevel.HIGH
    (criteria_of [ ("requires_privacy_protection", true); ("requires_audit_trail", true) ]).

Definition GDPR_001 : ComplianceRule.t :=
  ComplianceRule.mk "GDPR_001" "GDPR" "Data Protection and Privacy"
    "General Data Protection Regulation compliance"
    [ "data\s+protection"; "gdpr"; "personal\s+data"; "data\s+subject\s+rights";
      "consent"; "data\s+processing" ]
    [ "gdpr\s+test"; "data\s+protection\s+test"; "consent\s+test";
      "data\s+subject\s+test"; "privacy\s+test" ]
    true RiskLevel.HIGH
    (criteria_of [ ("requires_consent_management", true);
                   ("requires_data_subject_rights", true) ]).

(** [self.compliance_rules.values()]: the rules in insertion order; the
    dict's keys are the rules' own identifiers. *)
Definition compliance_rules : list ComplianceRule.t :=
  [ FDA_820_001; FDA_820_002; IEC_62304_001; IEC_62304_002;
    ISO_13485_001; ISO_27001_001; HIPAA_001; GDPR_001 ].

(** [self.standards] *)
Definition standards : list string :=
  [ "FDA 21 CFR Part 820"; "IEC 62304"; "ISO 13485"; "ISO 9001";
    "ISO 27001"; "HIPAA"; "GDPR" ].

(** ** The scoring functions *)

Import PyFloat.
Local Open Scope float_scope.

(** The pattern loop of the evaluators: [pattern_matches] and the evidence
    lines, one per pattern found in the text. *)
Definition match_patterns (label : string) (patterns : list string) (text : string)
  : nat * list string :=
  fold_left
    (fun (acc : nat * list string) (pattern : string) =>
       if Re.search pattern text
       then (S (fst acc), snd acc ++ [label +:+ pattern])
       else acc)
    patterns (O, []).

(** The loop that only counts ([req_pattern_matches]). *)
Definition count_patterns (patterns : list string) (text : string) : nat :=
  fold_left
    (fun (n : nat) (pattern : string) => if Re.search pattern text then S n else n)
    patterns O.

(** [f"{item.get('title', '')} {item.get('description', '')}".lower()] *)
Definition item_text_of (item : Entity) : string :=
  Py.lower (Py.get_str item "title" +:+ " " +:+ Py.get_str item "description").

(** The [if]/[elif] chain of [_check_validation_criteria]: the keyword test
    of a criterion name, false for a name the chain does not list. *)
Definition criterion_met (criterion item_text : string) : bool :=
  if String.eqb criterion "requires_traceability" then
    Py.contains "traceability" item_text || Py.contains "trace" item_text
  else if String.eqb criterion "requires_verification" then
    Py.contains "verify" item_text || Py.contains "verification" item_text
  else if String.eqb criterion "requires_validation" then
    Py.contains "validate" item_text || Py.contains "validation" item_text
  else if String.eqb criterion "requires_risk_analysis" then
    Py.contains "risk" item_text || Py.contains "hazard" item_text
  else if String.eqb criterion "requires_security_testing" then
    Py.contains "security" item_text || Py.contains "secure" item_text
  else if String.eqb criterion "requires_documentation" then
    Py.contains "document" item_text || Py.contains "record" item_text
  else false.

(** One turn of the loop over [criteria.items()]. *)
Definition criteria_step (item_text : string) (score : float) (kv : string * bool) : float :=
  if negb (snd kv) then score
  else if criterion_met (fst kv) item_text then score + 1.0
  else score.

(** The value of [score] when the loop ends.  The loop visits the entries
    in insertion order, [map_to_list] in key order: the sum of ones is the
    same (lemma [criteria_loop_count]). *)
Definition criteria_loop (item_text : string) (criteria : gmap string bool) : float :=
  fold_left (criteria_step item_text) (map_to_list criteria) 0.0.

Definition _check_validation_criteria (item : Entity) (criteria : gmap string bool)
  : float :=
  let total_criteria := size criteria in
  if Nat.eqb total_criteria 0 then 1.0
  else
    let item_text := item_text_of item in
    criteria_loop item_text criteria / float_of_nat total_criteria.

(** [rule.validation_criteria.get(name)] as a condition. *)
Definition requires (rule : ComplianceRule.t) (name : string) : bool :=
  match ComplianceRule.validation_criteria rule !! name with
  | Some b => b
  | None => false
  end.

(** The result of both early returns. *)
Definition unknown_result (rule : ComplianceRule.t) : ComplianceResult.t :=
  ComplianceResult.mk (ComplianceRule.rule_id rule) (ComplianceRule.standard rule)
    ComplianceLevel.UNKNOWN 0.0 [] [] [] RiskLevel.UNKNOWN.

Definition _evaluate_requirement_against_rule
    (requirement_text : string) (requirement : Entity) (rule : ComplianceRule.t)
  : ComplianceResult.t :=
  let score := 0.0 in
  let '(pattern_matches, evidence) :=
    match_patterns "Found pattern: " (ComplianceRule.requirement_patterns rule)
      requirement_text in
  if Nat.eqb pattern_matches 0 then unknown_result rule
  else
    let pattern_score :=
      py_min (int_div pattern_matches
                (List.length (ComplianceRule.requirement_patterns rule))) 1.0 in
    let score := score + pattern_score * 0.6 in
    let criteria_score :=
      _check_validation_criteria requirement (ComplianceRule.validation_criteria rule) in
    let score := score + criteria_score * 0.4 in
    let '(compliance_level, findings, recommendations) :=
      if ge score 0.8 then (ComplianceLevel.COMPLIANT, [], [])
      else if ge score 0.5 then
        (ComplianceLevel.PARTIALLY_COMPLIANT,
         ["Requirement partially meets compliance criteria"],
         ["Enhance requirement to fully comply with " +:+ ComplianceRule.standard rule])
      else
        (ComplianceLevel.NON_COMPLIANT,
         ["Requirement does not meet compliance criteria"],
         ["Revise requirement to comply with " +:+ ComplianceRule.standard rule]) in
    let recommendations :=
      if requires rule "requires_traceability"
         && negb (Py.contains "traceability" requirement_text)
      then recommendations ++ ["Add traceability requirements"]
      else recommendations in
    let recommendations :=
      if requires rule "requires_risk_analysis"
         && negb (Py.contains "risk" requirement_text)
      then recommendations ++ ["Include risk analysis requirements"]
      else recommendations in
    ComplianceResult.mk (ComplianceRule.rule_id rule) (ComplianceRule.standard rule)
      compliance_level score findings recommendations evidence
      (ComplianceRule.risk_level rule).

(** [test_case.get('test_steps') and len(test_case['test_steps']) > 0]:
    [len] is only reached on a true value, and raises on a number. *)
Definition has_test_steps (test_case : Entity) : Py.Exc bool :=
  match test_case !! "test_steps" with
  | Some v =>
      if Py.truthy v then Py.bind (Py.len v) (fun n => Py.Return (Nat.ltb 0 n))
      else Py.Return false
  | None => Py.Return false
  end.

Definition _assess_test_case_completeness (test_case : Entity) : Py.Exc float :=
  let score := 0.0 in
  let score := if Py.get_truthy test_case "title" then score + 0.1 else score in
  let score := if Py.get_truthy test_case "description" then score + 0.1 else score in
  let score := if Py.get_truthy test_case "preconditions" then score + 0.1 else score in
  Py.bind (has_test_steps test_case) (fun steps =>
  let score := if steps then score + 0.3 else score in
  let score := if Py.get_truthy test_case "expected_results" then score + 0.2 else score in
  let score := if Py.get_truthy test_case "postconditions" then score + 0.1 else score in
  let score := if Py.get_truthy test_case "priority" then score + 0.1 else score in
  Py.Return score).

(** [if requirement:] holds for a dict that is given and not empty. *)
Definition req_pattern_matches_of (rule : ComplianceRule.t) (requirement : option Entity)
  : nat :=
  match requirement with
  | Some r =>
      if Nat.eqb (size r) 0 then O
      else count_patterns (ComplianceRule.requirement_patterns rule) (item_text_of r)
  | None => O
  end.

Definition _evaluate_test_case_against_rule
    (test_case_text : string) (test_case : Entity) (rule : ComplianceRule.t)
    (requirement : option Entity)
  : Py.Exc ComplianceResult.t :=
  let score := 0.0 in
  let '(pattern_matches, evidence) :=
    match_patterns "Found test pattern: " (ComplianceRule.test_case_patterns rule)
      test_case_text in
  let req_pattern_matches := req_pattern_matches_of rule requirement in
  if Nat.eqb pattern_matches 0 && Nat.eqb req_pattern_matches 0
  then Py.Return (unknown_result rule)
  else
    let pattern_score :=
      if Nat.ltb 0 (List.length (ComplianceRule.test_case_patterns rule))
      then py_min (int_div pattern_matches
                     (List.length (ComplianceRule.test_case_patterns rule))) 1.0
      else 0.5 in
    let score := score + pattern_score * 0.7 in
    let '(score, evidence) :=
      if Nat.ltb 0 req_pattern_matches
      then (score + 0.3,
            evidence ++ ["Test case addresses compliance-related requirements"])
      else (score, evidence) in
    Py.bind (_assess_test_case_completeness test_case) (fun completeness_score =>
    let score := (score + completeness_score) / 2.0 in
    let '(compliance_level, findings, recommendations) :=
      if ge score 0.8 then (ComplianceLevel.COMPLIANT, [], [])
      else if ge score 0.5 then
        (ComplianceLevel.PARTIALLY_COMPLIANT,
         ["Test case partially covers compliance requirements"],
         ["Enhance test case to fully verify " +:+ ComplianceRule.standard rule
            +:+ " compliance"])
      else
        (ComplianceLevel.NON_COMPLIANT,
         ["Test case does not adequately verify compliance"],
         ["Add test steps to verify " +:+ ComplianceRule.standard rule
            +:+ " compliance"]) in
    let recommendations :=
      if requires rule "requires_security_testing"
         && negb (Py.contains "security" test_case_text)
      then recommendations ++ ["Add security testing steps"]
      else recommendations in
    let recommendations :=
      if requires rule "requires_verification"
         && negb (Py.contains "verify" test_case_text)
      then recommendations ++ ["Add verification steps"]
      else recommendations in
    Py.Return
      (ComplianceResult.mk (ComplianceRule.rule_id rule) (ComplianceRule.standard rule)
         compliance_level score findings recommendations evidence
         (ComplianceRule.risk_level rule))).

(** ** Per-entity assessment *)

Definition is_unknown (r : ComplianceResult.t) : bool :=
  ComplianceLevel.eqb (ComplianceResult.compliance_level r) ComplianceLevel.UNKNOWN.

(** The loop over the rules, for any catalog. *)
Definition assess_requirement_with (rules : list ComplianceRule.t) (requirement : Entity)
  : list ComplianceResult.t :=
  let requirement_text := item_text_of requirement in
  fold_left
    (fun results rule =>
       let compliance_result :=
         _evaluate_requirement_against_rule requirement_text requirement rule in
       if negb (is_unknown compliance_result) then results ++ [compliance_result]
       else results)
    rules [].

Definition assess_requirement_compliance (requirement : Entity)
  : list ComplianceResult.t :=
  assess_requirement_with compliance_rules requirement.

(** [test_case.get('test_steps', [])] *)
Definition test_steps_of (test_case : Entity) : Py.PyVal :=
  match test_case !! "test_steps" with
  | Some v => v
  | None => Py.PList []
  end.

(** [full_text]: the lower-cased title and description, then the
    lower-cased joined steps; the join raises on steps that are not
    strings. *)
Definition full_text_of (test_case : Entity) : Py.Exc string :=
  let test_case_text := item_text_of test_case in
  Py.bind (Py.join " " (test_steps_of test_case)) (fun joined =>
  let test_steps_text := Py.lower joined in
  Py.Return (test_case_text +:+ " " +:+ test_steps_text)).

(** One turn of the loop over the rules: evaluate the rule and append the
    result unless it is UNKNOWN; an exception ends the loop. *)
Definition collect (evaluate : ComplianceRule.t -> Py.Exc ComplianceResult.t)
    (acc : Py.Exc (list ComplianceResult.t)) (rule : ComplianceRule.t)
  : Py.Exc (list ComplianceResult.t) :=
  Py.bind acc (fun results =>
  Py.bind (evaluate rule) (fun compliance_result =>
    if negb (is_unknown compliance_result)
    then Py.Return (results ++ [compliance_result])
    else Py.Return results)).

Definition assess_test_case_with (rules : list ComplianceRule.t)
    (test_case : Entity) (requirement : option Entity)
  : Py.Exc (list ComplianceResult.t) :=
  Py.bind (full_text_of test_case) (fun full_text =>
  fold_left
    (collect (fun rule =>
                _evaluate_test_case_against_rule full_text test_case rule requirement))
    rules (Py.Return [])).

Definition assess_test_case_compliance (test_case : Entity) (requirement : option Entity)
  : Py.Exc (list ComplianceResult.t) :=
  assess_test_case_with compliance_rules test_case requirement.

(** ** The rollup ([_calculate_overall_compliance]) *)

(** A score of the rollup: a float, or the integer literal [0] the two
    [else 0] branches produce. *)
Inductive Num : Type :=
| NInt0
| NFloat (f : float).

Definition num_truthy (n : Num) : bool :=
  match n with
  | NInt0 => false
  | NFloat f => truthy f
  end.

(** [a or b] *)
Definition num_or (a b : Num) : Num := if num_truthy a then a else b.

Definition num_to_float (n : Num) : float :=
  match n with
  | NInt0 => 0.0
  | NFloat f => f
  end.

(** [n >= y] for a float [y]; the integer [0] compares as [0.0]. *)
Definition num_ge (n : Num) (y : float) : bool := ge (num_to_float n) y.

Module Overall.
Record t : Type := mk {
  score : Num;
  compliance_level : string;
  requirement_count : nat;
  test_case_count : nat
}.
End Overall.

(** [[r for r in results if r.standard == standard]] *)
Definition results_for (standard : string) (results : list ComplianceResult.t)
  : list ComplianceResult.t :=
  List.filter (fun r => String.eqb (ComplianceResult.standard r) standard) results.

(** [sum(scores) / len(scores) if scores else 0] *)
Definition average (scores : list float) : Num :=
  match scores with
  | [] => NInt0
  | _ :: _ => NFloat (py_sum scores / float_of_nat (List.length scores))
  end.

(** The body of the loop for one standard: [None] on [continue]. *)
Definition overall_entry (standard : string)
    (req_results tc_results : list ComplianceResult.t) : option Overall.t :=
  let standard_req_results := results_for standard req_results in
  let standard_tc_results := results_for standard tc_results in
  match standard_req_results, standard_tc_results with
  | [], [] => None
  | _, _ =>
      let req_scores := List.map ComplianceResult.score standard_req_results in
      let tc_scores := List.map ComplianceResult.score standard_tc_results in
      let avg_req_score := average req_scores in
      let avg_tc_score := average tc_scores in
      let overall_score :=
        match req_scores, tc_scores with
        | _ :: _, _ :: _ =>
            NFloat ((num_to_float avg_req_score + num_to_float avg_tc_score) / 2.0)
        | _, _ => num_or avg_req_score avg_tc_score
        end in
      let compliance_level :=
        if num_ge overall_score 0.8 then ComplianceLevel.COMPLIANT
        else if num_ge overall_score 0.5 then ComplianceLevel.PARTIALLY_COMPLIANT
        else ComplianceLevel.NON_COMPLIANT in
      Some (Overall.mk overall_score (ComplianceLevel.value compliance_level)
              (List.length standard_req_results) (List.length standard_tc_results))
  end.

(** One turn of the loop over the standards. *)
Definition rollup_step (req_results tc_results : list ComplianceResult.t)
    (overall : gmap string Overall.t) (standard : string) : gmap string Overall.t :=
  match overall_entry standard req_results tc_results with
  | Some e => <[standard := e]> overall
  | None => overall
  end.

Definition calculate_overall_with (stds : list string)
    (req_results tc_results : list ComplianceResult.t) : gmap string Overall.t :=
  fold_left (rollup_step req_results tc_results) stds ∅.

Definition _calculate_overall_compliance
    (req_results tc_results : list ComplianceResult.t) : gmap string Overall.t :=
  calculate_overall_with standards req_results tc_results.

(** ** Sample records *)

Definition dict (l : list (string * Py.PyVal)) : Entity := list_to_map l.

Definition risk_description : string :=
  "The system shall perform risk analysis and hazard identification for all patient data flows, with full traceability to design inputs".

Definition risk_requirement : Entity :=
  dict [ ("description", Py.PStr risk_description) ].

Definition security_title_test_case : Entity :=
  dict [ ("title", Py.PStr "security test") ].

Definition access_control_test_case : Entity :=
  dict [ ("test_steps",
          Py.PList [ Py.PStr "verify access control"; Py.PStr "authentication test" ]) ].

Definition encryption_requirement : Entity :=
  dict [ ("description", Py.PStr "encryption and access control") ].

Definition numeric_steps_test_case : Entity :=
  dict [ ("title", Py.PStr "security test"); ("test_steps", Py.PInt 5) ].

Definition traceability_item : Entity :=
  dict [ ("title", Py.PStr "traceability") ].

Definition complete_test_case : Entity :=
  dict [ ("title", Py.PStr "Login audit");
         ("description", Py.PStr "Check that a login is recorded");
         ("preconditions", Py.PStr "A user account exists");
         ("test_steps", Py.PList [ Py.PStr "Log in"; Py.PStr "Open the audit log" ]);
         ("expected_results", Py.PStr "The login is listed");
         ("postconditions", Py.PStr "The user is logged out");
         ("priority", Py.PStr "high") ].

Definition traceability_only : gmap string bool :=
  criteria_of [ ("requires_traceability", true) ].

Definition traceability_not_required : gmap string bool :=
  criteria_of [ ("requires_traceability", false) ].

Definition complete_access_control_test_case : Entity :=
  dict [ ("title", Py.PStr "Access control check");
         ("description", Py.PStr "Only signed-in users reach patient records");
         ("preconditions", Py.PStr "A user account exists");
         ("test_steps",
          Py.PList [ Py.PStr "Verify access control"; Py.PStr "Authentication test" ]);
         ("expected_results", Py.PStr "Access is denied without a login");
         ("postconditions", Py.PStr "The user is logged out");
         ("priority", Py.PStr "high") ].

(** ** Vocabulary of the statements *)

(** [0.0 <= x <= 1.0] *)
Definition in_unit (x : float) : bool := PrimFloat.leb 0.0 x && PrimFloat.leb x 1.0.

(** A result the assessment keeps. *)
Definition keep (r : ComplianceResult.t) : bool := negb (is_unknown r).

(** The 0.8 / 0.5 thresholds. *)
Definition threshold_level (x : float) : ComplianceLevel.t :=
  if ge x 0.8 then ComplianceLevel.COMPLIANT
  else if ge x 0.5 then ComplianceLevel.PARTIALLY_COMPLIANT
  else ComplianceLevel.NON_COMPLIANT.

(** The average score of a non-empty group of results. *)
Definition mean_score (rs : list ComplianceResult.t) : float :=
  py_sum (List.map ComplianceResult.score rs) / float_of_nat (List.length rs).

(** The names the criteria checker has keywords for. *)
Definition known_criteria : list string :=
  [ "requires_traceability"; "requires_verification"; "requires_validation";
    "requires_risk_analysis"; "requires_security_testing"; "requires_documentation" ].

(** The number of criteria flagged required. *)
Definition required_count (criteria : gmap string bool) : nat :=
  List.length (List.filter snd (map_to_list criteria)).

(** The number of required criteria whose keywords occur in the text. *)
Definition criteria_met_count (item_text : string) (l : list (string * bool)) : nat :=
  List.length (List.filter (fun kv => snd kv && criterion_met (fst kv) item_text) l).

(** A [test_steps] value that [" ".join] accepts: a string, a list of
    strings, or a dict, whose keys are strings. *)
Definition joinable (v : Py.PyVal) : bool :=
  match v with
  | Py.PStr _ => true
  | Py.PList l =>
      forallb (fun x => match x with Py.PStr _ => true | _ => false end) l
  | Py.PDict _ => true
  | _ => false
  end.

(** ** The arithmetic of the two evaluators, by match counts

    The score of a result depends on the text only through the number of
    patterns found, the number of criteria met and the fields present.
    These closed forms repeat the float operations of the evaluators in
    the same order; [evaluate_requirement_score] and
    [evaluate_test_case_score] below prove they are what the evaluators
    compute, and the catalog is then checked by enumeration. *)

Definition req_score_of (n m t k : nat) : float :=
  let score := 0.0 + py_min (int_div m n) 1.0 * 0.6 in
  score + (if Nat.eqb t 0 then 1.0 else add_ones k / float_of_nat t) * 0.4.

Definition completeness_of (title description preconditions steps expected
                            postconditions priority : bool) : float :=
  let score := 0.0 in
  let score := if title then score + 0.1 else score in
  let score := if description then score + 0.1 else score in
  let score := if preconditions then score + 0.1 else score in
  let score := if steps then score + 0.3 else score in
  let score := if expected then score + 0.2 else score in
  let score := if postconditions then score + 0.1 else score in
  let score := if priority then score + 0.1 else score in
  score.

Definition bools : list bool := [true; false].

Definition completeness_values : list float :=
  flat_map (fun a => flat_map (fun b => flat_map (fun c => flat_map (fun d =>
  flat_map (fun e => flat_map (fun f => List.map (fun g =>
    completeness_of a b c d e f g) bools) bools) bools) bools) bools) bools) bools.

Definition tc_score_of (n m : nat) (bonus : bool) (completeness : float) : float :=
  let pattern_score := if Nat.ltb 0 n then py_min (int_div m n) 1.0 else 0.5 in
  let score := 0.0 + pattern_score * 0.7 in
  let score := if bonus then score + 0.3 else score in
  (score + completeness) / 2.0.

(** Every score a requirement result of the rule can take satisfies [P]. *)
Definition req_scores_all (P : float -> bool) (rule : ComplianceRule.t) : bool :=
  let n := List.length (ComplianceRule.requirement_patterns rule) in
  let t := size (ComplianceRule.validation_criteria rule) in
  forallb (fun m => forallb (fun k => P (req_score_of n m t k)) (seq 0 (S t)))
    (seq 1 n).

(** Every score a test-case result of the rule can take satisfies [P],
    given the number of test patterns found, whether the requirement bonus
    applied, and the completeness. *)
Definition tc_scores_all (P : nat -> bool -> float -> float -> bool)
    (rule : ComplianceRule.t) : bool :=
  let n := List.length (ComplianceRule.test_case_patterns rule) in
  forallb (fun m => forallb (fun bonus => forallb (fun c =>
      (Nat.eqb m 0 && negb bonus) || P m bonus c (tc_score_of n m bonus c))
    completeness_values) bools) (seq 0 (S n)).

(** ** The recommendation ranking ([_generate_overall_recommendations]) *)

Local Close Scope float_scope.

(** [recommendation_counts.get(rec, 0)] on the dict, kept as the list of
    its items in insertion order. *)
Fixpoint get_count (rec : string) (counts : list (string * nat)) : nat :=
  match counts with
  | [] => O
  | (k, n) :: rest => if String.eqb k rec then n else get_count rec rest
  end.

(** [recommendation_counts[rec] = recommendation_counts.get(rec, 0) + 1]:
    a key already present keeps its place, a new key goes last. *)
Fixpoint count_recommendation (rec : string) (counts : list (string * nat))
  : list (string * nat) :=
  match counts with
  | [] => [(rec, 1)]
  | (k, n) :: rest =>
      if String.eqb k rec then (k, S n) :: rest
      else (k, n) :: count_recommendation rec rest
  end.

Definition recommendation_counts_of (all_recommendations : list string)
  : list (string * nat) :=
  fold_left (fun counts rec => count_recommendation rec counts)
    all_recommendations [].

(** [sorted(items, key=lambda x: x[1], reverse=True)].  Python's sort is
    stable, also with [reverse=True]: items with equal counts keep their
    order.  A stable sort has one possible result; it is computed here by
    insertion from the right, each item going in front of the first item
    whose count is not larger. *)
Fixpoint insert_by_count (x : string * nat) (sorted : list (string * nat))
  : list (string * nat) :=
  match sorted with
  | [] => [x]
  | y :: rest =>
      if Nat.ltb (snd x) (snd y) then y :: insert_by_count x rest
      else x :: y :: rest
  end.

Definition sort_by_count (items : list (string * nat)) : list (string * nat) :=
  fold_right insert_by_count [] items.

(** The loop that gathers every recommendation of every result. *)
Definition all_recommendations_of (results : list ComplianceResult.t) : list string :=
  fold_left (fun all result => all ++ ComplianceResult.recommendations result)
    results [].

(** [sorted_recommendations] *)
Definition sorted_recommendations_of (req_results tc_results : list ComplianceResult.t)
  : list (string * nat) :=
  sort_by_count
    (recommendation_counts_of (all_recommendations_of (req_results ++ tc_results))).

(** [f"{rec} (mentioned {count} times)"] *)
Definition format_recommendation (item : string * nat) : string :=
  fst item +:+ " (mentioned " +:+ Py.str_of_int (Z.of_nat (snd item)) +:+ " times)".

Definition _generate_overall_recommendations
    (req_results tc_results : list ComplianceResult.t) : list string :=
  List.map format_recommendation
    (firstn 10 (sorted_recommendations_of req_results tc_results)).

(** ** The report ([generate_compliance_report]) *)

Definition risk_level_value (r : RiskLevel.t) : string :=
  match r with
  | RiskLevel.HIGH => "high"
  | RiskLevel.MEDIUM => "medium"
  | RiskLevel.LOW => "low"
  | RiskLevel.UNKNOWN => "unknown"
  end.

(** The dictionary form of a result. *)
Module ResultDict.
Record t : Type := mk {
  rule_id : string;
  standard : string;
  compliance_level : string;
  score : float;
  findings : list string;
  recommendations : list string;
  evidence : list string;
  risk_assessment : string
}.
End ResultDict.

Definition _compliance_result_to_dict (result : ComplianceResult.t) : ResultDict.t :=
  ResultDict.mk
    (ComplianceResult.rule_id result)
    (ComplianceResult.standard result)
    (ComplianceLevel.value (ComplianceResult.compliance_level result))
    (ComplianceResult.score result)
    (ComplianceResult.findings result)
    (ComplianceResult.recommendations result)
    (ComplianceResult.evidence result)
    (risk_level_value (ComplianceResult.risk_assessment result)).

Module Summary.
Record t : Type := mk {
  total_requirements : nat;
  total_test_cases : nat;
  standards_assessed : list string
}.
End Summary.

Module RequirementCompliance.
Record t : Type := mk {
  requirement_id : Py.PyVal;
  compliance_results : list ResultDict.t
}.
End RequirementCompliance.

Module TestCaseCompliance.
Record t : Type := mk {
  test_case_id : Py.PyVal;
  compliance_results : list ResultDict.t
}.
End TestCaseCompliance.

Module Report.
Record t : Type := mk {
  generated_at : string;
  summary : Summary.t;
  requirement_compliance : list RequirementCompliance.t;
  test_case_compliance : list TestCaseCompliance.t;
  overall_compliance : gmap string Overall.t;
  recommendations : list string
}.
End Report.

(** [x == z] for a float and an integer: Python compares the exact
    values; a NaN and the infinities equal no integer. *)
Definition float_eq_int (x : float) (z : Z) : bool :=
  match Prim2SF x with
  | S754_zero _ => Z.eqb z 0
  | S754_finite s m e =>
      let v := if s then Z.neg m else Z.pos m in
      if (0 <=? e)%Z then Z.eqb z (v * 2 ^ e) else Z.eqb (z * 2 ^ (- e)) v
  | _ => false
  end.

(** [True] and [False] as the integers they are. *)
Definition int_of_bool (b : bool) : Z := if b then 1%Z else 0%Z.

(** The value under a key in the items of a dict. *)
Fixpoint lookup_item (k : string) (items : list (string * Py.PyVal))
  : option Py.PyVal :=
  match items with
  | [] => None
  | (k', v) :: rest => if String.eqb k' k then Some v else lookup_item k rest
  end.

(** [a == b] on the values of the model: numbers compare by value
    ([True == 1], [1 == 1.0]), lists item by item, dicts by their keys and
    the values under them whatever the order of insertion, different
    kinds are unequal.  A NaN equals nothing, itself included: the values
    compared come from different records, so Python's shortcut for one
    and the same object does not apply. *)
Fixpoint py_eq (a b : Py.PyVal) : bool :=
  match a, b with
  | Py.PNone, Py.PNone => true
  | Py.PBool x, Py.PBool y => Bool.eqb x y
  | Py.PBool x, Py.PInt z => Z.eqb (int_of_bool x) z
  | Py.PInt z, Py.PBool x => Z.eqb z (int_of_bool x)
  | Py.PInt x, Py.PInt y => Z.eqb x y
  | Py.PBool x, Py.PFloat y => float_eq_int y (int_of_bool x)
  | Py.PFloat x, Py.PBool y => float_eq_int x (int_of_bool y)
  | Py.PInt x, Py.PFloat y => float_eq_int y x
  | Py.PFloat x, Py.PInt y => float_eq_int x y
  | Py.PFloat x, Py.PFloat y => PrimFloat.eqb x y
  | Py.PStr x, Py.PStr y => String.eqb x y
  | Py.PList x, Py.PList y =>
      (fix items (x y : list Py.PyVal) : bool :=
         match x, y with
         | [], [] => true
         | u :: x', v :: y' => if py_eq u v then items x' y' else false
         | _, _ => false
         end) x y
  | Py.PDict x, Py.PDict y =>
      if Nat.eqb (List.length x) (List.length y) then
        (fix entries (x : list (string * Py.PyVal)) : bool :=
           match x with
           | [] => true
           | (k, u) :: x' =>
               match lookup_item k y with
               | Some v => if py_eq u v then entries x' else false
               | None => false
               end
           end) x
      else false
  | _, _ => false
  end.

(** [d.get(k, default)] *)
Definition get_or (d : Entity) (k : string) (default : Py.PyVal) : Py.PyVal :=
  match d !! k with
  | Some v => v
  | None => default
  end.

(** [d.get(k)] *)
Definition get_none (d : Entity) (k : string) : Py.PyVal := get_or d k Py.PNone.

(** The related requirement of a test case: the first requirement of the
    batch whose ['id'] equals the test case's ['requirement_id'], when
    that is a true value. *)
Definition find_related (requirements : list Entity) (tc : Entity) : option Entity :=
  let req_id := get_none tc "requirement_id" in
  if Py.truthy req_id
  then List.find (fun r => py_eq (get_none r "id") req_id) requirements
  else None.

(** One turn of the loop over the requirements. *)
Definition report_requirement
    (acc : list ComplianceResult.t * list RequirementCompliance.t) (req : Entity)
  : list ComplianceResult.t * list RequirementCompliance.t :=
  let req_results := assess_requirement_compliance req in
  (fst acc ++ req_results,
   snd acc ++ [RequirementCompliance.mk
                 (get_or req "requirement_id" (Py.PStr "Unknown"))
                 (List.map _compliance_result_to_dict req_results)]).

(** One turn of the loop over the test cases; an exception of the
    assessment ends the report. *)
Definition report_test_case (requirements : list Entity)
    (acc : Py.Exc (list ComplianceResult.t * list TestCaseCompliance.t))
    (tc : Entity)
  : Py.Exc (list ComplianceResult.t * list TestCaseCompliance.t) :=
  Py.bind acc (fun acc =>
  let related_req := find_related requirements tc in
  Py.bind (assess_test_case_compliance tc related_req) (fun tc_results =>
  Py.Return
    (fst acc ++ tc_results,
     snd acc ++ [TestCaseCompliance.mk
                   (get_or tc "test_case_id" (Py.PStr "Unknown"))
                   (List.map _compliance_result_to_dict tc_results)]))).

(** [now] stands for [datetime.now().isoformat()]. *)
Definition generate_compliance_report (now : string)
    (requirements test_cases : list Entity) : Py.Exc Report.t :=
  let '(all_req_results, requirement_compliance) :=
    fold_left report_requirement requirements ([], []) in
  Py.bind (fold_left (report_test_case requirements) test_cases (Py.Return ([], [])))
    (fun tcs =>
       let '(all_tc_results, test_case_compliance) := tcs in
       Py.Return
         (Report.mk now
            (Summary.mk (List.length requirements) (List.length test_cases) standards)
            requirement_compliance test_case_compliance
            (_calculate_overall_compliance all_req_results all_tc_results)
            (_generate_overall_recommendations all_req_results all_tc_results))).

(** ** Information about the standards ([get_compliance_standards]) *)

Module StandardInfo.
Record t : Type := mk {
  name : string;
  rules_count : nat;
  mandatory_rules : nat;
  high_risk_rules : nat
}.
End StandardInfo.

Definition is_high_risk (rule : ComplianceRule.t) : bool :=
  match ComplianceRule.risk_level rule with
  | RiskLevel.HIGH => true
  | _ => false
  end.

Definition rules_of_standard (rules : list ComplianceRule.t) (standard : string)
  : list ComplianceRule.t :=
  List.filter (fun rule => String.eqb (ComplianceRule.standard rule) standard) rules.

Definition standards_info_with (rules : list ComplianceRule.t) (stds : list string)
  : list StandardInfo.t :=
  List.map
    (fun standard =>
       let rules := rules_of_standard rules standard in
       StandardInfo.mk standard (List.length rules)
         (List.length (List.filter ComplianceRule.mandatory rules))
         (List.length (List.filter is_high_risk rules)))
    stds.

Definition get_compliance_standards : list StandardInfo.t :=
  standards_info_with compliance_rules standards.

(** ** The report route and its filter ([routes/compliance.py]) *)

Module Routes.

(** [standard in standards_filter]: a substring test on a string, a search
    for an equal item in a list, a key test on a dict, a [TypeError] on a
    value that is not a container ([None], a boolean, a number). *)
Definition standard_in (standard : string) (standards_filter : Py.PyVal)
  : Py.Exc bool :=
  match standards_filter with
  | Py.PStr s => Py.Return (Py.contains standard s)
  | Py.PList l => Py.Return (existsb (py_eq (Py.PStr standard)) l)
  | Py.PDict items => Py.Return (existsb (String.eqb standard) (List.map fst items))
  | _ => Py.TypeError
  end.

(** [[result for result in results if result['standard'] in standards_filter]] *)
Fixpoint filter_results (standards_filter : Py.PyVal) (results : list ResultDict.t)
  : Py.Exc (list ResultDict.t) :=
  match results with
  | [] => Py.Return []
  | result :: rest =>
      Py.bind (standard_in (ResultDict.standard result) standards_filter)
        (fun kept =>
      Py.bind (filter_results standards_filter rest) (fun filtered =>
      Py.Return (if kept then result :: filtered else filtered)))
  end.

Fixpoint filter_requirement_compliance (standards_filter : Py.PyVal)
    (sections : list RequirementCompliance.t)
  : Py.Exc (list RequirementCompliance.t) :=
  match sections with
  | [] => Py.Return []
  | req_comp :: rest =>
      Py.bind (filter_results standards_filter
                 (RequirementCompliance.compliance_results req_comp))
        (fun filtered_results =>
      Py.bind (filter_requirement_compliance standards_filter rest) (fun filtered =>
      Py.Return
        (match filtered_results with
         | [] => filtered
         | _ :: _ =>
             RequirementCompliance.mk (RequirementCompliance.requirement_id req_comp)
               filtered_results :: filtered
         end)))
  end.

Fixpoint filter_test_case_compliance (standards_filter : Py.PyVal)
    (sections : list TestCaseCompliance.t)
  : Py.Exc (list TestCaseCompliance.t) :=
  match sections with
  | [] => Py.Return []
  | tc_comp :: rest =>
      Py.bind (filter_results standards_filter
                 (TestCaseCompliance.compliance_results tc_comp))
        (fun filtered_results =>
      Py.bind (filter_test_case_compliance standards_filter rest) (fun filtered =>
      Py.Return
        (match filtered_results with
         | [] => filtered
         | _ :: _ =>
             TestCaseCompliance.mk (TestCaseCompliance.test_case_id tc_comp)
               filtered_results :: filtered
         end)))
  end.

(** The dict comprehension over [report['overall_compliance'].items()]. *)
Fixpoint filter_overall_items (standards_filter : Py.PyVal)
    (items : list (string * Overall.t)) : Py.Exc (gmap string Overall.t) :=
  match items with
  | [] => Py.Return ∅
  | (standard, compliance) :: rest =>
      Py.bind (standard_in standard standards_filter) (fun kept =>
      Py.bind (filter_overall_items standards_filter rest) (fun filtered =>
      Py.Return (if kept then <[standard := compliance]> filtered else filtered)))
  end.

Definition filter_overall (standards_filter : Py.PyVal)
    (overall : gmap string Overall.t) : Py.Exc (gmap string Overall.t) :=
  filter_overall_items standards_filter (map_to_list overall).

(** The block under [if standards_filter:]. *)
Definition apply_standards_filter (standards_filter : Py.PyVal) (report : Report.t)
  : Py.Exc Report.t :=
  if Py.truthy standards_filter then
    Py.bind (filter_requirement_compliance standards_filter
               (Report.requirement_compliance report)) (fun filtered_req_compliance =>
    Py.bind (filter_test_case_compliance standards_filter
               (Report.test_case_compliance report)) (fun filtered_tc_compliance =>
    Py.bind (filter_overall standards_filter (Report.overall_compliance report))
      (fun filtered_overall =>
    Py.Return
      (Report.mk (Report.generated_at report) (Report.summary report)
         filtered_req_compliance filtered_tc_compliance filtered_overall
         (Report.recommendations report)))))
  else Py.Return report.

(** Lines 123 to 156 of the route: the engine's report for the converted
    records, then the filter block.  A [TypeError] raised here is caught
    by the route's [except] branch (status 500).  The steps of the route
    before the engine call (reading the request body, the two queries,
    [to_dict]) need Flask and the database and are not embedded: an
    exception of theirs ends the route in the same branch, and is not an
    outcome of this function. *)
Definition generate_compliance_report (now : string)
    (req_dicts tc_dicts : list Entity) (standards_filter : Py.PyVal)
  : Py.Exc Report.t :=
  Py.bind (generate_compliance_report now req_dicts tc_dicts)
    (apply_standards_filter standards_filter).

End Routes.

(** The keep test of the filter, for a filter that is a container. *)
Definition allowed (standards_filter : Py.PyVal) (standard : string) : bool :=
  match standards_filter with
  | Py.PStr s => Py.contains standard s
  | Py.PList l => existsb (py_eq (Py.PStr standard)) l
  | Py.PDict items => existsb (String.eqb standard) (List.map fst items)
  | _ => false
  end.

(** The values with a length and a membership test: strings, lists and
    dicts. *)
Definition is_container (v : Py.PyVal) : bool :=
  match v with
  | Py.PStr _ | Py.PList _ | Py.PDict _ => true
  | _ => false
  end.

(** Each distinct item once, in the order of first occurrence. *)
Fixpoint first_seen (l : list string) : list string :=
  match l with
  | [] => []
  | x :: rest => x :: List.filter (fun y => negb (String.eqb y x)) (first_seen rest)
  end.

(** The number of occurrences of an item. *)
Definition occurrences (x : string) (l : list string) : nat :=
  List.length (List.filter (String.eqb x) l).

(** Is [x] one of the keys? *)
Definition key_in (keys : list string) (x : string) : bool :=
  existsb (fun k => String.eqb k x) keys.

(** [a] may stand before [b] in the ranking: its count is not smaller. *)
Definition not_before (a b : string * nat) : Prop := snd b <= snd a.

(** The counts the rollup reports for a standard, 0 without an entry. *)
Definition requirement_count_of (overall : gmap string Overall.t) (standard : string)
  : nat :=
  match overall !! standard with
  | Some e => Overall.requirement_count e
  | None => 0
  end.

Definition test_case_count_of (overall : gmap string Overall.t) (standard : string)
  : nat :=
  match overall !! standard with
  | Some e => Overall.test_case_count e
  | None => 0
  end.

(** Does every test case of the batch have steps that can be joined? *)
Definition all_joinable (test_cases : list Entity) : bool :=
  forallb (fun tc => joinable (test_steps_of tc)) test_cases.

(** ** Order of the levels and of the scores *)

(** The levels from worst to best. *)
Definition level_rank (l : ComplianceLevel.t) : nat :=
  match l with
  | ComplianceLevel.UNKNOWN => 0
  | ComplianceLevel.NON_COMPLIANT => 1
  | ComplianceLevel.PARTIALLY_COMPLIANT => 2
  | ComplianceLevel.COMPLIANT => 3
  end.

(** [s <= s'], and the level of [s'] is not below the level of [s]. *)
Definition not_worse (s s' : float) : bool :=
  if PrimFloat.leb s s'
  then Nat.leb (level_rank (threshold_level s)) (level_rank (threshold_level s'))
  else false.

(** The pairs [(b, b')] of booleans with [b] implying [b']. *)
Definition le_pairs : list (bool * bool) :=
  [ (false, false); (false, true); (true, true) ].

(** The scores of a requirement result of the rule do not go down when
    the number of patterns found and the number of criteria met go up. *)
Definition req_scores_monotone (rule : ComplianceRule.t) : bool :=
  let n := List.length (ComplianceRule.requirement_patterns rule) in
  let t := size (ComplianceRule.validation_criteria rule) in
  forallb (fun m => forallb (fun m' =>
    if Nat.leb m m' then
      forallb (fun k => forallb (fun k' =>
        if Nat.leb k k'
        then not_worse (req_score_of n m t k) (req_score_of n m' t k')
        else true) (seq 0 (S t))) (seq 0 (S t))
    else true) (seq 1 n)) (seq 1 n).

(** The same for a test-case result: more test patterns found, the
    requirement bonus gained, more fields populated. *)
Definition tc_scores_monotone (rule : ComplianceRule.t) : bool :=
  let n := List.length (ComplianceRule.test_case_patterns rule) in
  forallb (fun m => forallb (fun m' =>
    if Nat.leb m m' then
      forallb (fun q => forallb (fun a => forallb (fun b => forallb (fun c =>
      forallb (fun d => forallb (fun e => forallb (fun f => forallb (fun g =>
        not_worse
          (tc_score_of n m (fst q)
             (completeness_of (fst a) (fst b) (fst c) (fst d) (fst e) (fst f) (fst g)))
          (tc_score_of n m' (snd q)
             (completeness_of (snd a) (snd b) (snd c) (snd d) (snd e) (snd f) (snd g))))
        le_pairs) le_pairs) le_pairs) le_pairs) le_pairs) le_pairs) le_pairs) le_pairs
    else true) (seq 0 (S n))) (seq 0 (S n)).

(** A small report for the filter. *)
Definition sample_result (rule_id standard : string) : ResultDict.t :=
  ResultDict.mk rule_id standard "non_compliant" 0.25%float
    ["Requirement does not meet compliance criteria"]
    ["Revise requirement to comply with " +:+ standard] [] "high".

Definition sample_report : Report.t :=
  Report.mk "2024-01-01T00:00:00" (Summary.mk 2 0 standards)
    [ RequirementCompliance.mk (Py.PStr "REQ-1")
        [ sample_result "HIPAA_001" "HIPAA"; sample_result "GDPR_001" "GDPR" ];
      RequirementCompliance.mk (Py.PStr "REQ-2") [ sample_result "GDPR_001" "GDPR" ] ]
    []
    (list_to_map
       [ ("HIPAA", Overall.mk (NFloat 0.25%float) "non_compliant" 1 0);
         ("GDPR", Overall.mk (NFloat 0.25%float) "non_compliant" 2 0) ])
    [ "Revise requirement to comply with GDPR (mentioned 2 times)";
      "Revise requirement to comply with HIPAA (mentioned 1 times)" ].

Definition hipaa_only : Py.PyVal := Py.PList [ Py.PStr "HIPAA" ].

(** More sample records. *)
Definition linked_test_case : Entity :=
  dict [ ("test_case_id", Py.PStr "TC-7"); ("title", Py.PStr "Security test");
         ("test_steps", Py.PList [ Py.PStr "Run the penetration test" ]);
         ("requirement_id", Py.PInt 3) ].

Definition stored_requirement : Entity :=
  dict [ ("id", Py.PInt 3); ("requirement_id", Py.PStr "REQ-3");
         ("title", Py.PStr "Patient data privacy");
         ("description", Py.PStr "Access control and encryption protect patient data") ].

(** A test case whose [test_steps] is a JSON object, the step names being
    its keys. *)
Definition dict_steps_test_case : Entity :=
  dict [ ("title", Py.PStr "Access control check");
         ("test_steps",
          Py.PDict [ ("verify access control", Py.PStr "login page");
                     ("authentication test", Py.PFloat 1.5%float) ]) ].

(** A filter given as a JSON object. *)
Definition hipaa_object : Py.PyVal := Py.PDict [ ("HIPAA", Py.PBool true) ].

Definition secure_requirement : Entity :=
  dict [ ("title", Py.PStr "Information security");
         ("description",
          Py.PStr "Encryption, authentication and access control keep the data secure") ].

(** * Properties *)

Local Close Scope float_scope.

(** ** Lists and loops *)

Section Loops.

Variable found : string -> bool.

Lemma filter_length_bound (l : list string) :
  List.length (List.filter found l) <= List.length l.
Proof.
  induction l as [|p l IH]; simpl; [lia|].
  destruct (found p); simpl; lia.
Qed.

Lemma fold_count_filter (l : list string) (a : nat) :
  fold_left (fun (n : nat) (p : string) => if found p then S n else n) l a
  = a + List.length (List.filter found l).
Proof.
  revert a; induction l as [|p l IH]; intros a; simpl; [lia|].
  rewrite IH. destruct (found p); simpl; lia.
Qed.

Lemma fold_evidence_filter (label : string) (l : list string)
    (a : nat) (ev : list string) :
  fold_left
    (fun (acc : nat * list string) (p : string) =>
       if found p then (S (fst acc), snd acc ++ [label +:+ p]) else acc)
    l (a, ev)
  = (a + List.length (List.filter found l),
     ev ++ List.map (String.append label) (List.filter found l)).
Proof.
  revert a ev; induction l as [|p l IH]; intros a ev; simpl.
  - f_equal; [lia | now rewrite app_nil_r].
  - destruct (found p); simpl; rewrite IH; simpl.
    + f_equal; [lia | now rewrite <- app_assoc].
    + reflexivity.
Qed.

End Loops.

Lemma count_patterns_filter (patterns : list string) (text : string) :
  count_patterns patterns text
  = List.length (List.filter (fun p => Re.search p text) patterns).
Proof.
  unfold count_patterns.
  now rewrite (fold_count_filter (fun p => Re.search p text)).
Qed.

Lemma match_patterns_filter (label : string) (patterns : list string) (text : string) :
  match_patterns label patterns text
  = (count_patterns patterns text,
     List.map (String.append label)
       (List.filter (fun p => Re.search p text) patterns)).
Proof.
  unfold match_patterns.
  rewrite (fold_evidence_filter (fun p => Re.search p text)).
  now rewrite count_patterns_filter.
Qed.

Lemma count_patterns_le (patterns : list string) (text : string) :
  count_patterns patterns text <= List.length patterns.
Proof.
  rewrite count_patterns_filter. apply filter_length_bound.
Qed.

(** ** The criteria loop adds one per criterion met *)

Lemma criteria_fold (text : string) (l : list (string * bool)) (a : nat) :
  fold_left (criteria_step text) l (add_ones a)
  = add_ones (a + criteria_met_count text l).
Proof.
  revert a; induction l as [|[c b] l IH]; intros a.
  - simpl. now rewrite Nat.add_0_r.
  - cbn [fold_left]. unfold criteria_met_count in *. cbn [List.filter fst snd].
    unfold criteria_step at 2. cbn [fst snd].
    destruct b; cbn [negb andb].
    + destruct (criterion_met c text).
      * change (add_ones a + 1.0)%float with (add_ones (S a)).
        rewrite IH. cbn [List.length]. f_equal. lia.
      * apply IH.
    + apply IH.
Qed.

Lemma criteria_loop_count (text : string) (criteria : gmap string bool) :
  criteria_loop text criteria
  = add_ones (criteria_met_count text (map_to_list criteria)).
Proof.
  unfold criteria_loop. apply (criteria_fold text _ 0).
Qed.

Lemma criteria_met_count_le (text : string) (l : list (string * bool)) :
  criteria_met_count text l <= List.length l.
Proof.
  unfold criteria_met_count.
  induction l as [|kv l IH]; simpl; [lia|].
  destruct (snd kv && criterion_met (fst kv) text); simpl; lia.
Qed.

Lemma criteria_met_count_perm (text : string) (l1 l2 : list (string * bool)) :
  Permutation l1 l2 -> criteria_met_count text l1 = criteria_met_count text l2.
Proof.
  unfold criteria_met_count.
  induction 1 as [|kv l1 l2 _ IH|a b l|l1 l2 l3 _ IH1 _ IH2]; simpl.
  - reflexivity.
  - destruct (snd kv && criterion_met (fst kv) text); simpl; now rewrite IH.
  - destruct (snd a && criterion_met (fst a) text),
             (snd b && criterion_met (fst b) text); reflexivity.
  - now rewrite IH1.
Qed.

Lemma criterion_met_known (name text : string) :
  criterion_met name text = true -> In name known_criteria.
Proof.
  unfold criterion_met, known_criteria.
  repeat match goal with
         | |- context [String.eqb name ?k] =>
             let E := fresh "E" in
             destruct (String.eqb name k) eqn:E;
             [ apply String.eqb_eq in E; subst name; intros _; simpl; tauto | ]
         end.
  discriminate.
Qed.

(** The checker's ratio in closed form. *)
Lemma check_validation_criteria_ratio (item : Entity) (criteria : gmap string bool) :
  _check_validation_criteria item criteria
  = if Nat.eqb (size criteria) 0 then 1.0%float
    else (add_ones (criteria_met_count (item_text_of item) (map_to_list criteria))
          / float_of_nat (size criteria))%float.
Proof.
  unfold _check_validation_criteria.
  destruct (Nat.eqb (size criteria) 0); [reflexivity|].
  now rewrite criteria_loop_count.
Qed.

(** ** What the requirement evaluator computes *)

Lemma threshold_level_known (x : float) :
  ComplianceLevel.eqb (threshold_level x) ComplianceLevel.UNKNOWN = false.
Proof.
  unfold threshold_level. destruct (ge x 0.8); [reflexivity|].
  destruct (ge x 0.5); reflexivity.
Qed.

Lemma evaluate_requirement_unknown (text : string) (requirement : Entity)
    (rule : ComplianceRule.t) :
  count_patterns (ComplianceRule.requirement_patterns rule) text = 0 ->
  _evaluate_requirement_against_rule text requirement rule = unknown_result rule.
Proof.
  intros H. unfold _evaluate_requirement_against_rule.
  rewrite match_patterns_filter, H. reflexivity.
Qed.

Lemma evaluate_requirement_score (text : string) (requirement : Entity)
    (rule : ComplianceRule.t) :
  count_patterns (ComplianceRule.requirement_patterns rule) text <> 0 ->
  let r := _evaluate_requirement_against_rule text requirement rule in
  ComplianceResult.score r
  = req_score_of
      (List.length (ComplianceRule.requirement_patterns rule))
      (count_patterns (ComplianceRule.requirement_patterns rule) text)
      (size (ComplianceRule.validation_criteria rule))
      (criteria_met_count (item_text_of requirement)
         (map_to_list (ComplianceRule.validation_criteria rule)))
  /\ ComplianceResult.compliance_level r = threshold_level (ComplianceResult.score r)
  /\ ComplianceResult.evidence r
     = List.map (String.append "Found pattern: ")
         (List.filter (fun p => Re.search p text)
            (ComplianceRule.requirement_patterns rule))
  /\ ComplianceResult.rule_id r = ComplianceRule.rule_id rule
  /\ ComplianceResult.standard r = ComplianceRule.standard rule.
Proof.
  intros H. unfold _evaluate_requirement_against_rule.
  rewrite match_patterns_filter.
  destruct (Nat.eqb_spec (count_patterns (ComplianceRule.requirement_patterns rule) text) 0)
    as [E|_]; [contradiction|].
  rewrite check_validation_criteria_ratio.
  unfold req_score_of, threshold_level, ge.
  cbv zeta.
  match goal with
  | |- context [PrimFloat.leb 0.8 ?s] => generalize s; intros sc
  end.
  destruct (PrimFloat.leb 0.8 sc) eqn:E8; [|destruct (PrimFloat.leb 0.5 sc) eqn:E5];
    cbn; rewrite ?E8, ?E5; auto.
Qed.

(** ** What the completeness scorer and the test-case evaluator compute *)

Lemma completeness_shape (test_case : Entity) (c : float) :
  _assess_test_case_completeness test_case = Py.Return c ->
  exists steps : bool,
    has_test_steps test_case = Py.Return steps
    /\ c = completeness_of
             (Py.get_truthy test_case "title") (Py.get_truthy test_case "description")
             (Py.get_truthy test_case "preconditions") steps
             (Py.get_truthy test_case "expected_results")
             (Py.get_truthy test_case "postconditions")
             (Py.get_truthy test_case "priority").
Proof.
  unfold _assess_test_case_completeness.
  destruct (has_test_steps test_case) as [steps|]; cbn [Py.bind]; [|discriminate].
  intros H. injection H as <-. exists steps. split; reflexivity.
Qed.

Lemma in_bools (b : bool) : In b bools.
Proof. destruct b; simpl; auto. Qed.

Lemma completeness_of_in_values (a b c d e f g : bool) :
  In (completeness_of a b c d e f g) completeness_values.
Proof.
  unfold completeness_values.
  apply in_flat_map; exists a; split; [apply in_bools|].
  apply in_flat_map; exists b; split; [apply in_bools|].
  apply in_flat_map; exists c; split; [apply in_bools|].
  apply in_flat_map; exists d; split; [apply in_bools|].
  apply in_flat_map; exists e; split; [apply in_bools|].
  apply in_flat_map; exists f; split; [apply in_bools|].
  apply in_map, in_bools.
Qed.

Lemma completeness_in_values (test_case : Entity) (c : float) :
  _assess_test_case_completeness test_case = Py.Return c ->
  In c completeness_values.
Proof.
  intros H. destruct (completeness_shape _ _ H) as (steps & _ & ->).
  apply completeness_of_in_values.
Qed.

Lemma evaluate_test_case_unknown (text : string) (test_case : Entity)
    (rule : ComplianceRule.t) (requirement : option Entity) :
  count_patterns (ComplianceRule.test_case_patterns rule) text = 0 ->
  req_pattern_matches_of rule requirement = 0 ->
  _evaluate_test_case_against_rule text test_case rule requirement
  = Py.Return (unknown_result rule).
Proof.
  intros H1 H2. unfold _evaluate_test_case_against_rule.
  rewrite match_patterns_filter, H1, H2. reflexivity.
Qed.

Lemma evaluate_test_case_score (text : string) (test_case : Entity)
    (rule : ComplianceRule.t) (requirement : option Entity) :
  count_patterns (ComplianceRule.test_case_patterns rule) text <> 0
  \/ req_pattern_matches_of rule requirement <> 0 ->
  _evaluate_test_case_against_rule text test_case rule requirement = Py.TypeError
  /\ _assess_test_case_completeness test_case = Py.TypeError
  \/ exists (r : ComplianceResult.t) (c : float),
       _evaluate_test_case_against_rule text test_case rule requirement = Py.Return r
       /\ _assess_test_case_completeness test_case = Py.Return c
       /\ ComplianceResult.score r
          = tc_score_of (List.length (ComplianceRule.test_case_patterns rule))
              (count_patterns (ComplianceRule.test_case_patterns rule) text)
              (Nat.ltb 0 (req_pattern_matches_of rule requirement)) c
       /\ ComplianceResult.compliance_level r = threshold_level (ComplianceResult.score r)
       /\ ComplianceResult.rule_id r = ComplianceRule.rule_id rule
       /\ ComplianceResult.standard r = ComplianceRule.standard rule.
Proof.
  intros H. unfold _evaluate_test_case_against_rule.
  rewrite match_patterns_filter.
  set (m := count_patterns (ComplianceRule.test_case_patterns rule) text) in *.
  set (q := req_pattern_matches_of rule requirement) in *.
  assert (Hg : Nat.eqb m 0 && Nat.eqb q 0 = false).
  { destruct (Nat.eqb_spec m 0), (Nat.eqb_spec q 0); simpl; auto. lia. }
  rewrite Hg.
  destruct (_assess_test_case_completeness test_case) as [c|].
  2:{ left. destruct (Nat.ltb 0 q); split; reflexivity. }
  right. unfold tc_score_of, threshold_level, ge. cbv zeta.
  destruct (Nat.ltb 0 q); cbn [Py.bind]; cbv beta iota zeta;
    match goal with
    | |- context [PrimFloat.leb 0.8 ?s] => remember s as sc eqn:Esc
    end;
    (destruct (PrimFloat.leb 0.8 sc) eqn:E8;
       [|destruct (PrimFloat.leb 0.5 sc) eqn:E5]);
    eexists; exists c; (split; [reflexivity|]);
    cbn; rewrite ?E8, ?E5; subst sc; auto.
Qed.

(** ** The result lists *)

Lemma fold_keep {A : Type} (f : A -> ComplianceResult.t) (l : list A)
    (acc : list ComplianceResult.t) :
  fold_left
    (fun results x => if negb (is_unknown (f x)) then results ++ [f x] else results)
    l acc
  = acc ++ List.filter keep (List.map f l).
Proof.
  revert acc; induction l as [|x l IH]; intros acc; simpl.
  - now rewrite app_nil_r.
  - rewrite IH. unfold keep at 2. destruct (negb (is_unknown (f x))); simpl.
    + now rewrite <- app_assoc.
    + reflexivity.
Qed.

Lemma assess_requirement_with_filter (rules : list ComplianceRule.t)
    (requirement : Entity) :
  assess_requirement_with rules requirement
  = List.filter keep
      (List.map
         (_evaluate_requirement_against_rule (item_text_of requirement) requirement)
         rules).
Proof.
  unfold assess_requirement_with.
  apply (fold_keep
           (_evaluate_requirement_against_rule (item_text_of requirement) requirement)
           rules []).
Qed.

Lemma assess_requirement_with_in (rules : list ComplianceRule.t)
    (requirement : Entity) (r : ComplianceResult.t) :
  In r (assess_requirement_with rules requirement) <->
  exists rule,
    In rule rules
    /\ r = _evaluate_requirement_against_rule (item_text_of requirement) requirement rule
    /\ is_unknown r = false.
Proof.
  rewrite assess_requirement_with_filter, filter_In, in_map_iff.
  unfold keep. split.
  - intros [(rule & <- & Hin) Hk]. exists rule. repeat split; auto.
    now apply negb_true_iff.
  - intros (rule & Hin & -> & Hk). split; [now exists rule|].
    now apply negb_true_iff.
Qed.

Section TestCaseLoop.

Variable eval : ComplianceRule.t -> Py.Exc ComplianceResult.t.

Lemma fold_step_error (rules : list ComplianceRule.t) :
  fold_left (collect eval) rules Py.TypeError = Py.TypeError.
Proof. induction rules as [|rule rules IH]; simpl; auto. Qed.

Lemma fold_step_in (rules : list ComplianceRule.t)
    (acc results : list ComplianceResult.t) :
  fold_left (collect eval) rules (Py.Return acc) = Py.Return results ->
  forall r,
    In r results <->
    In r acc \/ exists rule,
                  In rule rules /\ eval rule = Py.Return r /\ is_unknown r = false.
Proof.
  revert acc; induction rules as [|rule rules IH]; intros acc H r;
    cbn [fold_left] in H.
  - injection H as <-. split; [auto|]. intros [?|(? & [] & _)]; auto.
  - unfold collect at 2 in H. cbn [Py.bind] in H.
    destruct (eval rule) as [x|] eqn:Ex; cbn [Py.bind] in H.
    2:{ rewrite fold_step_error in H. discriminate. }
    destruct (is_unknown x) eqn:Ux; cbn [negb] in H.
    + rewrite (IH _ H r). split.
      * intros [?|(rule' & Hin & He & Hu)]; [auto|].
        right. exists rule'. simpl. auto.
      * intros [?|(rule' & [<-|Hin] & He & Hu)]; [auto| |].
        -- rewrite Ex in He. injection He as ->. congruence.
        -- right. exists rule'. auto.
    + rewrite (IH _ H r), in_app_iff. split.
      * intros [[?|[<-|[]]]|(rule' & Hin & He & Hu)]; [auto| |].
        -- right. exists rule. simpl. auto.
        -- right. exists rule'. simpl. auto.
      * intros [?|(rule' & [<-|Hin] & He & Hu)]; [auto| |].
        -- rewrite Ex in He. injection He as ->. left. right. simpl. auto.
        -- right. exists rule'. auto.
Qed.

Lemma fold_step_total (rules : list ComplianceRule.t)
    (acc : list ComplianceResult.t) :
  (forall rule, In rule rules -> exists r, eval rule = Py.Return r) ->
  exists results, fold_left (collect eval) rules (Py.Return acc) = Py.Return results.
Proof.
  revert acc; induction rules as [|rule rules IH]; intros acc H; cbn [fold_left].
  - now exists acc.
  - destruct (H rule) as [x Ex]; [simpl; auto|].
    unfold collect at 2. cbn [Py.bind]. rewrite Ex. cbn [Py.bind].
    destruct (negb (is_unknown x)); apply IH; intros; apply H; simpl; auto.
Qed.

End TestCaseLoop.

Lemma assess_test_case_with_in (rules : list ComplianceRule.t)
    (test_case : Entity) (requirement : option Entity)
    (results : list ComplianceResult.t) :
  assess_test_case_with rules test_case requirement = Py.Return results ->
  exists text,
    full_text_of test_case = Py.Return text
    /\ forall r,
         In r results <->
         exists rule,
           In rule rules
           /\ _evaluate_test_case_against_rule text test_case rule requirement
              = Py.Return r
           /\ is_unknown r = false.
Proof.
  unfold assess_test_case_with.
  destruct (full_text_of test_case) as [text|]; cbn [Py.bind]; [|discriminate].
  intros H. exists text. split; [reflexivity|]. intros r.
  rewrite (fold_step_in _ _ _ _ H r). simpl. tauto.
Qed.

(** ** When the test-case path raises *)

Lemma all_strings_returns (l : list Py.PyVal) :
  forallb (fun x => match x with Py.PStr _ => true | _ => false end) l = true ->
  exists ss, Py.all_strings l = Py.Return ss.
Proof.
  induction l as [|x l IH]; simpl; [now exists []|].
  destruct x; try discriminate. simpl. intros H.
  destruct (IH H) as [ss ->]. now exists (s :: ss).
Qed.

Lemma all_strings_raises (l : list Py.PyVal) :
  forallb (fun x => match x with Py.PStr _ => true | _ => false end) l = false ->
  Py.all_strings l = Py.TypeError.
Proof.
  induction l as [|x l IH]; simpl; [discriminate|].
  destruct x; try reflexivity. simpl. intros H. now rewrite (IH H).
Qed.

Lemma join_returns (sep : string) (v : Py.PyVal) :
  joinable v = true -> exists s, Py.join sep v = Py.Return s.
Proof.
  destruct v; simpl; try discriminate.
  - eauto.
  - intros H. destruct (all_strings_returns _ H) as [ss ->]. simpl. eauto.
  - eauto.
Qed.

Lemma join_raises (sep : string) (v : Py.PyVal) :
  joinable v = false -> Py.join sep v = Py.TypeError.
Proof.
  destruct v; simpl; try reflexivity; try discriminate.
  intros H. now rewrite (all_strings_raises _ H).
Qed.

Lemma full_text_returns (test_case : Entity) :
  joinable (test_steps_of test_case) = true ->
  exists text, full_text_of test_case = Py.Return text.
Proof.
  intros H. unfold full_text_of.
  destruct (join_returns " " _ H) as [s ->]. simpl. eauto.
Qed.

Lemma full_text_raises (test_case : Entity) :
  joinable (test_steps_of test_case) = false ->
  full_text_of test_case = Py.TypeError.
Proof.
  intros H. unfold full_text_of. now rewrite (join_raises " " _ H).
Qed.

Lemma full_text_joinable (test_case : Entity) (text : string) :
  full_text_of test_case = Py.Return text ->
  joinable (test_steps_of test_case) = true.
Proof.
  intros H. destruct (joinable (test_steps_of test_case)) eqn:J; [reflexivity|].
  rewrite (full_text_raises _ J) in H. discriminate.
Qed.

Lemma has_test_steps_returns (test_case : Entity) :
  joinable (test_steps_of test_case) = true ->
  exists b, has_test_steps test_case = Py.Return b.
Proof.
  unfold test_steps_of, has_test_steps.
  destruct (test_case !! "test_steps") as [v|]; [|eauto].
  destruct v; simpl; try discriminate; intros _.
  - destruct (negb (String.eqb s "")); eauto.
  - destruct l; eauto.
  - destruct items; eauto.
Qed.

Lemma completeness_returns (test_case : Entity) :
  joinable (test_steps_of test_case) = true ->
  exists c, _assess_test_case_completeness test_case = Py.Return c.
Proof.
  intros H. unfold _assess_test_case_completeness.
  destruct (has_test_steps_returns _ H) as [b ->]. cbn [Py.bind]. eauto.
Qed.

Lemma evaluate_test_case_returns (text : string) (test_case : Entity)
    (rule : ComplianceRule.t) (requirement : option Entity) :
  joinable (test_steps_of test_case) = true ->
  exists r, _evaluate_test_case_against_rule text test_case rule requirement
            = Py.Return r.
Proof.
  intros J.
  destruct (Nat.eq_dec (count_patterns (ComplianceRule.test_case_patterns rule) text) 0)
    as [E1|N1];
    [destruct (Nat.eq_dec (req_pattern_matches_of rule requirement) 0) as [E2|N2]|].
  - rewrite (evaluate_test_case_unknown _ _ _ _ E1 E2). eauto.
  - destruct (evaluate_test_case_score text test_case rule requirement (or_intror N2))
      as [[_ He]|(r & c & Hr & _)]; [|eauto].
    destruct (completeness_returns _ J) as [c Hc]. congruence.
  - destruct (evaluate_test_case_score text test_case rule requirement (or_introl N1))
      as [[_ He]|(r & c & Hr & _)]; [|eauto].
    destruct (completeness_returns _ J) as [c Hc]. congruence.
Qed.

Lemma assess_test_case_with_returns (rules : list ComplianceRule.t)
    (test_case : Entity) (requirement : option Entity) :
  joinable (test_steps_of test_case) = true ->
  exists results,
    assess_test_case_with rules test_case requirement = Py.Return results.
Proof.
  intros J. unfold assess_test_case_with.
  destruct (full_text_returns _ J) as [text ->]. cbn [Py.bind].
  apply fold_step_total. intros rule _.
  now apply evaluate_test_case_returns.
Qed.

Lemma assess_test_case_with_raises (rules : list ComplianceRule.t)
    (test_case : Entity) (requirement : option Entity) :
  joinable (test_steps_of test_case) = false ->
  assess_test_case_with rules test_case requirement = Py.TypeError.
Proof.
  intros J. unfold assess_test_case_with.
  now rewrite (full_text_raises _ J).
Qed.

(** ** The catalog *)

Lemma catalog_patterns_in_dialect :
  forallb
    (fun rule =>
       forallb (fun p => match Re.compile p with Some _ => true | None => false end)
         (ComplianceRule.requirement_patterns rule
            ++ ComplianceRule.test_case_patterns rule))
    compliance_rules = true.
Proof. vm_compute. reflexivity. Qed.

Lemma same_id_same_rule (rule rule' : ComplianceRule.t) :
  In rule compliance_rules -> In rule' compliance_rules ->
  ComplianceRule.rule_id rule = ComplianceRule.rule_id rule' -> rule = rule'.
Proof.
  intros H H'. simpl in H, H'.
  repeat match goal with H : _ \/ _ |- _ => destruct H as [<-|H] end;
    try contradiction; try reflexivity; intros E; vm_compute in E; discriminate E.
Qed.

(** ** From match counts to scores *)

Lemma req_scores_all_score (P : float -> bool) (rule : ComplianceRule.t)
    (text : string) (requirement : Entity) :
  req_scores_all P rule = true ->
  count_patterns (ComplianceRule.requirement_patterns rule) text <> 0 ->
  P (ComplianceResult.score
       (_evaluate_requirement_against_rule text requirement rule)) = true.
Proof.
  intros HP Hm.
  destruct (evaluate_requirement_score text requirement rule Hm) as (-> & _).
  unfold req_scores_all in HP.
  rewrite forallb_forall in HP.
  specialize (HP (count_patterns (ComplianceRule.requirement_patterns rule) text)).
  rewrite forallb_forall in HP.
  apply HP.
  - apply in_seq.
    pose proof (count_patterns_le (ComplianceRule.requirement_patterns rule) text).
    lia.
  - apply in_seq.
    pose proof (criteria_met_count_le (item_text_of requirement)
                  (map_to_list (ComplianceRule.validation_criteria rule))) as Hk.
    rewrite length_map_to_list in Hk. lia.
Qed.

Lemma tc_scores_all_score (P : nat -> bool -> float -> float -> bool)
    (rule : ComplianceRule.t) (text : string) (test_case : Entity)
    (requirement : option Entity) (r : ComplianceResult.t) :
  tc_scores_all P rule = true ->
  _evaluate_test_case_against_rule text test_case rule requirement = Py.Return r ->
  is_unknown r = false ->
  exists c,
    _assess_test_case_completeness test_case = Py.Return c
    /\ P (count_patterns (ComplianceRule.test_case_patterns rule) text)
         (Nat.ltb 0 (req_pattern_matches_of rule requirement)) c
         (ComplianceResult.score r) = true.
Proof.
  intros HP Hr Hu.
  set (m := count_patterns (ComplianceRule.test_case_patterns rule) text) in *.
  set (q := req_pattern_matches_of rule requirement) in *.
  assert (Hmq : m <> 0 \/ q <> 0).
  { destruct (Nat.eq_dec m 0) as [Em|]; [|auto].
    destruct (Nat.eq_dec q 0) as [Eq|]; [|auto].
    rewrite (evaluate_test_case_unknown _ _ _ _ Em Eq) in Hr.
    injection Hr as <-. discriminate Hu. }
  destruct (evaluate_test_case_score text test_case rule requirement Hmq)
    as [[He _]|(r' & c & Hr' & Hc & Hs & _)]; [congruence|].
  assert (r' = r) as -> by congruence.
  exists c. split; [exact Hc|]. rewrite Hs.
  unfold tc_scores_all in HP. rewrite forallb_forall in HP.
  assert (Hm : In m (seq 0 (S (List.length (ComplianceRule.test_case_patterns rule))))).
  { apply in_seq.
    pose proof (count_patterns_le (ComplianceRule.test_case_patterns rule) text).
    fold m in H. lia. }
  specialize (HP m Hm). rewrite forallb_forall in HP.
  specialize (HP (Nat.ltb 0 q) (in_bools _)). rewrite forallb_forall in HP.
  specialize (HP c (completeness_in_values _ _ Hc)).
  apply orb_true_iff in HP. destruct HP as [HP|HP]; [|exact HP].
  apply andb_true_iff in HP. destruct HP as [Hm0 Hb].
  apply Nat.eqb_eq in Hm0. apply negb_true_iff, Nat.ltb_ge in Hb. lia.
Qed.

Lemma in_catalog_forallb (check : ComplianceRule.t -> bool) (rule : ComplianceRule.t) :
  forallb check compliance_rules = true -> In rule compliance_rules ->
  check rule = true.
Proof. intros H Hin. rewrite forallb_forall in H. now apply H. Qed.

Lemma evaluate_requirement_known (text : string) (requirement : Entity)
    (rule : ComplianceRule.t) :
  is_unknown (_evaluate_requirement_against_rule text requirement rule) = false <->
  count_patterns (ComplianceRule.requirement_patterns rule) text <> 0.
Proof.
  split.
  - intros Hu E. rewrite (evaluate_requirement_unknown _ _ _ E) in Hu. discriminate.
  - intros Hm. destruct (evaluate_requirement_score text requirement rule Hm)
      as (_ & Hl & _).
    unfold is_unknown. rewrite Hl. apply threshold_level_known.
Qed.

Lemma evaluate_test_case_cases (text : string) (test_case : Entity)
    (rule : ComplianceRule.t) (requirement : option Entity) (r : ComplianceResult.t) :
  _evaluate_test_case_against_rule text test_case rule requirement = Py.Return r ->
  (count_patterns (ComplianceRule.test_case_patterns rule) text = 0
   /\ req_pattern_matches_of rule requirement = 0
   /\ r = unknown_result rule)
  \/ ((count_patterns (ComplianceRule.test_case_patterns rule) text <> 0
       \/ req_pattern_matches_of rule requirement <> 0)
      /\ is_unknown r = false).
Proof.
  intros Hr.
  destruct (Nat.eq_dec (count_patterns (ComplianceRule.test_case_patterns rule) text) 0)
    as [E1|N1];
    [destruct (Nat.eq_dec (req_pattern_matches_of rule requirement) 0) as [E2|N2]|].
  - left. rewrite (evaluate_test_case_unknown _ _ _ _ E1 E2) in Hr.
    injection Hr as <-. auto.
  - right. split; [auto|].
    destruct (evaluate_test_case_score text test_case rule requirement (or_intror N2))
      as [[He _]|(r' & c & Hr' & _ & _ & Hl & _)]; [congruence|].
    assert (r' = r) as -> by congruence.
    unfold is_unknown. rewrite Hl. apply threshold_level_known.
  - right. split; [auto|].
    destruct (evaluate_test_case_score text test_case rule requirement (or_introl N1))
      as [[He _]|(r' & c & Hr' & _ & _ & Hl & _)]; [congruence|].
    assert (r' = r) as -> by congruence.
    unfold is_unknown. rewrite Hl. apply threshold_level_known.
Qed.

(** ** Scores lie between 0 and 1 (C1) *)

Lemma catalog_req_in_unit : forallb (req_scores_all in_unit) compliance_rules = true.
Proof. vm_compute. reflexivity. Qed.

Lemma catalog_tc_in_unit :
  forallb (tc_scores_all (fun _ _ _ s => in_unit s)) compliance_rules = true.
Proof. vm_compute. reflexivity. Qed.

(** C1.  For every rule of the catalog, the score of the result the
    requirement evaluator returns, on any text and record, and the score of
    any result the test-case evaluator returns, lie in [0.0, 1.0]. *)
Theorem score_in_unit_interval (rule : ComplianceRule.t) :
  In rule compliance_rules ->
  (forall (text : string) (requirement : Entity),
      in_unit (ComplianceResult.score
                 (_evaluate_requirement_against_rule text requirement rule)) = true)
  /\ (forall (text : string) (test_case : Entity) (requirement : option Entity)
             (r : ComplianceResult.t),
         _evaluate_test_case_against_rule text test_case rule requirement
         = Py.Return r ->
         in_unit (ComplianceResult.score r) = true).
Proof.
  intros Hin. split.
  - intros text requirement.
    destruct (Nat.eq_dec
                (count_patterns (ComplianceRule.requirement_patterns rule) text) 0)
      as [E|N].
    + rewrite (evaluate_requirement_unknown _ _ _ E). reflexivity.
    + apply req_scores_all_score; [|exact N].
      exact (in_catalog_forallb _ _ catalog_req_in_unit Hin).
  - intros text test_case requirement r Hr.
    destruct (evaluate_test_case_cases _ _ _ _ _ Hr) as [(_ & _ & ->)|[_ Hu]];
      [reflexivity|].
    destruct (tc_scores_all_score (fun _ _ _ s => in_unit s) rule text test_case
                requirement r (in_catalog_forallb _ _ catalog_tc_in_unit Hin) Hr Hu)
      as (c & _ & H).
    exact H.
Qed.

Lemma score_in_unit_interval_witness :
  In ISO_27001_001 compliance_rules
  /\ in_unit (ComplianceResult.score
                (_evaluate_requirement_against_rule
                   (item_text_of encryption_requirement) encryption_requirement
                   ISO_27001_001)) = true
  /\ exists r,
       _evaluate_test_case_against_rule "authentication test"
         access_control_test_case ISO_27001_001 (Some encryption_requirement)
       = Py.Return r
       /\ in_unit (ComplianceResult.score r) = true.
Proof.
  assert (Hin : In ISO_27001_001 compliance_rules) by (simpl; tauto).
  split; [exact Hin|]. split.
  - apply (proj1 (score_in_unit_interval ISO_27001_001 Hin)).
  - eexists. split; [vm_compute; reflexivity|].
    apply (proj2 (score_in_unit_interval ISO_27001_001 Hin)
             "authentication test" access_control_test_case
             (Some encryption_requirement)).
    vm_compute. reflexivity.
Defined.

(** ** Rules without a match are left out (C2) *)

(** C2.  A result in the list of [assess_requirement_compliance] is never
    UNKNOWN and belongs to a catalog rule at least one of whose requirement
    patterns was found in the requirement text; a result in the list of
    [assess_test_case_compliance] is never UNKNOWN and belongs to a rule
    with a test-case pattern found in the full text or a requirement pattern
    found in the linked requirement.  So a catalog rule with zero matches
    has no result in the list. *)
Theorem zero_matches_excluded (rule : ComplianceRule.t) :
  In rule compliance_rules ->
  (forall (requirement : Entity) (r : ComplianceResult.t),
      In r (assess_requirement_compliance requirement) ->
      ComplianceResult.compliance_level r <> ComplianceLevel.UNKNOWN
      /\ (ComplianceResult.rule_id r = ComplianceRule.rule_id rule ->
          1 <= count_patterns (ComplianceRule.requirement_patterns rule)
                 (item_text_of requirement)))
  /\ (forall (test_case : Entity) (requirement : option Entity)
             (results : list ComplianceResult.t) (r : ComplianceResult.t),
         assess_test_case_compliance test_case requirement = Py.Return results ->
         In r results ->
         ComplianceResult.compliance_level r <> ComplianceLevel.UNKNOWN
         /\ (ComplianceResult.rule_id r = ComplianceRule.rule_id rule ->
             exists text,
               full_text_of test_case = Py.Return text
               /\ (1 <= count_patterns (ComplianceRule.test_case_patterns rule) text
                   \/ 1 <= req_pattern_matches_of rule requirement))).
Proof.
  intros Hin. split.
  - intros requirement r Hr.
    apply assess_requirement_with_in in Hr. destruct Hr as (rule' & Hin' & -> & Hu).
    split.
    + intros E. unfold is_unknown in Hu. rewrite E in Hu. discriminate.
    + intros Hid. apply evaluate_requirement_known in Hu.
      destruct (evaluate_requirement_score _ requirement rule' Hu)
        as (_ & _ & _ & Hid' & _).
      rewrite Hid' in Hid.
      rewrite (same_id_same_rule _ _ Hin' Hin Hid) in Hu. lia.
  - intros test_case requirement results r Hres Hr.
    destruct (assess_test_case_with_in _ _ _ _ Hres) as (text & Htext & Hspec).
    apply Hspec in Hr. destruct Hr as (rule' & Hin' & He & Hu).
    split.
    + intros E. unfold is_unknown in Hu. rewrite E in Hu. discriminate.
    + intros Hid. exists text. split; [exact Htext|].
      destruct (evaluate_test_case_cases _ _ _ _ _ He) as [(_ & _ & ->)|[Hmq _]];
        [discriminate Hu|].
      destruct (evaluate_test_case_score text test_case rule' requirement Hmq)
        as [[He' _]|(r' & c & Hr' & _ & _ & _ & Hid' & _)]; [congruence|].
      assert (r' = r) as -> by congruence.
      rewrite Hid' in Hid.
      rewrite (same_id_same_rule _ _ Hin' Hin Hid) in Hmq. lia.
Qed.

Lemma zero_matches_excluded_witness :
  In HIPAA_001 compliance_rules
  /\ In (_evaluate_requirement_against_rule (item_text_of risk_requirement)
           risk_requirement HIPAA_001)
        (assess_requirement_compliance risk_requirement)
  /\ 1 <= count_patterns (ComplianceRule.requirement_patterns HIPAA_001)
            (item_text_of risk_requirement).
Proof.
  assert (Hin : In HIPAA_001 compliance_rules) by (simpl; tauto).
  assert (Hr : In (_evaluate_requirement_against_rule (item_text_of risk_requirement)
                     risk_requirement HIPAA_001)
                  (assess_requirement_compliance risk_requirement)).
  { unfold assess_requirement_compliance.
    apply (proj2 (assess_requirement_with_in compliance_rules risk_requirement _)).
    exists HIPAA_001.
    split; [exact Hin|]. split; [reflexivity|]. vm_compute. reflexivity. }
  split; [exact Hin|]. split; [exact Hr|].
  destruct (proj1 (zero_matches_excluded HIPAA_001 Hin) risk_requirement _ Hr)
    as [_ H].
  apply H. vm_compute. reflexivity.
Defined.

(** ** Returned results have a positive score (C10) *)

Lemma catalog_req_lower_bound :
  forallb
    (fun rule =>
       req_scores_all
         (fun s =>
            ge s (PrimFloat.div 0.6
                    (float_of_nat
                       (List.length (ComplianceRule.requirement_patterns rule))))
            && PrimFloat.ltb 0 s)
         rule)
    compliance_rules = true.
Proof. vm_compute. reflexivity. Qed.

Lemma catalog_tc_lower_bound :
  forallb
    (tc_scores_all
       (fun _ bonus _ s => PrimFloat.ltb 0 s && (negb bonus || ge s 0.15)))
    compliance_rules = true.
Proof. vm_compute. reflexivity. Qed.

(** C10, as amended.  Every result in a returned list has a score above
    0.  A requirement result has score at least 0.6 / len(requirement
    patterns) of its rule and at least one evidence line.  A test-case
    result has score at least 0.15 when the linked requirement matched a
    requirement pattern of the rule (the 0.3 bonus); without the bonus only
    positivity is promised. *)
Theorem returned_scores_positive :
  (forall (requirement : Entity) (r : ComplianceResult.t),
      In r (assess_requirement_compliance requirement) ->
      exists rule,
        In rule compliance_rules
        /\ ComplianceResult.rule_id r = ComplianceRule.rule_id rule
        /\ ge (ComplianceResult.score r)
              (PrimFloat.div 0.6
                 (float_of_nat
                    (List.length (ComplianceRule.requirement_patterns rule)))) = true
        /\ PrimFloat.ltb 0 (ComplianceResult.score r) = true
        /\ 1 <= List.length (ComplianceResult.evidence r))
  /\ (forall (test_case : Entity) (requirement : option Entity)
             (results : list ComplianceResult.t) (r : ComplianceResult.t),
         assess_test_case_compliance test_case requirement = Py.Return results ->
         In r results ->
         exists rule,
           In rule compliance_rules
           /\ ComplianceResult.rule_id r = ComplianceRule.rule_id rule
           /\ PrimFloat.ltb 0 (ComplianceResult.score r) = true
           /\ (1 <= req_pattern_matches_of rule requirement ->
               ge (ComplianceResult.score r) 0.15 = true)).
Proof.
  split.
  - intros requirement r Hr.
    apply assess_requirement_with_in in Hr. destruct Hr as (rule & Hin & -> & Hu).
    apply evaluate_requirement_known in Hu.
    exists rule. split; [exact Hin|].
    destruct (evaluate_requirement_score _ requirement rule Hu)
      as (_ & _ & Hev & Hid & _).
    split; [exact Hid|].
    pose proof (req_scores_all_score _ rule (item_text_of requirement) requirement
                  (in_catalog_forallb _ _ catalog_req_lower_bound Hin) Hu) as HP.
    cbv beta in HP. apply andb_true_iff in HP. destruct HP as [H1 H2].
    split; [exact H1|]. split; [exact H2|].
    rewrite Hev, length_map, <- count_patterns_filter. lia.
  - intros test_case requirement results r Hres Hr.
    destruct (assess_test_case_with_in _ _ _ _ Hres) as (text & Htext & Hspec).
    apply Hspec in Hr. destruct Hr as (rule & Hin & He & Hu).
    exists rule. split; [exact Hin|].
    destruct (evaluate_test_case_cases _ _ _ _ _ He) as [(_ & _ & ->)|[Hmq _]];
      [discriminate Hu|].
    destruct (evaluate_test_case_score text test_case rule requirement Hmq)
      as [[He' _]|(r' & c' & Hr' & _ & _ & _ & Hid & _)]; [congruence|].
    assert (r' = r) as -> by congruence.
    split; [exact Hid|].
    destruct (tc_scores_all_score _ rule text test_case requirement r
                (in_catalog_forallb _ _ catalog_tc_lower_bound Hin) He Hu)
      as (c & _ & HP).
    cbv beta in HP. apply andb_true_iff in HP. destruct HP as [H1 H2].
    split; [exact H1|].
    intros Hq. apply Nat.ltb_lt in Hq. rewrite Hq in H2. exact H2.
Qed.

Lemma returned_scores_positive_witness :
  In (_evaluate_requirement_against_rule (item_text_of risk_requirement)
        risk_requirement HIPAA_001)
     (assess_requirement_compliance risk_requirement)
  /\ exists rule,
       In rule compliance_rules
       /\ ComplianceResult.rule_id
            (_evaluate_requirement_against_rule (item_text_of risk_requirement)
               risk_requirement HIPAA_001)
          = ComplianceRule.rule_id rule
       /\ PrimFloat.ltb 0
            (ComplianceResult.score
               (_evaluate_requirement_against_rule (item_text_of risk_requirement)
                  risk_requirement HIPAA_001)) = true.
Proof.
  assert (Hr : In (_evaluate_requirement_against_rule (item_text_of risk_requirement)
                     risk_requirement HIPAA_001)
                  (assess_requirement_compliance risk_requirement)).
  { unfold assess_requirement_compliance.
    apply (proj2 (assess_requirement_with_in compliance_rules risk_requirement _)).
    exists HIPAA_001.
    split; [simpl; tauto|]. split; [reflexivity|]. vm_compute. reflexivity. }
  split; [exact Hr|].
  destruct (proj1 returned_scores_positive risk_requirement _ Hr)
    as (rule & Hin & Hid & _ & Hpos & _).
  exists rule. auto.
Defined.

(** C10 as stated fails: a test case whose only field is the title
    "security test" gets one result, for ISO_27001_001, with score 0.12. *)
Lemma test_case_score_below_bonus_bound :
  exists r,
    assess_test_case_compliance security_title_test_case None = Py.Return [r]
    /\ ComplianceResult.rule_id r = "ISO_27001_001"
    /\ ComplianceResult.score r = 0.12%float
    /\ ge (ComplianceResult.score r) 0.15 = false.
Proof.
  eexists. split; [vm_compute; reflexivity|].
  repeat split; vm_compute; reflexivity.
Qed.

(** ** A fully populated test case is complete (C8) *)

(** C8.  A test case with a populated title, description, preconditions,
    expected_results, postconditions and priority and at least one test
    step has completeness exactly 1.0: the seven weights, added in the
    order of the source, round to 1.0 in binary64. *)
Theorem complete_test_case_scores_one (test_case : Entity)
    (step : Py.PyVal) (more : list Py.PyVal) :
  Py.get_truthy test_case "title" = true ->
  Py.get_truthy test_case "description" = true ->
  Py.get_truthy test_case "preconditions" = true ->
  test_case !! "test_steps" = Some (Py.PList (step :: more)) ->
  Py.get_truthy test_case "expected_results" = true ->
  Py.get_truthy test_case "postconditions" = true ->
  Py.get_truthy test_case "priority" = true ->
  _assess_test_case_completeness test_case = Py.Return 1.0%float.
Proof.
  intros Ht Hd Hp Hs He Ho Hr.
  unfold _assess_test_case_completeness, has_test_steps.
  rewrite Ht, Hd, Hp, Hs, He, Ho, Hr. reflexivity.
Qed.

Lemma complete_test_case_scores_one_witness :
  _assess_test_case_completeness complete_test_case = Py.Return 1.0%float.
Proof.
  apply (complete_test_case_scores_one complete_test_case
           (Py.PStr "Log in") [Py.PStr "Open the audit log"]);
    vm_compute; reflexivity.
Defined.

(** ** Steps that cannot be joined raise (C9) *)

(** The values [" ".join] accepts, spelled out. *)
Lemma joinable_spec (v : Py.PyVal) :
  joinable v = true <->
  (exists s, v = Py.PStr s)
  \/ (exists ss, v = Py.PList (List.map Py.PStr ss))
  \/ (exists items, v = Py.PDict items).
Proof.
  split.
  - destruct v as [| | | |s|l|items]; simpl; try discriminate; intros H.
    + left. now exists s.
    + right. left. induction l as [|x l IH]; [now exists []|].
      simpl in H. destruct x; try discriminate.
      destruct (IH H) as [ss E]. injection E as ->. now exists (s :: ss).
    + right. right. now exists items.
  - intros [[s ->]|[[ss ->]|[items ->]]]; simpl; try reflexivity.
    induction ss as [|x ss IH]; simpl; auto.
Qed.

(** C9, as amended.  [assess_test_case_compliance] returns a result list
    exactly when [test_steps] is absent, a string, a list of strings or a
    dict (whose keys are joined), whatever the other fields hold; any
    other [test_steps] value ([None], a boolean, an integer, a float, a
    list with an item that is not a string) raises [TypeError]. *)
Theorem test_steps_must_be_text (test_case : Entity) (requirement : option Entity) :
  (joinable (test_steps_of test_case) = true ->
   exists results,
     assess_test_case_compliance test_case requirement = Py.Return results)
  /\ (joinable (test_steps_of test_case) = false ->
      assess_test_case_compliance test_case requirement = Py.TypeError).
Proof.
  split.
  - apply assess_test_case_with_returns.
  - apply assess_test_case_with_raises.
Qed.

Lemma test_steps_must_be_text_witness :
  joinable (test_steps_of complete_test_case) = true
  /\ exists results,
       assess_test_case_compliance complete_test_case None = Py.Return results.
Proof.
  assert (J : joinable (test_steps_of complete_test_case) = true)
    by (vm_compute; reflexivity).
  split; [exact J|].
  exact (proj1 (test_steps_must_be_text complete_test_case None) J).
Defined.

(** C9 as stated fails: a number in [test_steps] is not treated as empty. *)
Lemma numeric_test_steps_raise :
  assess_test_case_compliance numeric_steps_test_case None = Py.TypeError.
Proof. vm_compute. reflexivity. Qed.

(** A dict in [test_steps] is no error: its keys are the text of the
    steps. *)
Example dict_test_steps_are_joined :
  full_text_of dict_steps_test_case
  = Py.Return "access control check  verify access control authentication test"
  /\ List.map ComplianceResult.rule_id
       (match assess_test_case_compliance dict_steps_test_case None with
        | Py.Return results => results
        | Py.TypeError => []
        end)
     = ["ISO_27001_001"].
Proof. split; vm_compute; reflexivity. Qed.

(** ** Criteria without keywords and criteria not required (C3, C4) *)

Lemma criteria_met_unknown_name (text name : string) (b : bool)
    (l : list (string * bool)) :
  ~ In name known_criteria ->
  criteria_met_count text ((name, b) :: l) = criteria_met_count text l.
Proof.
  intros Hn. unfold criteria_met_count. cbn [List.filter fst snd].
  destruct (criterion_met name text) eqn:E.
  - exfalso. apply Hn. eapply criterion_met_known, E.
  - now rewrite andb_false_r.
Qed.

Lemma criteria_loop_insert_unknown (text name : string) (b : bool)
    (criteria : gmap string bool) :
  ~ In name known_criteria ->
  criteria !! name = None ->
  criteria_loop text (<[name := b]> criteria) = criteria_loop text criteria.
Proof.
  intros Hn Hl. rewrite !criteria_loop_count.
  rewrite (criteria_met_count_perm text _ _ (map_to_list_insert criteria name b Hl)).
  now rewrite criteria_met_unknown_name.
Qed.

(** C3, as amended.  A criterion name without keywords never adds to the
    numerator, but it counts in the denominator [len(criteria)]: adding it
    to a map that lacks it keeps the numerator and divides by one more;
    flagging it in a map that already has it changes nothing. *)
Theorem unmapped_criterion_counts_in_total (item : Entity)
    (criteria : gmap string bool) (name : string) :
  ~ In name known_criteria ->
  (criteria !! name = None ->
   criteria_loop (item_text_of item) (<[name := true]> criteria)
   = criteria_loop (item_text_of item) criteria
   /\ size (<[name := true]> criteria) = S (size criteria)
   /\ _check_validation_criteria item (<[name := true]> criteria)
      = PrimFloat.div (criteria_loop (item_text_of item) criteria)
          (float_of_nat (S (size criteria))))
  /\ (forall b, criteria !! name = Some b ->
      _check_validation_criteria item (<[name := true]> criteria)
      = _check_validation_criteria item criteria).
Proof.
  intros Hn. split.
  - intros Hl.
    pose proof (criteria_loop_insert_unknown (item_text_of item) name true criteria
                  Hn Hl) as Hloop.
    pose proof (map_size_insert_None name true criteria Hl) as Hsize.
    split; [exact Hloop|]. split; [exact Hsize|].
    unfold _check_validation_criteria. rewrite Hsize, Hloop. reflexivity.
  - intros b Hl.
    assert (Hd : delete name criteria !! name = None) by apply lookup_delete_eq.
    unfold _check_validation_criteria.
    rewrite (map_size_insert_Some name true criteria) by (rewrite Hl; eauto).
    destruct (Nat.eqb (size criteria) 0); [reflexivity|]. f_equal.
    rewrite <- (insert_delete_eq criteria name true).
    rewrite <- (insert_delete_id criteria name b Hl) at 2.
    now rewrite !criteria_loop_insert_unknown.
Qed.

Lemma unmapped_criterion_counts_in_total_witness :
  ~ In "requires_mitigation" known_criteria
  /\ traceability_only !! "requires_mitigation" = None
  /\ _check_validation_criteria traceability_item
       (<["requires_mitigation" := true]> traceability_only)
     = PrimFloat.div (criteria_loop (item_text_of traceability_item) traceability_only)
         (float_of_nat (S (size traceability_only))).
Proof.
  assert (Hn : ~ In "requires_mitigation" known_criteria).
  { simpl. intros H.
    repeat match goal with H : _ \/ _ |- _ => destruct H as [H|H] end;
      try discriminate H; exact H. }
  assert (Hl : traceability_only !! "requires_mitigation" = None)
    by (vm_compute; reflexivity).
  split; [exact Hn|]. split; [exact Hl|].
  exact (proj2 (proj2 (proj1 (unmapped_criterion_counts_in_total traceability_item
                                traceability_only "requires_mitigation" Hn) Hl))).
Defined.

(** C3 as stated fails: with the text "traceability" the ratio of
    [{requires_traceability: True}] is 1.0, and adding the criterion
    [requires_mitigation], which has no keywords, halves it. *)
Lemma unmapped_criterion_lowers_ratio :
  _check_validation_criteria traceability_item traceability_only = 1.0%float
  /\ _check_validation_criteria traceability_item
       (<["requires_mitigation" := true]> traceability_only) = 0.5%float.
Proof. split; vm_compute; reflexivity. Qed.

(** In binary64, [0.0 / n] is [0.0] for every map size up to 4096. *)
Lemma zero_ratio_table :
  List.map (fun n => PrimFloat.div 0 (float_of_nat n)) (seq 1 4096)
  = repeat 0%float 4096.
Proof. vm_compute. reflexivity. Qed.

Lemma zero_ratio_small (n : nat) :
  1 <= n <= 4096 -> PrimFloat.div 0 (float_of_nat n) = 0%float.
Proof.
  intros Hn.
  pose proof (f_equal (fun l => nth (n - 1) l 0%float) zero_ratio_table) as H.
  cbv beta in H.
  rewrite nth_repeat in H.
  rewrite (nth_indep _ 0%float (PrimFloat.div 0 (float_of_nat 0))) in H
    by (rewrite length_map, length_seq; lia).
  rewrite (map_nth (fun n => PrimFloat.div 0 (float_of_nat n))) in H.
  rewrite seq_nth in H by lia.
  replace (1 + (n - 1)) with n in H by lia. exact H.
Qed.

Lemma required_none_met_none (text : string) (criteria : gmap string bool) :
  required_count criteria = 0 ->
  criteria_met_count text (map_to_list criteria) = 0.
Proof.
  unfold required_count, criteria_met_count.
  induction (map_to_list criteria) as [|[name b] l IH]; [reflexivity|].
  cbn [List.filter fst snd]. destruct b; cbn [andb List.length].
  - discriminate.
  - exact IH.
Qed.

(** C4, as amended.  When no criterion is flagged required, the checker
    returns 1.0 for the empty map and [0.0 / len(criteria)] for a map that
    is not empty, which is 0.0 (computed here for every size up to 4096),
    not 1.0. *)
Theorem no_required_criteria_ratio (item : Entity) (criteria : gmap string bool) :
  required_count criteria = 0 ->
  (size criteria = 0 -> _check_validation_criteria item criteria = 1.0%float)
  /\ (1 <= size criteria ->
      _check_validation_criteria item criteria
      = PrimFloat.div 0 (float_of_nat (size criteria)))
  /\ (1 <= size criteria <= 4096 ->
      _check_validation_criteria item criteria = 0%float).
Proof.
  intros Hreq.
  rewrite check_validation_criteria_ratio, (required_none_met_none _ _ Hreq).
  cbn [add_ones].
  split; [|split].
  - intros ->. reflexivity.
  - intros Hs. destruct (Nat.eqb_spec (size criteria) 0); [lia|reflexivity].
  - intros Hs. destruct (Nat.eqb_spec (size criteria) 0); [lia|].
    now apply zero_ratio_small.
Qed.

Lemma no_required_criteria_ratio_witness :
  required_count traceability_not_required = 0
  /\ 1 <= size traceability_not_required <= 4096
  /\ _check_validation_criteria traceability_item traceability_not_required = 0%float.
Proof.
  assert (Hreq : required_count traceability_not_required = 0)
    by (vm_compute; reflexivity).
  assert (Hs : 1 <= size traceability_not_required <= 4096)
    by (change (size traceability_not_required) with 1; lia).
  split; [exact Hreq|]. split; [exact Hs|].
  exact (proj2 (proj2 (no_required_criteria_ratio traceability_item
                         traceability_not_required Hreq)) Hs).
Defined.

(** C4 as stated fails: a map that is not empty and flags nothing as
    required gives 0.0, with or without the keyword in the text. *)
Lemma not_required_ratio_is_zero :
  required_count traceability_not_required = 0
  /\ _check_validation_criteria traceability_item traceability_not_required = 0%float
  /\ _check_validation_criteria ∅ traceability_not_required = 0%float.
Proof. repeat split; vm_compute; reflexivity. Qed.

(** ** The risk-analysis requirement against FDA_820_001 (C5) *)

Lemma evaluate_requirement_same_text (text : string) (requirement requirement' : Entity)
    (rule : ComplianceRule.t) :
  item_text_of requirement = item_text_of requirement' ->
  _evaluate_requirement_against_rule text requirement rule
  = _evaluate_requirement_against_rule text requirement' rule.
Proof.
  intros H. unfold _evaluate_requirement_against_rule, _check_validation_criteria.
  now rewrite H.
Qed.

(** C5, as amended.  For the requirement with the given description and
    no (or an empty) title, FDA_820_001 finds exactly one of its six
    requirement patterns, [design\s+input]; one of its three criteria
    (traceability) is met; the score is 0.6 * 1/6 + 0.4 * 1/3, below 0.5,
    and the result is NON_COMPLIANT. *)
Theorem risk_requirement_non_compliant (requirement : Entity) :
  requirement !! "description" = Some (Py.PStr risk_description) ->
  Py.get_str requirement "title" = "" ->
  count_patterns (ComplianceRule.requirement_patterns FDA_820_001)
    (item_text_of requirement) = 1
  /\ ComplianceResult.evidence
       (_evaluate_requirement_against_rule (item_text_of requirement) requirement
          FDA_820_001)
     = ["Found pattern: design\s+input"]
  /\ ComplianceResult.score
       (_evaluate_requirement_against_rule (item_text_of requirement) requirement
          FDA_820_001)
     = 0.23333333333333334%float
  /\ ComplianceResult.compliance_level
       (_evaluate_requirement_against_rule (item_text_of requirement) requirement
          FDA_820_001)
     = ComplianceLevel.NON_COMPLIANT.
Proof.
  intros Hd Ht.
  assert (Htext : item_text_of requirement = item_text_of risk_requirement).
  { unfold item_text_of, Py.get_str in *. rewrite Hd.
    destruct (requirement !! "title") as [v|]; [rewrite Ht|]; reflexivity. }
  rewrite (evaluate_requirement_same_text _ _ _ _ Htext), Htext.
  repeat split; vm_compute; reflexivity.
Qed.

Lemma risk_requirement_non_compliant_witness :
  count_patterns (ComplianceRule.requirement_patterns FDA_820_001)
    (item_text_of risk_requirement) = 1
  /\ ComplianceResult.compliance_level
       (_evaluate_requirement_against_rule (item_text_of risk_requirement)
          risk_requirement FDA_820_001)
     = ComplianceLevel.NON_COMPLIANT.
Proof.
  assert (Hd : risk_requirement !! "description" = Some (Py.PStr risk_description))
    by (vm_compute; reflexivity).
  assert (Ht : Py.get_str risk_requirement "title" = "") by (vm_compute; reflexivity).
  pose proof (risk_requirement_non_compliant risk_requirement Hd Ht)
    as (H1 & _ & _ & H4).
  split; [exact H1 | exact H4].
Defined.

(** C5 as stated fails: on that requirement the rule finds one pattern,
    not two, the score is not at least 0.8, and the level is not
    COMPLIANT. *)
Lemma risk_requirement_one_pattern :
  Nat.leb 2 (count_patterns (ComplianceRule.requirement_patterns FDA_820_001)
               (item_text_of risk_requirement)) = false
  /\ ge (ComplianceResult.score
           (_evaluate_requirement_against_rule (item_text_of risk_requirement)
              risk_requirement FDA_820_001)) 0.8 = false
  /\ ComplianceLevel.eqb
       (ComplianceResult.compliance_level
          (_evaluate_requirement_against_rule (item_text_of risk_requirement)
             risk_requirement FDA_820_001))
       ComplianceLevel.COMPLIANT = false.
Proof. repeat split; vm_compute; reflexivity. Qed.

(** ** The rollup (C7) *)

Section Rollup.

Variables req_results tc_results : list ComplianceResult.t.

Lemma fold_standards_lookup (stds : list string) (acc : gmap string Overall.t)
    (standard : string) :
  fold_left (rollup_step req_results tc_results) stds acc !! standard
  = match (if existsb (String.eqb standard) stds
           then overall_entry standard req_results tc_results else None) with
    | Some e => Some e
    | None => acc !! standard
    end.
Proof.
  revert acc; induction stds as [|std stds IH]; intros acc; [reflexivity|].
  cbn [fold_left existsb]. rewrite IH.
  destruct (existsb (String.eqb standard) stds) eqn:Ex.
  - rewrite orb_true_r.
    destruct (overall_entry standard req_results tc_results) as [e|] eqn:Ee;
      [reflexivity|].
    unfold rollup_step.
    destruct (overall_entry std req_results tc_results) as [e'|] eqn:Ee';
      [|reflexivity].
    destruct (String.eqb_spec standard std) as [->|Hne]; [congruence|].
    now rewrite lookup_insert_ne.
  - rewrite orb_false_r. unfold rollup_step.
    destruct (String.eqb_spec standard std) as [->|Hne].
    + destruct (overall_entry std req_results tc_results) as [e|];
        [apply lookup_insert_eq|reflexivity].
    + destruct (overall_entry std req_results tc_results) as [e|];
        [now rewrite lookup_insert_ne|reflexivity].
Qed.

Lemma calculate_overall_with_lookup (stds : list string) (standard : string) :
  calculate_overall_with stds req_results tc_results !! standard
  = if existsb (String.eqb standard) stds
    then overall_entry standard req_results tc_results else None.
Proof.
  unfold calculate_overall_with.
  rewrite (fold_standards_lookup stds ∅ standard).
  destruct (if existsb (String.eqb standard) stds
            then overall_entry standard req_results tc_results else None);
    [reflexivity|apply lookup_empty].
Qed.

End Rollup.

Lemma existsb_eqb_in (standard : string) (stds : list string) :
  existsb (String.eqb standard) stds = true <-> In standard stds.
Proof.
  rewrite existsb_exists. split.
  - intros (x & Hin & E). apply String.eqb_eq in E. now subst.
  - intros Hin. exists standard. split; [exact Hin|apply String.eqb_refl].
Qed.

Lemma average_mean (rs : list ComplianceResult.t) :
  rs <> [] -> average (List.map ComplianceResult.score rs) = NFloat (mean_score rs).
Proof.
  destruct rs as [|r rs]; [congruence|]. intros _.
  unfold average, mean_score. now rewrite length_map.
Qed.

Lemma overall_entry_none (standard : string)
    (req_results tc_results : list ComplianceResult.t) :
  results_for standard req_results = [] ->
  results_for standard tc_results = [] ->
  overall_entry standard req_results tc_results = None.
Proof. intros HR HT. unfold overall_entry. now rewrite HR, HT. Qed.

Lemma overall_entry_some (standard : string)
    (req_results tc_results : list ComplianceResult.t) :
  results_for standard req_results <> [] \/ results_for standard tc_results <> [] ->
  exists e,
    overall_entry standard req_results tc_results = Some e
    /\ Overall.requirement_count e = List.length (results_for standard req_results)
    /\ Overall.test_case_count e = List.length (results_for standard tc_results)
    /\ Overall.compliance_level e
       = ComplianceLevel.value (threshold_level (num_to_float (Overall.score e)))
    /\ Overall.score e
       = match results_for standard req_results, results_for standard tc_results with
         | _ :: _, _ :: _ =>
             NFloat (PrimFloat.div
                       (PrimFloat.add (mean_score (results_for standard req_results))
                          (mean_score (results_for standard tc_results))) 2)
         | _ :: _, [] =>
             if truthy (mean_score (results_for standard req_results))
             then NFloat (mean_score (results_for standard req_results))
             else NInt0
         | [], _ => NFloat (mean_score (results_for standard tc_results))
         end.
Proof.
  intros H. unfold overall_entry.
  destruct (results_for standard req_results) as [|r R] eqn:ER;
    destruct (results_for standard tc_results) as [|t T] eqn:ET.
  - destruct H; congruence.
  - eexists. split; [reflexivity|].
    unfold num_or, average, mean_score.
    cbn [Overall.requirement_count Overall.test_case_count
         Overall.compliance_level Overall.score List.map List.length
         num_truthy num_to_float].
    rewrite ?length_map. repeat split.
  - eexists. split; [reflexivity|].
    unfold num_or, average, mean_score.
    cbn [Overall.requirement_count Overall.test_case_count
         Overall.compliance_level Overall.score List.map List.length
         num_truthy num_to_float].
    rewrite ?length_map. repeat split.
  - eexists. split; [reflexivity|].
    unfold num_or, average, mean_score.
    cbn [Overall.requirement_count Overall.test_case_count
         Overall.compliance_level Overall.score List.map List.length
         num_truthy num_to_float].
    rewrite ?length_map. repeat split.
Qed.

(** C7.  For a standard of the engine's list, the rollup has an entry
    exactly when one of the two groups has a result for it.  The entry
    counts the results of each group and is classified by the 0.8 / 0.5
    thresholds; its score is the mean of the two group averages when both
    groups have results, and the average of the one group that has results
    otherwise (the integer 0 standing for a requirement average that is
    zero).  A standard without results in both groups, or outside the
    list, has no entry. *)
Theorem rollup_per_standard (standard : string)
    (req_results tc_results : list ComplianceResult.t) :
  (results_for standard req_results = [] ->
   results_for standard tc_results = [] ->
   _calculate_overall_compliance req_results tc_results !! standard = None)
  /\ (~ In standard standards ->
      _calculate_overall_compliance req_results tc_results !! standard = None)
  /\ (In standard standards ->
      results_for standard req_results <> []
      \/ results_for standard tc_results <> [] ->
      exists e,
        _calculate_overall_compliance req_results tc_results !! standard = Some e
        /\ Overall.requirement_count e
           = List.length (results_for standard req_results)
        /\ Overall.test_case_count e
           = List.length (results_for standard tc_results)
        /\ Overall.compliance_level e
           = ComplianceLevel.value
               (threshold_level (num_to_float (Overall.score e)))
        /\ (results_for standard req_results <> [] ->
            results_for standard tc_results <> [] ->
            Overall.score e
            = NFloat (PrimFloat.div
                        (PrimFloat.add
                           (mean_score (results_for standard req_results))
                           (mean_score (results_for standard tc_results))) 2))
        /\ (results_for standard req_results <> [] ->
            results_for standard tc_results = [] ->
            Overall.score e = NFloat (mean_score (results_for standard req_results))
            \/ (Overall.score e = NInt0
                /\ PrimFloat.eqb (mean_score (results_for standard req_results)) 0
                   = true))
        /\ (results_for standard req_results = [] ->
            results_for standard tc_results <> [] ->
            Overall.score e
            = NFloat (mean_score (results_for standard tc_results)))).
Proof.
  unfold _calculate_overall_compliance.
  rewrite calculate_overall_with_lookup.
  split; [|split].
  - intros HR HT. rewrite (overall_entry_none _ _ _ HR HT).
    now destruct (existsb (String.eqb standard) standards).
  - intros Hn. destruct (existsb (String.eqb standard) standards) eqn:E;
      [|reflexivity].
    apply existsb_eqb_in in E. contradiction.
  - intros Hin Hne. rewrite (proj2 (existsb_eqb_in standard standards) Hin).
    destruct (overall_entry_some standard req_results tc_results Hne)
      as (e & He & Hrc & Htc & Hl & Hs).
    exists e. split; [exact He|]. split; [exact Hrc|]. split; [exact Htc|].
    split; [exact Hl|]. rewrite Hs.
    destruct (results_for standard req_results) as [|r R];
      destruct (results_for standard tc_results) as [|t T];
      (split; [|split]); try congruence; intros _ _.
    unfold truthy.
    destruct (PrimFloat.eqb (mean_score (r :: R)) 0); cbn [negb]; auto.
Qed.

Lemma rollup_per_standard_witness :
  In "HIPAA" standards
  /\ exists e,
       _calculate_overall_compliance
         (assess_requirement_compliance risk_requirement) [] !! "HIPAA" = Some e
       /\ Overall.requirement_count e = 1
       /\ Overall.test_case_count e = 0.
Proof.
  assert (Hin : In "HIPAA" standards) by (simpl; tauto).
  assert (Hne : results_for "HIPAA" (assess_requirement_compliance risk_requirement)
                <> []
                \/ results_for "HIPAA" [] <> []).
  { left. vm_compute. intros H. discriminate H. }
  split; [exact Hin|].
  destruct (proj2 (proj2 (rollup_per_standard "HIPAA"
                            (assess_requirement_compliance risk_requirement) []))
              Hin Hne) as (e & He & Hrc & Htc & _).
  exists e. split; [exact He|]. split; [rewrite Hrc|rewrite Htc]; vm_compute;
    reflexivity.
Defined.

(** ** A phrase in the text is found by the pattern it instantiates *)

Lemma prefix_split (p s : string) :
  String.prefix p s = true -> exists t, s = p +:+ t.
Proof.
  revert s; induction p as [|c p IH]; intros [|d s]; simpl;
    try discriminate; try (intros _; eexists; reflexivity).
  destruct (ascii_dec c d) as [->|]; [|discriminate].
  intros H. destruct (IH _ H) as [t ->]. now exists t.
Qed.

Lemma contains_split (sub s : string) :
  Py.contains sub s = true -> exists a b, s = a +:+ sub +:+ b.
Proof.
  induction s as [|c s IH]; cbn [Py.contains].
  - destruct (String.prefix sub "") eqn:E; [|discriminate].
    intros _. destruct (prefix_split _ _ E) as [t Ht]. now exists "", t.
  - destruct (String.prefix sub (String c s)) eqn:E.
    + intros _. destruct (prefix_split _ _ E) as [t Ht]. now exists "", t.
    + intros H. destruct (IH H) as (a & b & ->). now exists (String c a), b.
Qed.

Lemma append_cons (x : ascii) (u t : string) :
  String x u +:+ t = String x (u +:+ t).
Proof. reflexivity. Qed.

Lemma match_plus_extend (a : Re.Atom) (rest : string -> bool) (u t : string) :
  (forall v, rest v = true -> rest (v +:+ t) = true) ->
  Re.match_plus a rest u = true -> Re.match_plus a rest (u +:+ t) = true.
Proof.
  intros Hrest. induction u as [|x u IHu]; [discriminate|].
  rewrite append_cons. cbn [Re.match_plus].
  destruct (Re.atom_matches a x); [|discriminate].
  destruct (Re.match_plus a rest u).
  - intros _. now rewrite IHu.
  - intros H. rewrite (Hrest _ H). now destruct (Re.match_plus a rest (u +:+ t)).
Qed.

Lemma match_here_extend (r : Re.Regex) (u t : string) :
  Re.match_here r u = true -> Re.match_here r (u +:+ t) = true.
Proof.
  revert u; induction r as [|[a plus] r IH]; intros u; [reflexivity|].
  destruct plus; cbn [Re.match_here].
  - apply match_plus_extend, IH.
  - destruct u as [|x u]; [discriminate|]. rewrite append_cons.
    destruct (Re.atom_matches a x); [|discriminate]. apply IH.
Qed.

Lemma search_regex_skip (r : Re.Regex) (a u : string) :
  Re.match_here r u = true -> Re.search_regex r (a +:+ u) = true.
Proof.
  intros H. induction a as [|c a IH].
  - change ("" +:+ u) with u. destruct u; cbn [Re.search_regex]; now rewrite H.
  - rewrite append_cons. cbn [Re.search_regex]. rewrite IH.
    now destruct (Re.match_here r (String c (a +:+ u))).
Qed.

Lemma search_of_contains (pattern phrase text : string) (r : Re.Regex) :
  Re.compile pattern = Some r ->
  Re.match_here r phrase = true ->
  Py.contains phrase text = true ->
  Re.search pattern text = true.
Proof.
  intros Hc Hm Ht. unfold Re.search. rewrite Hc.
  destruct (contains_split _ _ Ht) as (a & b & ->).
  apply search_regex_skip, match_here_extend, Hm.
Qed.

Lemma count_patterns_found (patterns : list string) (pattern text : string) :
  In pattern patterns -> Re.search pattern text = true ->
  1 <= count_patterns patterns text.
Proof.
  intros Hin Hs. rewrite count_patterns_filter.
  assert (Hf : In pattern (List.filter (fun p => Re.search p text) patterns))
    by (apply filter_In; auto).
  destruct (List.filter (fun p => Re.search p text) patterns); [destruct Hf|].
  simpl. lia.
Qed.

(** ** The access-control test case against ISO_27001_001 (C6) *)

Lemma iso_27001_partial_when_complete :
  tc_scores_all
    (fun m bonus c s => negb bonus || Nat.eqb m 0 || negb (ge c 0.6) || ge s 0.5)
    ISO_27001_001 = true.
Proof. vm_compute. reflexivity. Qed.

Lemma threshold_level_half (x : float) :
  ge x 0.5 = true ->
  threshold_level x = ComplianceLevel.COMPLIANT
  \/ threshold_level x = ComplianceLevel.PARTIALLY_COMPLIANT.
Proof.
  intros H. unfold threshold_level. rewrite H.
  destruct (ge x 0.8); auto.
Qed.

(** C6, as amended.  For a test case whose full text contains "verify
    access control" and "authentication test", linked to a requirement
    whose text contains "encryption" and "access control", ISO_27001_001
    is evaluated without error, is reported (never UNKNOWN, and present in
    the result list), and is COMPLIANT or PARTIALLY_COMPLIANT whenever the
    completeness of the test case is at least 0.6.  Below that the bonus
    does not keep it from NON_COMPLIANT. *)
Theorem access_control_test_case_level (test_case requirement : Entity)
    (text : string) :
  full_text_of test_case = Py.Return text ->
  Py.contains "verify access control" text = true ->
  Py.contains "authentication test" text = true ->
  Py.contains "encryption" (item_text_of requirement) = true ->
  Py.contains "access control" (item_text_of requirement) = true ->
  exists (r : ComplianceResult.t) (c : float) (results : list ComplianceResult.t),
    _evaluate_test_case_against_rule text test_case ISO_27001_001 (Some requirement)
    = Py.Return r
    /\ _assess_test_case_completeness test_case = Py.Return c
    /\ assess_test_case_compliance test_case (Some requirement) = Py.Return results
    /\ In r results
    /\ is_unknown r = false
    /\ (ge c 0.6 = true ->
        ComplianceResult.compliance_level r = ComplianceLevel.COMPLIANT
        \/ ComplianceResult.compliance_level r = ComplianceLevel.PARTIALLY_COMPLIANT).
Proof.
  intros Htext _ Hauth Henc _.
  pose proof (full_text_joinable _ _ Htext) as J.
  assert (Hm : 1 <= count_patterns (ComplianceRule.test_case_patterns ISO_27001_001)
                      text).
  { apply (count_patterns_found _ "authentication\s+test"); [simpl; tauto|].
    eapply (search_of_contains _ "authentication test");
      [vm_compute; reflexivity | vm_compute; reflexivity | exact Hauth]. }
  assert (Hq : 1 <= req_pattern_matches_of ISO_27001_001 (Some requirement)).
  { unfold req_pattern_matches_of.
    destruct (Nat.eqb_spec (size requirement) 0) as [E|_].
    - apply map_size_empty_inv in E. subst requirement.
      vm_compute in Henc. discriminate Henc.
    - apply (count_patterns_found _ "encryption"); [simpl; tauto|].
      eapply (search_of_contains _ "encryption");
        [vm_compute; reflexivity | vm_compute; reflexivity | exact Henc]. }
  destruct (evaluate_test_case_returns text test_case ISO_27001_001
              (Some requirement) J) as [r Hr].
  destruct (evaluate_test_case_cases _ _ _ _ _ Hr) as [(E & _)|[Hmq Hu]]; [lia|].
  destruct (tc_scores_all_score _ _ _ _ _ _ iso_27001_partial_when_complete Hr Hu)
    as (c & Hc & HP).
  destruct (assess_test_case_with_returns compliance_rules test_case
              (Some requirement) J) as [results Hres].
  exists r, c, results.
  split; [exact Hr|]. split; [exact Hc|]. split; [exact Hres|].
  split; [|split; [exact Hu|]].
  - destruct (assess_test_case_with_in _ _ _ _ Hres) as (text' & Htext' & Hspec).
    assert (text' = text) as -> by congruence.
    apply Hspec. exists ISO_27001_001. split; [simpl; tauto|]. auto.
  - intros Hge.
    destruct (evaluate_test_case_score text test_case ISO_27001_001
                (Some requirement) Hmq)
      as [[He _]|(r' & c' & Hr' & _ & _ & Hl & _)]; [congruence|].
    assert (r' = r) as -> by congruence.
    rewrite Hl. apply threshold_level_half.
    cbv beta in HP. rewrite Hge in HP.
    apply Nat.ltb_lt in Hq. rewrite Hq in HP.
    destruct (Nat.eqb_spec
                (count_patterns (ComplianceRule.test_case_patterns ISO_27001_001) text)
                0) as [E|_]; [lia|].
    exact HP.
Qed.

Lemma access_control_test_case_level_witness :
  exists (r : ComplianceResult.t) (c : float) (results : list ComplianceResult.t),
    _evaluate_test_case_against_rule
      "access control check only signed-in users reach patient records verify access control authentication test"
      complete_access_control_test_case ISO_27001_001 (Some encryption_requirement)
    = Py.Return r
    /\ _assess_test_case_completeness complete_access_control_test_case
       = Py.Return c
    /\ assess_test_case_compliance complete_access_control_test_case
         (Some encryption_requirement) = Py.Return results
    /\ In r results
    /\ is_unknown r = false
    /\ (ge c 0.6 = true ->
        ComplianceResult.compliance_level r = ComplianceLevel.COMPLIANT
        \/ ComplianceResult.compliance_level r = ComplianceLevel.PARTIALLY_COMPLIANT).
Proof.
  apply (access_control_test_case_level complete_access_control_test_case
           encryption_requirement
           "access control check only signed-in users reach patient records verify access control authentication test");
    vm_compute; reflexivity.
Defined.

(** C6 as stated fails: with the two phrases as the only test steps and
    nothing else filled in, one test pattern of five is found, the bonus
    applies, the completeness is 0.3, and the result is NON_COMPLIANT with
    score 0.37. *)
Lemma access_control_test_case_non_compliant :
  exists r,
    full_text_of access_control_test_case
    = Py.Return "  verify access control authentication test"
    /\ item_text_of encryption_requirement = " encryption and access control"
    /\ assess_test_case_compliance access_control_test_case
         (Some encryption_requirement) = Py.Return [r]
    /\ ComplianceResult.rule_id r = "ISO_27001_001"
    /\ ComplianceResult.score r = 0.37%float
    /\ ComplianceResult.compliance_level r = ComplianceLevel.NON_COMPLIANT.
Proof.
  eexists. split; [vm_compute; reflexivity|]. split; [vm_compute; reflexivity|].
  split; [vm_compute; reflexivity|].
  repeat split; vm_compute; reflexivity.
Qed.

(** ** Sample evaluations *)

Example search_allows_wide_space :
  Re.search "design\s+input" "traceability to design   inputs" = true.
Proof. reflexivity. Qed.

Example search_bracket_set :
  Re.search "class\s+[abc]\s+test" "a Class B test" = true
  /\ Re.search "class\s+[abc]\s+test" "a class d test" = false.
Proof. split; reflexivity. Qed.

Example compile_refuses_alternation : Re.compile "a|b" = None.
Proof. reflexivity. Qed.

Example str_of_values :
  Py.str (Py.PList [Py.PInt (-3); Py.PNone; Py.PBool true; Py.PStr "a"])
  = "[-3, None, True, 'a']".
Proof. reflexivity. Qed.

Example join_of_string : Py.join " " (Py.PStr "abc") = Py.Return "a b c".
Proof. reflexivity. Qed.

Example str_of_floats :
  List.map Py.repr_float
    [ 0.1%float; 1.5%float; 100%float; 1e16%float; 1e22%float; 0.0001%float;
      0.00001%float; (-2.5)%float; PrimFloat.infinity; PrimFloat.nan ]
  = [ "0.1"; "1.5"; "100.0"; "1e+16"; "1e+22"; "0.0001"; "1e-05"; "-2.5"; "inf";
      "nan" ]
  /\ Py.repr_float (PrimFloat.add 0.1 0.2) = "0.30000000000000004"
  /\ Py.repr_float (PrimFloat.div 1 3) = "0.3333333333333333"
  /\ Py.repr_float 9007199254740992%float = "9007199254740992.0"
  /\ Py.repr_float 5e-324%float = "5e-324"
  /\ Py.repr_float 1.7976931348623157e308%float = "1.7976931348623157e+308".
Proof. repeat split; vm_compute; reflexivity. Qed.

Example str_of_dict :
  Py.str (Py.PDict [ ("a", Py.PInt 1); ("b", Py.PList [Py.PFloat 0.5%float]) ])
  = "{'a': 1, 'b': [0.5]}"
  /\ Py.join " " (Py.PDict [ ("a", Py.PInt 1); ("b", Py.PNone) ]) = Py.Return "a b"
  /\ Py.len (Py.PDict [ ("a", Py.PInt 1) ]) = Py.Return 1.
Proof. repeat split; vm_compute; reflexivity. Qed.

Example equal_values :
  py_eq (Py.PInt 3) (Py.PFloat 3%float) = true
  /\ py_eq (Py.PFloat 0.5%float) (Py.PInt 0) = false
  /\ py_eq (Py.PBool true) (Py.PFloat 1%float) = true
  /\ py_eq (Py.PFloat PrimFloat.nan) (Py.PFloat PrimFloat.nan) = false
  /\ py_eq (Py.PDict [ ("a", Py.PInt 1); ("b", Py.PNone) ])
           (Py.PDict [ ("b", Py.PNone); ("a", Py.PFloat 1%float) ]) = true
  /\ py_eq (Py.PStr "1") (Py.PInt 1) = false.
Proof. repeat split; vm_compute; reflexivity. Qed.

Example risk_requirement_rules :
  List.map ComplianceResult.rule_id (assess_requirement_compliance risk_requirement)
  = ["FDA_820_001"; "FDA_820_002"; "HIPAA_001"].
Proof. vm_compute. reflexivity. Qed.

Example empty_requirement_no_results : assess_requirement_compliance ∅ = [].
Proof. vm_compute. reflexivity. Qed.

Example complete_access_control_partial :
  exists r,
    assess_test_case_compliance complete_access_control_test_case
      (Some encryption_requirement) = Py.Return [r]
    /\ ComplianceResult.compliance_level r = ComplianceLevel.PARTIALLY_COMPLIANT
    /\ ComplianceResult.score r = 0.72%float.
Proof.
  eexists. split; [vm_compute; reflexivity|]. split; vm_compute; reflexivity.
Qed.

Example threshold_boundaries :
  threshold_level 0.8 = ComplianceLevel.COMPLIANT
  /\ threshold_level 0.5 = ComplianceLevel.PARTIALLY_COMPLIANT
  /\ threshold_level 0.4999 = ComplianceLevel.NON_COMPLIANT.
Proof. repeat split; reflexivity. Qed.

Example rollup_of_risk_requirement :
  Overall.score <$> (_calculate_overall_compliance
                       (assess_requirement_compliance risk_requirement) []
                     !! "FDA 21 CFR Part 820")
  = Some (NFloat 0.29166666666666663)
  /\ _calculate_overall_compliance
       (assess_requirement_compliance risk_requirement) [] !! "GDPR" = None.
Proof. split; vm_compute; reflexivity. Qed.

(** * Further properties of the engine and of the report route *)

(** ** Counting and ranking the recommendations *)

Lemma all_recommendations_flat (results : list ComplianceResult.t) :
  all_recommendations_of results
  = flat_map ComplianceResult.recommendations results.
Proof.
  unfold all_recommendations_of.
  assert (H : forall acc,
             fold_left (fun all result => all ++ ComplianceResult.recommendations result)
               results acc
             = acc ++ flat_map ComplianceResult.recommendations results).
  { induction results as [|r results IH]; intros acc; simpl.
    - now rewrite app_nil_r.
    - now rewrite IH, app_assoc. }
  apply (H []).
Qed.

Lemma get_count_update (k rec : string) (counts : list (string * nat)) :
  get_count k (count_recommendation rec counts)
  = if String.eqb k rec then S (get_count k counts) else get_count k counts.
Proof.
  induction counts as [|[k' n] counts IH]; simpl.
  - rewrite (String.eqb_sym rec k). now destruct (String.eqb k rec).
  - destruct (String.eqb_spec k' rec) as [->|Hne]; simpl.
    + rewrite (String.eqb_sym rec k). now destruct (String.eqb k rec).
    + destruct (String.eqb_spec k' k) as [->|Hne'].
      * destruct (String.eqb_spec k rec); [contradiction|reflexivity].
      * exact IH.
Qed.

Lemma occurrences_cons (k x : string) (l : list string) :
  occurrences k (x :: l)
  = if String.eqb k x then S (occurrences k l) else occurrences k l.
Proof. unfold occurrences. simpl. now destruct (String.eqb k x). Qed.

Lemma get_count_fold (k : string) (l : list string) (acc : list (string * nat)) :
  get_count k (fold_left (fun counts rec => count_recommendation rec counts) l acc)
  = get_count k acc + occurrences k l.
Proof.
  revert acc; induction l as [|x l IH]; intros acc; simpl.
  - unfold occurrences. simpl. lia.
  - rewrite IH, get_count_update, occurrences_cons.
    destruct (String.eqb k x); lia.
Qed.

Lemma get_count_occurrences (k : string) (l : list string) :
  get_count k (recommendation_counts_of l) = occurrences k l.
Proof. unfold recommendation_counts_of. now rewrite get_count_fold. Qed.

(** The keys of the dict are the recommendations in first-seen order. *)

Lemma key_in_spec (keys : list string) (x : string) :
  key_in keys x = true <-> In x keys.
Proof.
  unfold key_in. rewrite existsb_exists. split.
  - intros (k & Hin & E). apply String.eqb_eq in E. now subst.
  - intros Hin. exists x. split; [exact Hin|apply String.eqb_refl].
Qed.

Lemma keys_update (rec : string) (counts : list (string * nat)) :
  List.map fst (count_recommendation rec counts)
  = if key_in (List.map fst counts) rec then List.map fst counts
    else List.map fst counts ++ [rec].
Proof.
  induction counts as [|[k n] counts IH]; simpl; [reflexivity|].
  destruct (String.eqb k rec); simpl; [reflexivity|].
  rewrite IH. now destruct (key_in (List.map fst counts) rec).
Qed.

Lemma filter_implied {A : Type} (P Q : A -> bool) (l : list A) :
  (forall y, P y = true -> Q y = true) ->
  List.filter P (List.filter Q l) = List.filter P l.
Proof.
  intros H. induction l as [|y l IH]; simpl; [reflexivity|].
  destruct (Q y) eqn:EQ; simpl.
  - now rewrite IH.
  - destruct (P y) eqn:EP; [|exact IH].
    rewrite (H y EP) in EQ. discriminate.
Qed.

Lemma filter_both {A : Type} (P Q : A -> bool) (l : list A) :
  List.filter (fun y => P y && Q y) l = List.filter P (List.filter Q l).
Proof.
  induction l as [|y l IH]; simpl; [reflexivity|].
  destruct (Q y); simpl.
  - rewrite andb_true_r. destruct (P y); now rewrite IH.
  - now rewrite andb_false_r.
Qed.

Lemma keys_fold (l : list string) (acc : list (string * nat)) :
  List.map fst (fold_left (fun counts rec => count_recommendation rec counts) l acc)
  = List.map fst acc
    ++ List.filter (fun y => negb (key_in (List.map fst acc) y)) (first_seen l).
Proof.
  revert acc; induction l as [|x l IH]; intros acc; cbn [fold_left first_seen].
  - simpl. now rewrite app_nil_r.
  - rewrite IH, keys_update. cbn [List.filter].
    destruct (key_in (List.map fst acc) x) eqn:Ex; cbn [negb].
    + f_equal. symmetry. apply filter_implied. intros y Hy.
      apply negb_true_iff. apply negb_true_iff in Hy.
      destruct (String.eqb_spec y x) as [->|]; [congruence|reflexivity].
    + rewrite <- app_assoc. cbn [app]. do 2 f_equal.
      rewrite <- filter_both. apply filter_ext. intros y.
      unfold key_in. rewrite existsb_app. cbn [existsb].
      rewrite orb_false_r, negb_orb, (String.eqb_sym x y). reflexivity.
Qed.

Lemma keys_first_seen (l : list string) :
  List.map fst (recommendation_counts_of l) = first_seen l.
Proof.
  unfold recommendation_counts_of. rewrite keys_fold. simpl.
  induction (first_seen l) as [|y fs IH]; simpl; [reflexivity|]. now rewrite IH.
Qed.

Lemma first_seen_in (l : list string) (x : string) :
  In x (first_seen l) <-> In x l.
Proof.
  induction l as [|y l IH]; simpl; [tauto|].
  rewrite filter_In, IH, negb_true_iff.
  destruct (String.eqb_spec x y) as [->|Hne]; [tauto|].
  split; [tauto|]. intros [E|H]; [congruence|auto].
Qed.

Lemma first_seen_nodup (l : list string) : List.NoDup (first_seen l).
Proof.
  induction l as [|y l IH]; simpl; [constructor|].
  constructor.
  - rewrite filter_In, String.eqb_refl. simpl. intros [_ H]. discriminate.
  - now apply List.NoDup_filter.
Qed.

Lemma get_count_in (counts : list (string * nat)) (k : string) (n : nat) :
  List.NoDup (List.map fst counts) -> In (k, n) counts -> get_count k counts = n.
Proof.
  induction counts as [|[k' n'] counts IH]; simpl; [tauto|].
  intros Hnd [E|Hin].
  - injection E as -> ->. now rewrite String.eqb_refl.
  - inversion Hnd as [|? ? Hnot Hnd']; subst.
    destruct (String.eqb_spec k' k) as [->|_].
    + exfalso. apply Hnot. apply in_map_iff. now exists (k, n).
    + now apply IH.
Qed.

Lemma in_get_count (counts : list (string * nat)) (k : string) :
  In k (List.map fst counts) -> In (k, get_count k counts) counts.
Proof.
  induction counts as [|[k' n'] counts IH]; simpl; [tauto|].
  intros [E|Hin].
  - subst. rewrite String.eqb_refl. now left.
  - destruct (String.eqb_spec k' k) as [->|_]; [now left|]. right. now apply IH.
Qed.

Lemma recommendation_counts_spec (l : list string) (k : string) (n : nat) :
  In (k, n) (recommendation_counts_of l) <-> In k l /\ n = occurrences k l.
Proof.
  split.
  - intros Hin. split.
    + apply first_seen_in. rewrite <- keys_first_seen.
      apply in_map_iff. now exists (k, n).
    + rewrite <- get_count_occurrences. symmetry. apply get_count_in; [|exact Hin].
      rewrite keys_first_seen. apply first_seen_nodup.
  - intros [Hin ->]. rewrite <- get_count_occurrences. apply in_get_count.
    rewrite keys_first_seen. now apply first_seen_in.
Qed.

(** The sort is a stable sort by decreasing count. *)

Lemma insert_by_count_perm (x : string * nat) (l : list (string * nat)) :
  Permutation (insert_by_count x l) (x :: l).
Proof.
  induction l as [|y l IH]; simpl; [reflexivity|].
  destruct (Nat.ltb (snd x) (snd y)); [|reflexivity].
  rewrite IH. apply perm_swap.
Qed.

Lemma sort_by_count_perm (l : list (string * nat)) :
  Permutation (sort_by_count l) l.
Proof.
  induction l as [|x l IH]; simpl; [reflexivity|].
  now rewrite insert_by_count_perm, IH.
Qed.

Lemma insert_by_count_sorted (x : string * nat) (l : list (string * nat)) :
  StronglySorted not_before l -> StronglySorted not_before (insert_by_count x l).
Proof.
  induction 1 as [|y l Hs IH Hall]; simpl.
  - constructor; constructor.
  - rewrite List.Forall_forall in Hall.
    destruct (Nat.ltb_spec (snd x) (snd y)) as [Hlt|Hge].
    + constructor; [exact IH|].
      apply List.Forall_forall. intros z Hz.
      apply (Permutation_in _ (insert_by_count_perm x l)) in Hz.
      destruct Hz as [<-|Hz]; [unfold not_before; lia|].
      now apply Hall.
    + constructor; [constructor; [exact Hs|now apply List.Forall_forall]|].
      constructor; [exact Hge|].
      apply List.Forall_forall. intros z Hz.
      specialize (Hall z Hz). unfold not_before in *. lia.
Qed.

Lemma sort_by_count_sorted (l : list (string * nat)) :
  StronglySorted not_before (sort_by_count l).
Proof.
  induction l as [|x l IH]; simpl; [constructor|].
  now apply insert_by_count_sorted.
Qed.

Lemma insert_by_count_stable (n : nat) (x : string * nat) (l : list (string * nat)) :
  List.filter (fun kv => Nat.eqb (snd kv) n) (insert_by_count x l)
  = List.filter (fun kv => Nat.eqb (snd kv) n) (x :: l).
Proof.
  induction l as [|y l IH]; [reflexivity|]. cbn [insert_by_count].
  destruct (Nat.ltb_spec (snd x) (snd y)) as [Hlt|Hge]; [|reflexivity].
  cbn [List.filter] in *. rewrite IH.
  destruct (Nat.eqb_spec (snd x) n), (Nat.eqb_spec (snd y) n); try reflexivity.
  lia.
Qed.

Lemma sort_by_count_stable (n : nat) (l : list (string * nat)) :
  List.filter (fun kv => Nat.eqb (snd kv) n) (sort_by_count l)
  = List.filter (fun kv => Nat.eqb (snd kv) n) l.
Proof.
  induction l as [|x l IH]; [reflexivity|]. cbn [sort_by_count fold_right].
  fold (sort_by_count l). rewrite insert_by_count_stable.
  cbn [List.filter]. now rewrite IH.
Qed.

Lemma keys_with_count (l : list (string * nat)) (count : string -> nat) (n : nat) :
  (forall k m, In (k, m) l -> m = count k) ->
  List.map fst (List.filter (fun kv => Nat.eqb (snd kv) n) l)
  = List.filter (fun k => Nat.eqb (count k) n) (List.map fst l).
Proof.
  induction l as [|[k m] l IH]; intros H; [reflexivity|].
  cbn [List.filter List.map fst snd].
  rewrite (H k m) by (now left).
  destruct (Nat.eqb (count k) n); cbn [List.map fst]; rewrite IH; auto;
    intros k' m' Hin; apply H; now right.
Qed.

Lemma sorted_recommendations_perm (req_results tc_results : list ComplianceResult.t) :
  Permutation (sorted_recommendations_of req_results tc_results)
    (recommendation_counts_of
       (flat_map ComplianceResult.recommendations (req_results ++ tc_results))).
Proof.
  unfold sorted_recommendations_of. rewrite all_recommendations_flat.
  apply sort_by_count_perm.
Qed.

Lemma in_firstn {A : Type} (n : nat) (l : list A) (x : A) :
  In x (firstn n l) -> In x l.
Proof.
  intros H. rewrite <- (firstn_skipn n l). apply in_or_app. now left.
Qed.

Lemma sorted_recommendations_in (req_results tc_results : list ComplianceResult.t)
    (rec : string) (n : nat) :
  In (rec, n) (sorted_recommendations_of req_results tc_results) <->
  In rec (flat_map ComplianceResult.recommendations (req_results ++ tc_results))
  /\ n = occurrences rec
           (flat_map ComplianceResult.recommendations (req_results ++ tc_results)).
Proof.
  pose proof (sorted_recommendations_perm req_results tc_results) as HP.
  rewrite <- recommendation_counts_spec. split.
  - apply (Permutation_in _ HP).
  - apply (Permutation_in _ (Permutation_sym HP)).
Qed.

(** X1.  The ranked list holds every distinct recommendation of the results
    exactly once, paired with the number of times it occurs. *)
Theorem ranked_recommendations_counts (req_results tc_results : list ComplianceResult.t) :
  List.NoDup (List.map fst (sorted_recommendations_of req_results tc_results))
  /\ forall (rec : string) (n : nat),
       In (rec, n) (sorted_recommendations_of req_results tc_results) <->
       In rec (flat_map ComplianceResult.recommendations (req_results ++ tc_results))
       /\ n = occurrences rec
                (flat_map ComplianceResult.recommendations (req_results ++ tc_results)).
Proof.
  pose proof (sorted_recommendations_perm req_results tc_results) as HP.
  split.
  - apply (Permutation_NoDup (Permutation_sym (Permutation_map fst HP))).
    rewrite keys_first_seen. apply first_seen_nodup.
  - intros rec n. apply sorted_recommendations_in.
Qed.

(** X2.  The ranked list is in order of decreasing count, and the
    recommendations with the same count stand in the order in which they
    were first seen. *)
Theorem ranked_recommendations_order (req_results tc_results : list ComplianceResult.t) :
  StronglySorted not_before (sorted_recommendations_of req_results tc_results)
  /\ forall n : nat,
       List.map fst
         (List.filter (fun item => Nat.eqb (snd item) n)
            (sorted_recommendations_of req_results tc_results))
       = List.filter
           (fun rec =>
              Nat.eqb
                (occurrences rec
                   (flat_map ComplianceResult.recommendations
                      (req_results ++ tc_results))) n)
           (first_seen
              (flat_map ComplianceResult.recommendations (req_results ++ tc_results))).
Proof.
  split; [apply sort_by_count_sorted|].
  intros n. unfold sorted_recommendations_of.
  rewrite sort_by_count_stable, all_recommendations_flat.
  rewrite (keys_with_count _
             (fun rec =>
                occurrences rec
                  (flat_map ComplianceResult.recommendations
                     (req_results ++ tc_results)))).
  - now rewrite keys_first_seen.
  - intros k m Hin. now apply recommendation_counts_spec in Hin.
Qed.

(** X3.  The report lists min(10, number of distinct recommendations)
    lines, and every line names a recommendation that occurs in the
    results, with the number of its occurrences. *)
Theorem overall_recommendations_lines (req_results tc_results : list ComplianceResult.t) :
  List.length (_generate_overall_recommendations req_results tc_results)
  = Nat.min 10
      (List.length
         (first_seen
            (flat_map ComplianceResult.recommendations (req_results ++ tc_results))))
  /\ forall line : string,
       In line (_generate_overall_recommendations req_results tc_results) ->
       exists rec : string,
         In rec (flat_map ComplianceResult.recommendations (req_results ++ tc_results))
         /\ line
            = format_recommendation
                (rec,
                 occurrences rec
                   (flat_map ComplianceResult.recommendations
                      (req_results ++ tc_results))).
Proof.
  unfold _generate_overall_recommendations. split.
  - rewrite length_map, length_firstn.
    rewrite (Permutation_length (sorted_recommendations_perm req_results tc_results)).
    rewrite <- (length_map fst), keys_first_seen. reflexivity.
  - intros line Hin. apply in_map_iff in Hin. destruct Hin as ([rec n] & <- & Hin).
    apply in_firstn in Hin.
    apply sorted_recommendations_in in Hin.
    destruct Hin as [Hin ->]. now exists rec.
Qed.

(** ** The report *)

Lemma report_requirements_fold (requirements : list Entity)
    (acc : list ComplianceResult.t * list RequirementCompliance.t) :
  fold_left report_requirement requirements acc
  = (fst acc ++ flat_map assess_requirement_compliance requirements,
     snd acc
     ++ List.map
          (fun req =>
             RequirementCompliance.mk
               (get_or req "requirement_id" (Py.PStr "Unknown"))
               (List.map _compliance_result_to_dict
                  (assess_requirement_compliance req)))
          requirements).
Proof.
  revert acc; induction requirements as [|req requirements IH]; intros [all secs].
  - simpl. now rewrite !app_nil_r.
  - cbn [fold_left]. rewrite IH. unfold report_requirement.
    cbn [fst snd flat_map List.map]. now rewrite <- !app_assoc.
Qed.

Lemma report_test_cases_error (requirements test_cases : list Entity) :
  fold_left (report_test_case requirements) test_cases Py.TypeError = Py.TypeError.
Proof. induction test_cases as [|tc test_cases IH]; simpl; auto. Qed.

Lemma report_test_cases_raises (requirements test_cases : list Entity)
    (acc : list ComplianceResult.t * list TestCaseCompliance.t) :
  all_joinable test_cases = false ->
  fold_left (report_test_case requirements) test_cases (Py.Return acc) = Py.TypeError.
Proof.
  revert acc; induction test_cases as [|tc test_cases IH]; intros acc;
    [discriminate|].
  unfold all_joinable. cbn [forallb fold_left].
  unfold report_test_case at 2. cbn [Py.bind].
  destruct (joinable (test_steps_of tc)) eqn:J; cbn [andb].
  - intros H.
    destruct (assess_test_case_with_returns compliance_rules tc
                (find_related requirements tc) J) as [results Hres].
    unfold assess_test_case_compliance. rewrite Hres. cbn [Py.bind].
    now apply IH.
  - intros _. unfold assess_test_case_compliance.
    rewrite (assess_test_case_with_raises compliance_rules tc _ J).
    cbn [Py.bind]. apply report_test_cases_error.
Qed.

Lemma report_test_cases_returns (requirements test_cases : list Entity)
    (acc : list ComplianceResult.t * list TestCaseCompliance.t) :
  all_joinable test_cases = true ->
  exists results : list (list ComplianceResult.t),
    fold_left (report_test_case requirements) test_cases (Py.Return acc)
    = Py.Return
        (fst acc ++ concat results,
         snd acc
         ++ List.map
              (fun p =>
                 TestCaseCompliance.mk
                   (get_or (fst p) "test_case_id" (Py.PStr "Unknown"))
                   (List.map _compliance_result_to_dict (snd p)))
              (combine test_cases results))
    /\ List.Forall2
         (fun tc rs =>
            assess_test_case_compliance tc (find_related requirements tc)
            = Py.Return rs)
         test_cases results.
Proof.
  revert acc; induction test_cases as [|tc test_cases IH]; intros [all secs] H.
  - exists []. simpl. rewrite !app_nil_r. split; constructor.
  - unfold all_joinable in H. cbn [forallb] in H.
    apply andb_true_iff in H. destruct H as [J H].
    destruct (assess_test_case_with_returns compliance_rules tc
                (find_related requirements tc) J) as [results Hres].
    cbn [fold_left]. unfold report_test_case at 2. cbn [Py.bind].
    unfold assess_test_case_compliance at 1. rewrite Hres. cbn [Py.bind fst snd].
    destruct (IH (all ++ results,
                  secs ++ [TestCaseCompliance.mk
                             (get_or tc "test_case_id" (Py.PStr "Unknown"))
                             (List.map _compliance_result_to_dict results)]) H)
      as (rss & Hfold & Hall).
    exists (results :: rss). split.
    + rewrite Hfold. cbn [fst snd concat combine List.map].
      now rewrite <- !app_assoc.
    + constructor; [exact Hres|exact Hall].
Qed.

Lemma all_joinable_false (test_cases : list Entity) :
  all_joinable test_cases = false <->
  exists tc, In tc test_cases /\ joinable (test_steps_of tc) = false.
Proof.
  unfold all_joinable. split.
  - induction test_cases as [|tc test_cases IH]; [discriminate|].
    cbn [forallb]. destruct (joinable (test_steps_of tc)) eqn:J; cbn [andb].
    + intros H. destruct (IH H) as (tc' & Hin & J'). exists tc'. simpl. auto.
    + intros _. exists tc. simpl. auto.
  - intros (tc & Hin & J).
    destruct (forallb (fun tc => joinable (test_steps_of tc)) test_cases) eqn:E;
      [|reflexivity].
    rewrite forallb_forall in E. rewrite (E tc Hin) in J. discriminate.
Qed.


(** ** Every result is counted under one standard *)

Section Partition.

Context {A : Type}.
Variable key : A -> string.

Lemma one_key_matches (keys : list string) (a : string) :
  List.NoDup keys -> In a keys ->
  list_sum (List.map (fun k => if String.eqb a k then 1 else 0) keys) = 1.
Proof.
  induction 1 as [|k keys Hnot Hnd IH]; simpl; [tauto|].
  intros [->|Hin].
  - rewrite String.eqb_refl. f_equal.
    clear IH Hnd. induction keys as [|k' keys IH]; [reflexivity|]. simpl.
    destruct (String.eqb_spec a k') as [->|_]; [exfalso; apply Hnot; now left|].
    apply IH. intros H. apply Hnot. now right.
  - destruct (String.eqb_spec a k) as [->|_]; [contradiction|]. now apply IH.
Qed.

Lemma list_sum_map_add (f g : string -> nat) (keys : list string) :
  list_sum (List.map (fun k => f k + g k) keys)
  = list_sum (List.map f keys) + list_sum (List.map g keys).
Proof. induction keys as [|k keys IH]; simpl; [reflexivity|]. rewrite IH. lia. Qed.

Lemma counts_by_key_add_up (keys : list string) (l : list A) :
  List.NoDup keys ->
  (forall x, In x l -> In (key x) keys) ->
  list_sum
    (List.map
       (fun k => List.length (List.filter (fun x => String.eqb (key x) k) l)) keys)
  = List.length l.
Proof.
  intros Hnd. induction l as [|x l IH]; intros Hin.
  - simpl. clear Hnd Hin. induction keys; simpl; auto.
  - rewrite (map_ext _
               (fun k => (if String.eqb (key x) k then 1 else 0)
                         + List.length
                             (List.filter (fun x => String.eqb (key x) k) l))).
    + rewrite list_sum_map_add, one_key_matches, IH; auto.
      * intros y Hy. apply Hin. now right.
      * apply Hin. now left.
    + intros k. simpl. now destruct (String.eqb (key x) k).
Qed.

End Partition.

Lemma catalog_standards_listed :
  forallb
    (fun rule => existsb (String.eqb (ComplianceRule.standard rule)) standards)
    compliance_rules = true.
Proof. vm_compute. reflexivity. Qed.

Lemma standards_distinct : List.NoDup standards.
Proof.
  unfold standards.
  repeat (constructor;
          [simpl; intros H;
           repeat match goal with H : _ \/ _ |- _ => destruct H as [H|H] end;
           try discriminate H; exact H|]).
  constructor.
Qed.

Lemma rule_standard_listed (rule : ComplianceRule.t) :
  In rule compliance_rules -> In (ComplianceRule.standard rule) standards.
Proof.
  intros Hin. apply existsb_eqb_in.
  exact (in_catalog_forallb
           (fun rule => existsb (String.eqb (ComplianceRule.standard rule)) standards)
           rule catalog_standards_listed Hin).
Qed.

Lemma requirement_result_standard_listed (requirement : Entity)
    (r : ComplianceResult.t) :
  In r (assess_requirement_compliance requirement) ->
  In (ComplianceResult.standard r) standards.
Proof.
  intros Hr. apply assess_requirement_with_in in Hr.
  destruct Hr as (rule & Hin & -> & Hu).
  apply evaluate_requirement_known in Hu.
  destruct (evaluate_requirement_score _ requirement rule Hu) as (_ & _ & _ & _ & ->).
  now apply rule_standard_listed.
Qed.

Lemma test_case_result_standard_listed (test_case : Entity)
    (requirement : option Entity) (results : list ComplianceResult.t)
    (r : ComplianceResult.t) :
  assess_test_case_compliance test_case requirement = Py.Return results ->
  In r results -> In (ComplianceResult.standard r) standards.
Proof.
  intros Hres Hr.
  destruct (assess_test_case_with_in _ _ _ _ Hres) as (text & _ & Hspec).
  apply Hspec in Hr. destruct Hr as (rule & Hin & He & Hu).
  destruct (evaluate_test_case_cases _ _ _ _ _ He) as [(_ & _ & ->)|[Hmq _]];
    [discriminate Hu|].
  destruct (evaluate_test_case_score text test_case rule requirement Hmq)
    as [[He' _]|(r' & c & Hr' & _ & _ & _ & _ & Hs)]; [congruence|].
  assert (r' = r) as -> by congruence.
  rewrite Hs. now apply rule_standard_listed.
Qed.

Lemma rollup_counts (standard : string)
    (req_results tc_results : list ComplianceResult.t) :
  In standard standards ->
  requirement_count_of (_calculate_overall_compliance req_results tc_results) standard
  = List.length (results_for standard req_results)
  /\ test_case_count_of (_calculate_overall_compliance req_results tc_results) standard
     = List.length (results_for standard tc_results).
Proof.
  intros Hin. unfold requirement_count_of, test_case_count_of,
    _calculate_overall_compliance.
  rewrite calculate_overall_with_lookup.
  rewrite (proj2 (existsb_eqb_in standard standards) Hin).
  destruct (results_for standard req_results) as [|r R] eqn:ER.
  - destruct (results_for standard tc_results) as [|t T] eqn:ET.
    + rewrite (overall_entry_none _ _ _ ER ET). auto.
    + destruct (overall_entry_some standard req_results tc_results) as (e & -> & H1 & H2 & _).
      { right. rewrite ET. discriminate. }
      rewrite H1, H2, ER, ET. auto.
  - destruct (overall_entry_some standard req_results tc_results) as (e & -> & H1 & H2 & _).
    { left. rewrite ER. discriminate. }
    rewrite H1, H2, ER. auto.
Qed.

Lemma rollup_counts_add_up (req_results tc_results : list ComplianceResult.t) :
  (forall r, In r req_results -> In (ComplianceResult.standard r) standards) ->
  (forall r, In r tc_results -> In (ComplianceResult.standard r) standards) ->
  list_sum
    (List.map
       (requirement_count_of (_calculate_overall_compliance req_results tc_results))
       standards)
  = List.length req_results
  /\ list_sum
       (List.map
          (test_case_count_of (_calculate_overall_compliance req_results tc_results))
          standards)
     = List.length tc_results.
Proof.
  intros Hreq Htc. split.
  - rewrite <- (counts_by_key_add_up ComplianceResult.standard standards req_results
                  standards_distinct Hreq).
    f_equal. apply map_ext_in. intros standard Hin.
    apply (proj1 (rollup_counts standard req_results tc_results Hin)).
  - rewrite <- (counts_by_key_add_up ComplianceResult.standard standards tc_results
                  standards_distinct Htc).
    f_equal. apply map_ext_in. intros standard Hin.
    apply (proj2 (rollup_counts standard req_results tc_results Hin)).
Qed.

Lemma report_outcome (now : string) (requirements test_cases : list Entity) :
  (all_joinable test_cases = false ->
   generate_compliance_report now requirements test_cases = Py.TypeError)
  /\ (all_joinable test_cases = true ->
      exists results : list (list ComplianceResult.t),
        List.Forall2
          (fun tc rs =>
             assess_test_case_compliance tc (find_related requirements tc)
             = Py.Return rs)
          test_cases results
        /\ generate_compliance_report now requirements test_cases
           = Py.Return
               (Report.mk now
                  (Summary.mk (List.length requirements) (List.length test_cases)
                     standards)
                  (List.map
                     (fun req =>
                        RequirementCompliance.mk
                          (get_or req "requirement_id" (Py.PStr "Unknown"))
                          (List.map _compliance_result_to_dict
                             (assess_requirement_compliance req)))
                     requirements)
                  (List.map
                     (fun p =>
                        TestCaseCompliance.mk
                          (get_or (fst p) "test_case_id" (Py.PStr "Unknown"))
                          (List.map _compliance_result_to_dict (snd p)))
                     (combine test_cases results))
                  (_calculate_overall_compliance
                     (flat_map assess_requirement_compliance requirements)
                     (concat results))
                  (_generate_overall_recommendations
                     (flat_map assess_requirement_compliance requirements)
                     (concat results)))).
Proof.
  unfold generate_compliance_report.
  rewrite report_requirements_fold. cbn [fst snd app]. split; intros J.
  - now rewrite (report_test_cases_raises requirements test_cases ([], []) J).
  - destruct (report_test_cases_returns requirements test_cases ([], []) J)
      as (rss & -> & Hall).
    exists rss. split; [exact Hall|reflexivity].
Qed.

(** X4.  The report raises [TypeError] exactly when the batch holds a test
    case whose [test_steps] cannot be joined, that is, a value that is
    present and is not a string, a list of strings or a dict
    ([joinable_spec]); one such record fails the whole report, whatever the
    other records are. *)
Theorem report_raises_on_unjoinable_steps (now : string)
    (requirements test_cases : list Entity) :
  generate_compliance_report now requirements test_cases = Py.TypeError <->
  exists tc, In tc test_cases /\ joinable (test_steps_of tc) = false.
Proof.
  rewrite <- all_joinable_false.
  destruct (report_outcome now requirements test_cases) as [Hraise Hret].
  destruct (all_joinable test_cases) eqn:J.
  - destruct (Hret eq_refl) as (rss & _ & ->). split; discriminate.
  - rewrite (Hraise eq_refl). split; reflexivity.
Qed.

(** X5.  A report that is returned has one section per requirement and one
    per test case, in the order of the batch and also for records without
    any result; each section carries the record's public identifier (or
    "Unknown") and the results of its own assessment, a test case being
    assessed with the requirement its [requirement_id] points to. *)
Theorem report_sections_follow_batch (now : string)
    (requirements test_cases : list Entity) (report : Report.t) :
  generate_compliance_report now requirements test_cases = Py.Return report ->
  Report.requirement_compliance report
  = List.map
      (fun req =>
         RequirementCompliance.mk (get_or req "requirement_id" (Py.PStr "Unknown"))
           (List.map _compliance_result_to_dict (assess_requirement_compliance req)))
      requirements
  /\ List.Forall2
       (fun tc section =>
          exists results,
            assess_test_case_compliance tc (find_related requirements tc)
            = Py.Return results
            /\ section
               = TestCaseCompliance.mk (get_or tc "test_case_id" (Py.PStr "Unknown"))
                   (List.map _compliance_result_to_dict results))
       test_cases (Report.test_case_compliance report)
  /\ Summary.total_requirements (Report.summary report) = List.length requirements
  /\ Summary.total_test_cases (Report.summary report) = List.length test_cases.
Proof.
  destruct (report_outcome now requirements test_cases) as [Hraise Hret].
  destruct (all_joinable test_cases) eqn:J.
  2:{ rewrite (Hraise eq_refl). discriminate. }
  destruct (Hret eq_refl) as (rss & Hall & ->).
  intros H. injection H as <-.
  cbn [Report.requirement_compliance Report.test_case_compliance Report.summary
       Summary.total_requirements Summary.total_test_cases].
  repeat split.
  clear J Hraise Hret.
  induction Hall as [|tc rs test_cases' rss' Hres _ IH]; cbn [combine List.map].
  - constructor.
  - constructor; [|exact IH]. exists rs. split; [exact Hres|reflexivity].
Qed.

Lemma report_sections_follow_batch_witness :
  exists report,
    generate_compliance_report "2024-01-01T00:00:00"
      [stored_requirement; risk_requirement] [linked_test_case] = Py.Return report
    /\ List.map RequirementCompliance.requirement_id
         (Report.requirement_compliance report)
       = [Py.PStr "REQ-3"; Py.PStr "Unknown"]
    /\ Summary.total_test_cases (Report.summary report) = 1.
Proof.
  destruct (proj2 (report_outcome "2024-01-01T00:00:00"
                     [stored_requirement; risk_requirement] [linked_test_case]))
    as (rss & _ & E); [vm_compute; reflexivity|].
  eexists. split; [exact E|].
  destruct (report_sections_follow_batch _ _ _ _ E) as (Hreq & _ & _ & Htc).
  split; [rewrite Hreq; vm_compute; reflexivity | exact Htc].
Defined.

Lemma concat_map_length {A B : Type} (f : A -> B) (ls : list (list A)) :
  List.length (concat (List.map (List.map f) ls)) = List.length (concat ls).
Proof.
  induction ls as [|l ls IH]; simpl; [reflexivity|].
  now rewrite !length_app, length_map, IH.
Qed.

(** X6.  In a returned report no result is lost or counted twice by the
    rollup: over the engine's standards, the requirement counts add up to
    the number of results in the requirement sections, and the test-case
    counts to the number of results in the test-case sections. *)
Theorem report_counts_every_result (now : string)
    (requirements test_cases : list Entity) (report : Report.t) :
  generate_compliance_report now requirements test_cases = Py.Return report ->
  list_sum
    (List.map (requirement_count_of (Report.overall_compliance report)) standards)
  = List.length
      (concat
         (List.map RequirementCompliance.compliance_results
            (Report.requirement_compliance report)))
  /\ list_sum
       (List.map (test_case_count_of (Report.overall_compliance report)) standards)
     = List.length
         (concat
            (List.map TestCaseCompliance.compliance_results
               (Report.test_case_compliance report))).
Proof.
  destruct (report_outcome now requirements test_cases) as [Hraise Hret].
  destruct (all_joinable test_cases) eqn:J.
  2:{ rewrite (Hraise eq_refl). discriminate. }
  destruct (Hret eq_refl) as (rss & Hall & ->).
  intros H. injection H as <-.
  cbn [Report.requirement_compliance Report.test_case_compliance
       Report.overall_compliance].
  destruct (rollup_counts_add_up
              (flat_map assess_requirement_compliance requirements) (concat rss))
    as [H1 H2].
  - intros r Hr. apply in_flat_map in Hr. destruct Hr as (req & _ & Hr).
    now apply (requirement_result_standard_listed req).
  - intros r Hr. apply in_concat in Hr. destruct Hr as (rs & Hrs & Hr).
    clear - Hall Hrs Hr.
    induction Hall as [|tc rs' test_cases' rss' Hres _ IH]; [destruct Hrs|].
    destruct Hrs as [->|Hrs]; [|now apply IH].
    now apply (test_case_result_standard_listed _ _ _ _ Hres).
  - rewrite H1, H2. split.
    + rewrite map_map. cbn [RequirementCompliance.compliance_results].
      rewrite <- (map_map assess_requirement_compliance
                    (List.map _compliance_result_to_dict)).
      rewrite concat_map_length, flat_map_concat_map. reflexivity.
    + rewrite map_map. cbn [TestCaseCompliance.compliance_results].
      clear - Hall.
      induction Hall as [|tc rs test_cases' rss' _ _ IH]; simpl; [reflexivity|].
      rewrite !length_app, length_map. f_equal. exact IH.
Qed.

Lemma report_counts_every_result_witness :
  exists report,
    generate_compliance_report "2024-01-01T00:00:00"
      [stored_requirement; risk_requirement] [linked_test_case] = Py.Return report
    /\ list_sum
         (List.map (requirement_count_of (Report.overall_compliance report)) standards)
       = List.length
           (concat
              (List.map RequirementCompliance.compliance_results
                 (Report.requirement_compliance report))).
Proof.
  destruct (proj2 (report_outcome "2024-01-01T00:00:00"
                     [stored_requirement; risk_requirement] [linked_test_case]))
    as (rss & _ & E); [vm_compute; reflexivity|].
  eexists. split; [exact E|].
  exact (proj1 (report_counts_every_result _ _ _ _ E)).
Defined.

(** ** The filter of the report route *)

Lemma standard_in_allowed (standard : string) (f : Py.PyVal) (b : bool) :
  Routes.standard_in standard f = Py.Return b ->
  b = allowed f standard /\ is_container f = true.
Proof.
  destruct f; simpl; try discriminate; intros H; injection H as <-; auto.
Qed.

Lemma standard_in_container (standard : string) (f : Py.PyVal) :
  is_container f = true ->
  Routes.standard_in standard f = Py.Return (allowed f standard).
Proof. destruct f; simpl; try discriminate; reflexivity. Qed.

Lemma standard_in_raises (standard : string) (f : Py.PyVal) :
  is_container f = false -> Routes.standard_in standard f = Py.TypeError.
Proof. destruct f; simpl; try discriminate; reflexivity. Qed.

Lemma filter_results_spec (f : Py.PyVal) (rs rs' : list ResultDict.t) :
  Routes.filter_results f rs = Py.Return rs' ->
  rs' = List.filter (fun r => allowed f (ResultDict.standard r)) rs.
Proof.
  revert rs'; induction rs as [|r rs IH]; intros rs'; cbn [Routes.filter_results].
  - intros H. now injection H as <-.
  - destruct (Routes.standard_in (ResultDict.standard r) f) as [b|] eqn:Eb;
      cbn [Py.bind]; [|discriminate].
    destruct (Routes.filter_results f rs) as [rest|]; cbn [Py.bind]; [|discriminate].
    intros H. injection H as <-.
    destruct (standard_in_allowed _ _ _ Eb) as [-> _].
    cbn [List.filter]. rewrite <- (IH rest eq_refl). reflexivity.
Qed.

Lemma filter_results_container (f : Py.PyVal) (rs : list ResultDict.t) :
  is_container f = true ->
  Routes.filter_results f rs
  = Py.Return (List.filter (fun r => allowed f (ResultDict.standard r)) rs).
Proof.
  intros Hc. induction rs as [|r rs IH]; cbn [Routes.filter_results];
    [reflexivity|].
  rewrite (standard_in_container _ _ Hc), IH. cbn [Py.bind List.filter].
  reflexivity.
Qed.

Lemma filter_results_raises (f : Py.PyVal) (rs : list ResultDict.t) :
  is_container f = false -> rs <> [] -> Routes.filter_results f rs = Py.TypeError.
Proof.
  intros Hc. destruct rs as [|r rs]; [congruence|]. intros _.
  cbn [Routes.filter_results]. now rewrite (standard_in_raises _ _ Hc).
Qed.

Lemma filter_results_again (f : Py.PyVal) (rs rs' : list ResultDict.t) :
  Routes.filter_results f rs = Py.Return rs' ->
  Routes.filter_results f rs' = Py.Return rs'.
Proof.
  revert rs'; induction rs as [|r rs IH]; intros rs'; cbn [Routes.filter_results].
  - intros H. now injection H as <-.
  - destruct (Routes.standard_in (ResultDict.standard r) f) as [b|] eqn:Eb;
      cbn [Py.bind]; [|discriminate].
    destruct (Routes.filter_results f rs) as [rest|]; cbn [Py.bind]; [|discriminate].
    intros H. injection H as <-. specialize (IH rest eq_refl).
    destruct b; [|exact IH].
    cbn [Routes.filter_results]. now rewrite Eb, IH.
Qed.

Lemma filter_requirement_compliance_spec (f : Py.PyVal)
    (secs secs' : list RequirementCompliance.t) :
  Routes.filter_requirement_compliance f secs = Py.Return secs' ->
  forall sec',
    In sec' secs' <->
    exists sec,
      In sec secs
      /\ List.filter (fun r => allowed f (ResultDict.standard r))
           (RequirementCompliance.compliance_results sec) <> []
      /\ sec'
         = RequirementCompliance.mk (RequirementCompliance.requirement_id sec)
             (List.filter (fun r => allowed f (ResultDict.standard r))
                (RequirementCompliance.compliance_results sec)).
Proof.
  revert secs'; induction secs as [|sec secs IH]; intros secs';
    cbn [Routes.filter_requirement_compliance].
  - intros H. injection H as <-. intros sec'. split; [intros []|].
    intros (? & [] & _).
  - destruct (Routes.filter_results f (RequirementCompliance.compliance_results sec))
      as [rs|] eqn:Ers; cbn [Py.bind]; [|discriminate].
    destruct (Routes.filter_requirement_compliance f secs) as [rest|];
      cbn [Py.bind]; [|discriminate].
    intros H. injection H as <-. intros sec'.
    apply filter_results_spec in Ers. specialize (IH rest eq_refl sec').
    destruct rs as [|r rs].
    + rewrite IH. split.
      * intros (sec0 & Hin & Hne & ->). exists sec0. simpl. auto.
      * intros (sec0 & [<-|Hin] & Hne & ->); [now rewrite <- Ers in Hne|].
        exists sec0. auto.
    + simpl. rewrite IH. split.
      * intros [<-|(sec0 & Hin & Hne & ->)].
        -- exists sec. rewrite <- Ers. repeat split; auto; discriminate.
        -- exists sec0. auto.
      * intros (sec0 & [<-|Hin] & Hne & ->).
        -- left. now rewrite <- Ers.
        -- right. exists sec0. auto.
Qed.

Lemma filter_test_case_compliance_spec (f : Py.PyVal)
    (secs secs' : list TestCaseCompliance.t) :
  Routes.filter_test_case_compliance f secs = Py.Return secs' ->
  forall sec',
    In sec' secs' <->
    exists sec,
      In sec secs
      /\ List.filter (fun r => allowed f (ResultDict.standard r))
           (TestCaseCompliance.compliance_results sec) <> []
      /\ sec'
         = TestCaseCompliance.mk (TestCaseCompliance.test_case_id sec)
             (List.filter (fun r => allowed f (ResultDict.standard r))
                (TestCaseCompliance.compliance_results sec)).
Proof.
  revert secs'; induction secs as [|sec secs IH]; intros secs';
    cbn [Routes.filter_test_case_compliance].
  - intros H. injection H as <-. intros sec'. split; [intros []|].
    intros (? & [] & _).
  - destruct (Routes.filter_results f (TestCaseCompliance.compliance_results sec))
      as [rs|] eqn:Ers; cbn [Py.bind]; [|discriminate].
    destruct (Routes.filter_test_case_compliance f secs) as [rest|];
      cbn [Py.bind]; [|discriminate].
    intros H. injection H as <-. intros sec'.
    apply filter_results_spec in Ers. specialize (IH rest eq_refl sec').
    destruct rs as [|r rs].
    + rewrite IH. split.
      * intros (sec0 & Hin & Hne & ->). exists sec0. simpl. auto.
      * intros (sec0 & [<-|Hin] & Hne & ->); [now rewrite <- Ers in Hne|].
        exists sec0. auto.
    + simpl. rewrite IH. split.
      * intros [<-|(sec0 & Hin & Hne & ->)].
        -- exists sec. rewrite <- Ers. repeat split; auto; discriminate.
        -- exists sec0. auto.
      * intros (sec0 & [<-|Hin] & Hne & ->).
        -- left. now rewrite <- Ers.
        -- right. exists sec0. auto.
Qed.

Lemma filter_overall_items_spec (f : Py.PyVal) (items : list (string * Overall.t))
    (m : gmap string Overall.t) :
  Routes.filter_overall_items f items = Py.Return m ->
  forall k : string,
    m !! k
    = if allowed f k then (list_to_map items : gmap string Overall.t) !! k else None.
Proof.
  revert m; induction items as [|[s c] items IH]; intros m;
    cbn [Routes.filter_overall_items].
  - intros H. injection H as <-. intros k. rewrite lookup_empty.
    now destruct (allowed f k).
  - destruct (Routes.standard_in s f) as [b|] eqn:Eb; cbn [Py.bind]; [|discriminate].
    destruct (Routes.filter_overall_items f items) as [rest|]; cbn [Py.bind];
      [|discriminate].
    intros H. injection H as <-. intros k.
    destruct (standard_in_allowed _ _ _ Eb) as [-> _].
    specialize (IH rest eq_refl). cbn [list_to_map foldr uncurry].
    change (foldr (fun '(k, v) => <[k:=v]>) ∅ items)
      with (list_to_map items : gmap string Overall.t).
    destruct (String.eqb_spec s k) as [->|Hne].
    + destruct (allowed f k) eqn:Ek.
      * now rewrite !lookup_insert_eq.
      * rewrite IH, Ek. reflexivity.
    + destruct (allowed f s).
      * rewrite !lookup_insert_ne by exact Hne. apply IH.
      * rewrite lookup_insert_ne by exact Hne. apply IH.
Qed.

Lemma filter_overall_items_container (f : Py.PyVal) (items : list (string * Overall.t)) :
  is_container f = true ->
  exists m, Routes.filter_overall_items f items = Py.Return m.
Proof.
  intros Hc. induction items as [|[s c] items [m IH]];
    cbn [Routes.filter_overall_items]; [eauto|].
  rewrite (standard_in_container _ _ Hc), IH. cbn [Py.bind]. eauto.
Qed.

Lemma filter_overall_items_raises (f : Py.PyVal) (items : list (string * Overall.t)) :
  is_container f = false -> items <> [] ->
  Routes.filter_overall_items f items = Py.TypeError.
Proof.
  intros Hc. destruct items as [|[s c] items]; [congruence|]. intros _.
  cbn [Routes.filter_overall_items]. now rewrite (standard_in_raises _ _ Hc).
Qed.

Lemma filter_overall_spec (f : Py.PyVal) (overall m : gmap string Overall.t) :
  Routes.filter_overall f overall = Py.Return m ->
  forall k : string, m !! k = if allowed f k then overall !! k else None.
Proof.
  intros H k. unfold Routes.filter_overall in H.
  rewrite (filter_overall_items_spec _ _ _ H k).
  now rewrite list_to_map_to_list.
Qed.

Lemma filter_overall_again (f : Py.PyVal) (overall m : gmap string Overall.t) :
  Routes.filter_overall f overall = Py.Return m ->
  Routes.filter_overall f m = Py.Return m.
Proof.
  intros H. destruct (is_container f) eqn:Hc.
  - destruct (filter_overall_items_container f (map_to_list m) Hc) as [m2 H2].
    unfold Routes.filter_overall at 1. rewrite H2. f_equal.
    apply map_eq. intros k.
    rewrite (filter_overall_items_spec _ _ _ H2 k), list_to_map_to_list.
    rewrite (filter_overall_spec _ _ _ H k).
    now destruct (allowed f k).
  - unfold Routes.filter_overall in H.
    destruct (map_to_list overall) as [|item items] eqn:E.
    + cbn in H. injection H as <-.
      unfold Routes.filter_overall. now rewrite map_to_list_empty.
    + rewrite filter_overall_items_raises in H; [discriminate|exact Hc|discriminate].
Qed.

Lemma filter_requirement_compliance_again (f : Py.PyVal)
    (secs secs' : list RequirementCompliance.t) :
  Routes.filter_requirement_compliance f secs = Py.Return secs' ->
  Routes.filter_requirement_compliance f secs' = Py.Return secs'.
Proof.
  revert secs'; induction secs as [|sec secs IH]; intros secs';
    cbn [Routes.filter_requirement_compliance].
  - intros H. now injection H as <-.
  - destruct (Routes.filter_results f (RequirementCompliance.compliance_results sec))
      as [rs|] eqn:Ers; cbn [Py.bind]; [|discriminate].
    destruct (Routes.filter_requirement_compliance f secs) as [rest|];
      cbn [Py.bind]; [|discriminate].
    intros H. injection H as <-. specialize (IH rest eq_refl).
    destruct rs as [|r rs]; [exact IH|].
    cbn [Routes.filter_requirement_compliance
         RequirementCompliance.compliance_results
         RequirementCompliance.requirement_id].
    rewrite (filter_results_again _ _ _ Ers), IH. reflexivity.
Qed.

Lemma filter_test_case_compliance_again (f : Py.PyVal)
    (secs secs' : list TestCaseCompliance.t) :
  Routes.filter_test_case_compliance f secs = Py.Return secs' ->
  Routes.filter_test_case_compliance f secs' = Py.Return secs'.
Proof.
  revert secs'; induction secs as [|sec secs IH]; intros secs';
    cbn [Routes.filter_test_case_compliance].
  - intros H. now injection H as <-.
  - destruct (Routes.filter_results f (TestCaseCompliance.compliance_results sec))
      as [rs|] eqn:Ers; cbn [Py.bind]; [|discriminate].
    destruct (Routes.filter_test_case_compliance f secs) as [rest|];
      cbn [Py.bind]; [|discriminate].
    intros H. injection H as <-. specialize (IH rest eq_refl).
    destruct rs as [|r rs]; [exact IH|].
    cbn [Routes.filter_test_case_compliance
         TestCaseCompliance.compliance_results
         TestCaseCompliance.test_case_id].
    rewrite (filter_results_again _ _ _ Ers), IH. reflexivity.
Qed.

Lemma filter_requirement_compliance_raises (f : Py.PyVal)
    (secs : list RequirementCompliance.t) (sec : RequirementCompliance.t) :
  is_container f = false -> In sec secs ->
  RequirementCompliance.compliance_results sec <> [] ->
  Routes.filter_requirement_compliance f secs = Py.TypeError.
Proof.
  intros Hc Hin Hne. induction secs as [|sec0 secs IH]; [destruct Hin|].
  cbn [Routes.filter_requirement_compliance].
  destruct Hin as [->|Hin].
  - now rewrite (filter_results_raises _ _ Hc Hne).
  - destruct (Routes.filter_results f _); cbn [Py.bind]; [|reflexivity].
    now rewrite (IH Hin).
Qed.

(** The parts of the report the filter rebuilds. *)
Lemma apply_standards_filter_parts (f : Py.PyVal) (report report' : Report.t) :
  Py.truthy f = true ->
  Routes.apply_standards_filter f report = Py.Return report' ->
  Routes.filter_requirement_compliance f (Report.requirement_compliance report)
  = Py.Return (Report.requirement_compliance report')
  /\ Routes.filter_test_case_compliance f (Report.test_case_compliance report)
     = Py.Return (Report.test_case_compliance report')
  /\ Routes.filter_overall f (Report.overall_compliance report)
     = Py.Return (Report.overall_compliance report')
  /\ Report.generated_at report' = Report.generated_at report
  /\ Report.summary report' = Report.summary report
  /\ Report.recommendations report' = Report.recommendations report.
Proof.
  intros Ht. unfold Routes.apply_standards_filter. rewrite Ht.
  destruct (Routes.filter_requirement_compliance f _) as [rc|]; cbn [Py.bind];
    [|discriminate].
  destruct (Routes.filter_test_case_compliance f _) as [tc|]; cbn [Py.bind];
    [|discriminate].
  destruct (Routes.filter_overall f _) as [ov|]; cbn [Py.bind]; [|discriminate].
  intros H. injection H as <-. repeat split.
Qed.

(** X7.  After filtering by a true [standards] value, every section left
    in the report has at least one result, every result left belongs to a
    standard the filter admits, and every rollup entry left is an entry of
    the unfiltered report for an admitted standard.  The summary and the
    recommendation list are not touched by the filter. *)
Theorem filter_keeps_only_admitted (f : Py.PyVal) (report report' : Report.t) :
  Py.truthy f = true ->
  Routes.apply_standards_filter f report = Py.Return report' ->
  (forall sec,
      In sec (Report.requirement_compliance report') ->
      RequirementCompliance.compliance_results sec <> []
      /\ forall r, In r (RequirementCompliance.compliance_results sec) ->
                   allowed f (ResultDict.standard r) = true)
  /\ (forall sec,
         In sec (Report.test_case_compliance report') ->
         TestCaseCompliance.compliance_results sec <> []
         /\ forall r, In r (TestCaseCompliance.compliance_results sec) ->
                      allowed f (ResultDict.standard r) = true)
  /\ (forall standard e,
         Report.overall_compliance report' !! standard = Some e ->
         allowed f standard = true
         /\ Report.overall_compliance report !! standard = Some e)
  /\ Report.summary report' = Report.summary report
  /\ Report.recommendations report' = Report.recommendations report.
Proof.
  intros Ht H.
  destruct (apply_standards_filter_parts f report report' Ht H)
    as (Hreq & Htc & Hov & _ & Hsum & Hrec).
  split; [|split; [|split; [|split; [exact Hsum|exact Hrec]]]].
  - intros sec Hin.
    apply (filter_requirement_compliance_spec _ _ _ Hreq) in Hin.
    destruct Hin as (sec0 & _ & Hne & ->). cbn. split; [exact Hne|].
    intros r Hr. now apply filter_In in Hr.
  - intros sec Hin.
    apply (filter_test_case_compliance_spec _ _ _ Htc) in Hin.
    destruct Hin as (sec0 & _ & Hne & ->). cbn. split; [exact Hne|].
    intros r Hr. now apply filter_In in Hr.
  - intros standard e He.
    rewrite (filter_overall_spec _ _ _ Hov standard) in He.
    destruct (allowed f standard); [auto|discriminate].
Qed.

Lemma filter_keeps_only_admitted_witness :
  exists report',
    Routes.apply_standards_filter hipaa_only sample_report = Py.Return report'
    /\ (forall sec,
           In sec (Report.requirement_compliance report') ->
           RequirementCompliance.compliance_results sec <> []
           /\ forall r, In r (RequirementCompliance.compliance_results sec) ->
                        allowed hipaa_only (ResultDict.standard r) = true)
    /\ Report.recommendations report' = Report.recommendations sample_report.
Proof.
  destruct (Routes.apply_standards_filter hipaa_only sample_report)
    as [report'|] eqn:E; [|vm_compute in E; discriminate E].
  exists report'. split; [reflexivity|].
  destruct (filter_keeps_only_admitted hipaa_only sample_report report' eq_refl E)
    as (H1 & _ & _ & _ & H5).
  split; [exact H1|exact H5].
Defined.

(** X8.  Filtering loses nothing it should keep: a section with an
    admitted result stays, under the same identifier and with exactly its
    admitted results in their order, and the rollup entry of an admitted
    standard stays as it was. *)
Theorem filter_keeps_every_admitted (f : Py.PyVal) (report report' : Report.t) :
  Py.truthy f = true ->
  Routes.apply_standards_filter f report = Py.Return report' ->
  (forall sec r,
      In sec (Report.requirement_compliance report) ->
      In r (RequirementCompliance.compliance_results sec) ->
      allowed f (ResultDict.standard r) = true ->
      In (RequirementCompliance.mk (RequirementCompliance.requirement_id sec)
            (List.filter (fun r => allowed f (ResultDict.standard r))
               (RequirementCompliance.compliance_results sec)))
         (Report.requirement_compliance report'))
  /\ (forall sec r,
         In sec (Report.test_case_compliance report) ->
         In r (TestCaseCompliance.compliance_results sec) ->
         allowed f (ResultDict.standard r) = true ->
         In (TestCaseCompliance.mk (TestCaseCompliance.test_case_id sec)
               (List.filter (fun r => allowed f (ResultDict.standard r))
                  (TestCaseCompliance.compliance_results sec)))
            (Report.test_case_compliance report'))
  /\ (forall standard e,
         Report.overall_compliance report !! standard = Some e ->
         allowed f standard = true ->
         Report.overall_compliance report' !! standard = Some e).
Proof.
  intros Ht H.
  destruct (apply_standards_filter_parts f report report' Ht H)
    as (Hreq & Htc & Hov & _).
  split; [|split].
  - intros sec r Hsec Hr Ha.
    apply (filter_requirement_compliance_spec _ _ _ Hreq).
    exists sec. split; [exact Hsec|]. split; [|reflexivity].
    intros E.
    assert (Hin : In r (List.filter (fun r => allowed f (ResultDict.standard r))
                          (RequirementCompliance.compliance_results sec)))
      by (apply filter_In; auto).
    rewrite E in Hin. destruct Hin.
  - intros sec r Hsec Hr Ha.
    apply (filter_test_case_compliance_spec _ _ _ Htc).
    exists sec. split; [exact Hsec|]. split; [|reflexivity].
    intros E.
    assert (Hin : In r (List.filter (fun r => allowed f (ResultDict.standard r))
                          (TestCaseCompliance.compliance_results sec)))
      by (apply filter_In; auto).
    rewrite E in Hin. destruct Hin.
  - intros standard e He Ha.
    now rewrite (filter_overall_spec _ _ _ Hov standard), Ha.
Qed.

Lemma filter_keeps_every_admitted_witness :
  exists report',
    Routes.apply_standards_filter hipaa_only sample_report = Py.Return report'
    /\ In (RequirementCompliance.mk (Py.PStr "REQ-1")
             [sample_result "HIPAA_001" "HIPAA"])
          (Report.requirement_compliance report').
Proof.
  destruct (Routes.apply_standards_filter hipaa_only sample_report)
    as [report'|] eqn:E; [|vm_compute in E; discriminate E].
  exists report'. split; [reflexivity|].
  apply (proj1 (filter_keeps_every_admitted hipaa_only sample_report report'
                  eq_refl E)
           (RequirementCompliance.mk (Py.PStr "REQ-1")
              [ sample_result "HIPAA_001" "HIPAA"; sample_result "GDPR_001" "GDPR" ])
           (sample_result "HIPAA_001" "HIPAA")).
  - simpl. auto.
  - simpl. auto.
  - reflexivity.
Defined.

(** X9.  Filtering is idempotent: a report that came out of the filter is
    returned unchanged when the same filter is applied to it again. *)
Theorem filter_twice_is_once (f : Py.PyVal) (report report' : Report.t) :
  Routes.apply_standards_filter f report = Py.Return report' ->
  Routes.apply_standards_filter f report' = Py.Return report'.
Proof.
  intros H. destruct (Py.truthy f) eqn:Ht.
  - destruct (apply_standards_filter_parts f report report' Ht H)
      as (Hreq & Htc & Hov & _).
    unfold Routes.apply_standards_filter. rewrite Ht.
    rewrite (filter_requirement_compliance_again _ _ _ Hreq).
    rewrite (filter_test_case_compliance_again _ _ _ Htc).
    rewrite (filter_overall_again _ _ _ Hov).
    cbn [Py.bind]. now destruct report'.
  - unfold Routes.apply_standards_filter in *. rewrite Ht in *.
    injection H as <-. reflexivity.
Qed.

Lemma filter_twice_is_once_witness :
  exists report',
    Routes.apply_standards_filter hipaa_only sample_report = Py.Return report'
    /\ Routes.apply_standards_filter hipaa_only report' = Py.Return report'.
Proof.
  destruct (Routes.apply_standards_filter hipaa_only sample_report)
    as [report'|] eqn:E; [|vm_compute in E; discriminate E].
  exists report'. split; [reflexivity|].
  exact (filter_twice_is_once hipaa_only sample_report report' E).
Defined.

(** X10.  A [standards] value that is true but not a string, a list or a
    dict (a non-zero number, [True]) makes the filter raise [TypeError] as
    soon as a requirement section has a result; the route then answers
    with its error branch instead of a report.  (A dict is no error: its
    keys are the admitted standards.) *)
Theorem filter_raises_on_non_container (f : Py.PyVal) (report : Report.t)
    (sec : RequirementCompliance.t) :
  Py.truthy f = true ->
  is_container f = false ->
  In sec (Report.requirement_compliance report) ->
  RequirementCompliance.compliance_results sec <> [] ->
  Routes.apply_standards_filter f report = Py.TypeError.
Proof.
  intros Ht Hc Hin Hne. unfold Routes.apply_standards_filter. rewrite Ht.
  now rewrite (filter_requirement_compliance_raises f _ sec Hc Hin Hne).
Qed.

Lemma filter_raises_on_non_container_witness :
  Routes.apply_standards_filter (Py.PInt 5) sample_report = Py.TypeError.
Proof.
  apply (filter_raises_on_non_container (Py.PInt 5) sample_report
           (RequirementCompliance.mk (Py.PStr "REQ-2")
              [ sample_result "GDPR_001" "GDPR" ])).
  - reflexivity.
  - reflexivity.
  - simpl. auto.
  - simpl. discriminate.
Defined.

(** ** The listing of the standards *)

(** X11.  The listing of the standards counts every rule once: when the
    standards are distinct and every rule names a listed standard, the
    entries come in the order of the standards, their rule counts add up
    to the number of rules, and neither the mandatory nor the high-risk
    count of an entry exceeds its rule count. *)
Theorem standards_listing_counts_every_rule (rules : list ComplianceRule.t)
    (stds : list string) :
  List.NoDup stds ->
  (forall rule, In rule rules -> In (ComplianceRule.standard rule) stds) ->
  List.map StandardInfo.name (standards_info_with rules stds) = stds
  /\ list_sum (List.map StandardInfo.rules_count (standards_info_with rules stds))
     = List.length rules
  /\ List.Forall
       (fun info =>
          StandardInfo.mandatory_rules info <= StandardInfo.rules_count info
          /\ StandardInfo.high_risk_rules info <= StandardInfo.rules_count info)
       (standards_info_with rules stds).
Proof.
  intros Hnd Hin. unfold standards_info_with. split; [|split].
  - rewrite map_map. cbn [StandardInfo.name]. apply map_id.
  - rewrite map_map. cbn [StandardInfo.rules_count].
    exact (counts_by_key_add_up ComplianceRule.standard stds rules Hnd Hin).
  - apply List.Forall_forall. intros info Hinfo.
    apply in_map_iff in Hinfo. destruct Hinfo as (standard & <- & _).
    cbn [StandardInfo.mandatory_rules StandardInfo.high_risk_rules
         StandardInfo.rules_count].
    split; apply filter_length_le.
Qed.

Lemma standards_listing_counts_every_rule_witness :
  List.map StandardInfo.name get_compliance_standards = standards
  /\ list_sum (List.map StandardInfo.rules_count get_compliance_standards)
     = List.length compliance_rules.
Proof.
  destruct (standards_listing_counts_every_rule compliance_rules standards
              standards_distinct rule_standard_listed) as (H1 & H2 & _).
  split; [exact H1|exact H2].
Defined.

(** ** One result per matching rule, in the order of the catalog *)

Lemma catalog_ids_distinct :
  List.NoDup (List.map ComplianceRule.rule_id compliance_rules).
Proof.
  vm_compute.
  repeat (constructor;
          [simpl; intros H;
           repeat match goal with H : _ \/ _ |- _ => destruct H as [H|H] end;
           try discriminate H; exact H|]).
  constructor.
Qed.

Lemma nodup_map_filter {A B : Type} (f : A -> B) (p : A -> bool) (l : list A) :
  List.NoDup (List.map f l) -> List.NoDup (List.map f (List.filter p l)).
Proof.
  induction l as [|x l IH]; simpl; [auto|].
  intros H. inversion H as [|? ? Hnot Hnd]; subst.
  destruct (p x); simpl; [|auto].
  constructor; [|auto].
  intros Hin. apply Hnot. apply in_map_iff in Hin.
  destruct Hin as (y & Hy & Hin). apply filter_In in Hin.
  apply in_map_iff. exists y. tauto.
Qed.

Lemma requirement_results_ids (rules : list ComplianceRule.t) (requirement : Entity) :
  List.map ComplianceResult.rule_id (assess_requirement_with rules requirement)
  = List.map ComplianceRule.rule_id
      (List.filter
         (fun rule =>
            negb (Nat.eqb (count_patterns (ComplianceRule.requirement_patterns rule)
                             (item_text_of requirement)) 0))
         rules).
Proof.
  rewrite assess_requirement_with_filter.
  induction rules as [|rule rules IH]; [reflexivity|].
  cbn [List.map List.filter]. unfold keep at 1.
  destruct (Nat.eqb_spec
              (count_patterns (ComplianceRule.requirement_patterns rule)
                 (item_text_of requirement)) 0) as [E|N].
  - rewrite (evaluate_requirement_unknown _ _ _ E). cbn. exact IH.
  - rewrite (proj2 (evaluate_requirement_known _ requirement rule) N).
    cbn [negb List.map]. rewrite IH. f_equal.
    now destruct (evaluate_requirement_score _ requirement rule N)
      as (_ & _ & _ & -> & _).
Qed.

(** X12.  The results of a requirement name exactly the rules of which a
    requirement pattern is found in its text, each once and in the order
    of the catalog; there are therefore at most eight results. *)
Theorem requirement_results_follow_catalog (requirement : Entity) :
  List.map ComplianceResult.rule_id (assess_requirement_compliance requirement)
  = List.map ComplianceRule.rule_id
      (List.filter
         (fun rule =>
            negb (Nat.eqb (count_patterns (ComplianceRule.requirement_patterns rule)
                             (item_text_of requirement)) 0))
         compliance_rules)
  /\ List.NoDup
       (List.map ComplianceResult.rule_id (assess_requirement_compliance requirement))
  /\ List.length (assess_requirement_compliance requirement) <= 8.
Proof.
  unfold assess_requirement_compliance.
  pose proof (requirement_results_ids compliance_rules requirement) as H.
  split; [exact H|]. split.
  - rewrite H. apply nodup_map_filter, catalog_ids_distinct.
  - rewrite <- (length_map ComplianceResult.rule_id), H, length_map.
    apply (filter_length_le _ compliance_rules).
Qed.

Lemma evaluate_test_case_rule_id (text : string) (test_case : Entity)
    (rule : ComplianceRule.t) (requirement : option Entity) (r : ComplianceResult.t) :
  _evaluate_test_case_against_rule text test_case rule requirement = Py.Return r ->
  ComplianceResult.rule_id r = ComplianceRule.rule_id rule
  /\ is_unknown r
     = Nat.eqb (count_patterns (ComplianceRule.test_case_patterns rule) text) 0
       && Nat.eqb (req_pattern_matches_of rule requirement) 0.
Proof.
  intros Hr.
  destruct (Nat.eqb_spec (count_patterns (ComplianceRule.test_case_patterns rule) text) 0)
    as [E1|N1];
    [destruct (Nat.eqb_spec (req_pattern_matches_of rule requirement) 0) as [E2|N2]|].
  - rewrite (evaluate_test_case_unknown _ _ _ _ E1 E2) in Hr.
    injection Hr as <-. split; reflexivity.
  - destruct (evaluate_test_case_score text test_case rule requirement (or_intror N2))
      as [[He _]|(r' & c & Hr' & _ & _ & Hl & Hid & _)]; [congruence|].
    assert (r' = r) as -> by congruence. split; [exact Hid|].
    unfold is_unknown. rewrite Hl. apply threshold_level_known.
  - destruct (evaluate_test_case_score text test_case rule requirement (or_introl N1))
      as [[He _]|(r' & c & Hr' & _ & _ & Hl & Hid & _)]; [congruence|].
    assert (r' = r) as -> by congruence. split; [exact Hid|].
    unfold is_unknown. rewrite Hl. apply threshold_level_known.
Qed.

Lemma fold_step_ids (eval : ComplianceRule.t -> Py.Exc ComplianceResult.t)
    (matches : ComplianceRule.t -> bool) (rules : list ComplianceRule.t)
    (acc results : list ComplianceResult.t) :
  (forall rule r,
      eval rule = Py.Return r ->
      ComplianceResult.rule_id r = ComplianceRule.rule_id rule
      /\ is_unknown r = negb (matches rule)) ->
  fold_left (collect eval) rules (Py.Return acc) = Py.Return results ->
  List.map ComplianceResult.rule_id results
  = List.map ComplianceResult.rule_id acc
      ++ List.map ComplianceRule.rule_id (List.filter matches rules).
Proof.
  intros Hev. revert acc; induction rules as [|rule rules IH]; intros acc H;
    cbn [fold_left] in H.
  - injection H as <-. simpl. now rewrite app_nil_r.
  - unfold collect at 2 in H. cbn [Py.bind] in H.
    destruct (eval rule) as [x|] eqn:Ex; cbn [Py.bind] in H.
    2:{ rewrite fold_step_error in H. discriminate. }
    destruct (Hev rule x Ex) as [Hid Hu]. rewrite Hu in H.
    rewrite negb_involutive in H. cbn [List.filter].
    destruct (matches rule).
    + rewrite (IH _ H), map_app. cbn [List.map]. rewrite Hid, <- app_assoc.
      reflexivity.
    + exact (IH _ H).
Qed.

(** X13.  The results of a test case that is assessed name exactly the
    rules of which a test pattern is found in its full text or, when a
    non-empty requirement is given, a requirement pattern in the
    requirement's text; each rule once, in the order of the catalog. *)
Theorem test_case_results_follow_catalog (test_case : Entity)
    (requirement : option Entity) (results : list ComplianceResult.t) :
  assess_test_case_compliance test_case requirement = Py.Return results ->
  exists text,
    full_text_of test_case = Py.Return text
    /\ List.map ComplianceResult.rule_id results
       = List.map ComplianceRule.rule_id
           (List.filter
              (fun rule =>
                 negb (Nat.eqb (count_patterns (ComplianceRule.test_case_patterns rule)
                                  text) 0
                       && Nat.eqb (req_pattern_matches_of rule requirement) 0))
              compliance_rules)
    /\ List.NoDup (List.map ComplianceResult.rule_id results)
    /\ List.length results <= 8.
Proof.
  unfold assess_test_case_compliance, assess_test_case_with.
  destruct (full_text_of test_case) as [text|]; cbn [Py.bind]; [|discriminate].
  intros H. exists text. split; [reflexivity|].
  assert (E : List.map ComplianceResult.rule_id results
              = List.map ComplianceRule.rule_id
                  (List.filter
                     (fun rule =>
                        negb (Nat.eqb
                                (count_patterns (ComplianceRule.test_case_patterns rule)
                                   text) 0
                              && Nat.eqb (req_pattern_matches_of rule requirement) 0))
                     compliance_rules)).
  { apply (fold_step_ids
             (fun rule =>
                _evaluate_test_case_against_rule text test_case rule requirement)
             (fun rule =>
                negb (Nat.eqb
                        (count_patterns (ComplianceRule.test_case_patterns rule)
                           text) 0
                      && Nat.eqb (req_pattern_matches_of rule requirement) 0))
             compliance_rules [] results); [|exact H].
    intros rule r Hr. rewrite negb_involutive.
    exact (evaluate_test_case_rule_id _ _ _ _ _ Hr). }
  split; [exact E|]. split.
  - rewrite E. apply nodup_map_filter, catalog_ids_distinct.
  - rewrite <- (length_map ComplianceResult.rule_id), E, length_map.
    apply (filter_length_le _ compliance_rules).
Qed.

Lemma test_case_results_follow_catalog_witness :
  exists results,
    assess_test_case_compliance access_control_test_case None = Py.Return results
    /\ List.length results <= 8.
Proof.
  destruct (assess_test_case_compliance access_control_test_case None)
    as [results|] eqn:E; [|vm_compute in E; discriminate E].
  exists results. split; [reflexivity|].
  destruct (test_case_results_follow_catalog access_control_test_case None results E)
    as (text & _ & _ & _ & H).
  exact H.
Defined.

(** ** What the assessment of a requirement reads *)

Lemma assess_requirement_same_text (rules : list ComplianceRule.t)
    (requirement requirement' : Entity) :
  item_text_of requirement = item_text_of requirement' ->
  assess_requirement_with rules requirement
  = assess_requirement_with rules requirement'.
Proof.
  intros H. rewrite !assess_requirement_with_filter, H. f_equal.
  apply map_ext. intros rule. now apply evaluate_requirement_same_text.
Qed.

(** X14.  The assessment of a requirement reads its title and description
    and nothing else: two records that agree on these two fields get the
    same results, whatever their other fields (priority, status, source,
    identifiers) hold. *)
Theorem requirement_assessment_reads_two_fields (requirement requirement' : Entity) :
  requirement !! "title" = requirement' !! "title" ->
  requirement !! "description" = requirement' !! "description" ->
  assess_requirement_compliance requirement
  = assess_requirement_compliance requirement'.
Proof.
  intros Ht Hd. apply assess_requirement_same_text.
  unfold item_text_of, Py.get_str. now rewrite Ht, Hd.
Qed.

Lemma requirement_assessment_reads_two_fields_witness :
  assess_requirement_compliance stored_requirement
  = assess_requirement_compliance
      (dict [ ("title", Py.PStr "Patient data privacy");
              ("description",
               Py.PStr "Access control and encryption protect patient data");
              ("priority", Py.PStr "low") ]).
Proof.
  apply requirement_assessment_reads_two_fields; vm_compute; reflexivity.
Defined.

Lemma lower_char_twice (c : ascii) :
  Py.lower_char (Py.lower_char c) = Py.lower_char c.
Proof.
  destruct c as [[] [] [] [] [] [] [] []]; vm_compute; reflexivity.
Qed.

Lemma lower_twice (s : string) : Py.lower (Py.lower s) = Py.lower s.
Proof.
  induction s as [|c s IH]; [reflexivity|].
  cbn [Py.lower]. now rewrite lower_char_twice, IH.
Qed.

Lemma lower_append (s t : string) :
  Py.lower (s +:+ t) = Py.lower s +:+ Py.lower t.
Proof.
  induction s as [|c s IH]; [reflexivity|].
  rewrite !append_cons. cbn [Py.lower]. rewrite append_cons. now rewrite IH.
Qed.

(** X15.  The assessment of a requirement ignores letter case: replacing
    the title or the description by a text that differs from it only in
    the case of its letters leaves the results unchanged. *)
Theorem requirement_assessment_ignores_case (requirement : Entity)
    (field old new : string) :
  field = "title" \/ field = "description" ->
  requirement !! field = Some (Py.PStr old) ->
  Py.lower new = Py.lower old ->
  assess_requirement_compliance (<[field := Py.PStr new]> requirement)
  = assess_requirement_compliance requirement.
Proof.
  intros Hf Hold Hlow. apply assess_requirement_same_text.
  unfold item_text_of. rewrite !lower_append. unfold Py.get_str.
  destruct Hf as [-> | ->].
  - rewrite lookup_insert_eq, Hold. cbn [Py.str]. rewrite Hlow.
    rewrite lookup_insert_ne by discriminate. reflexivity.
  - rewrite lookup_insert_eq, Hold. cbn [Py.str]. rewrite Hlow.
    rewrite lookup_insert_ne by discriminate. reflexivity.
Qed.

Lemma requirement_assessment_ignores_case_witness :
  assess_requirement_compliance
    (<["title" := Py.PStr "PATIENT Data Privacy"]> stored_requirement)
  = assess_requirement_compliance stored_requirement.
Proof.
  apply (requirement_assessment_ignores_case stored_requirement "title"
           "Patient data privacy" "PATIENT Data Privacy").
  - left. reflexivity.
  - vm_compute. reflexivity.
  - vm_compute. reflexivity.
Defined.

(** ** The completeness scorer *)

Lemma completeness_of_bounds (a b c d e f g : bool) :
  in_unit (completeness_of a b c d e f g) = true
  /\ (PrimFloat.eqb (completeness_of a b c d e f g) 1.0 = true ->
      a && b && c && d && e && f && g = true)
  /\ (PrimFloat.eqb (completeness_of a b c d e f g) 0.0 = true ->
      a || b || c || d || e || f || g = false).
Proof.
  destruct a, b, c, d, e, f, g; vm_compute; repeat split; congruence.
Qed.

Lemma has_test_steps_raises (test_case : Entity) :
  has_test_steps test_case = Py.TypeError <->
  exists v,
    test_case !! "test_steps" = Some v
    /\ Py.truthy v = true /\ is_container v = false.
Proof.
  unfold has_test_steps. destruct (test_case !! "test_steps") as [v|].
  - destruct (Py.truthy v) eqn:Ht.
    + destruct v; cbn [Py.len Py.bind]; split;
        try discriminate; try (intros _; eexists; repeat split; eauto; fail);
        intros (v' & Hv & _ & Hc); injection Hv as <-; discriminate Hc.
    + split; [discriminate|].
      intros (v' & Hv & Ht' & _). injection Hv as <-. congruence.
  - split; [discriminate|]. intros (v & Hv & _). discriminate.
Qed.

(** X16.  The completeness of a test case lies between 0.0 and 1.0 in
    spite of the rounding of the seven additions; it is 1.0 only when the
    six fields are populated and the steps are counted, and 0.0 only when
    no field is.  The scorer raises [TypeError] exactly when [test_steps]
    is a true value without a length, such as a non-zero number or
    [True]; a false value of any kind counts as absent steps. *)
Theorem completeness_outcomes (test_case : Entity) :
  (forall c,
      _assess_test_case_completeness test_case = Py.Return c ->
      in_unit c = true
      /\ (PrimFloat.eqb c 1.0 = true ->
          has_test_steps test_case = Py.Return true
          /\ forallb (Py.get_truthy test_case)
               [ "title"; "description"; "preconditions"; "expected_results";
                 "postconditions"; "priority" ] = true)
      /\ (PrimFloat.eqb c 0.0 = true ->
          has_test_steps test_case = Py.Return false
          /\ existsb (Py.get_truthy test_case)
               [ "title"; "description"; "preconditions"; "expected_results";
                 "postconditions"; "priority" ] = false))
  /\ (_assess_test_case_completeness test_case = Py.TypeError <->
      exists v,
        test_case !! "test_steps" = Some v
        /\ Py.truthy v = true /\ is_container v = false).
Proof.
  split.
  - intros c H. destruct (completeness_shape _ _ H) as (steps & Hs & ->).
    destruct (completeness_of_bounds
                (Py.get_truthy test_case "title")
                (Py.get_truthy test_case "description")
                (Py.get_truthy test_case "preconditions") steps
                (Py.get_truthy test_case "expected_results")
                (Py.get_truthy test_case "postconditions")
                (Py.get_truthy test_case "priority")) as (Hu & H1 & H0).
    split; [exact Hu|]. split.
    + intros E. specialize (H1 E). cbn [forallb].
      destruct (Py.get_truthy test_case "title"),
        (Py.get_truthy test_case "description"),
        (Py.get_truthy test_case "preconditions"), steps,
        (Py.get_truthy test_case "expected_results"),
        (Py.get_truthy test_case "postconditions"),
        (Py.get_truthy test_case "priority"); try discriminate H1.
      split; [exact Hs|reflexivity].
    + intros E. specialize (H0 E). cbn [existsb].
      destruct (Py.get_truthy test_case "title"),
        (Py.get_truthy test_case "description"),
        (Py.get_truthy test_case "preconditions"), steps,
        (Py.get_truthy test_case "expected_results"),
        (Py.get_truthy test_case "postconditions"),
        (Py.get_truthy test_case "priority"); try discriminate H0.
      split; [exact Hs|reflexivity].
  - rewrite <- has_test_steps_raises. unfold _assess_test_case_completeness.
    destruct (has_test_steps test_case); cbn [Py.bind]; split;
      (discriminate || reflexivity).
Qed.

(** ** The route: the engine's report, then the filter *)

Lemma filter_requirement_compliance_container (f : Py.PyVal)
    (secs : list RequirementCompliance.t) :
  is_container f = true ->
  exists secs', Routes.filter_requirement_compliance f secs = Py.Return secs'.
Proof.
  intros Hc. induction secs as [|sec secs [secs' IH]];
    cbn [Routes.filter_requirement_compliance]; [eauto|].
  rewrite (filter_results_container _ _ Hc), IH. cbn [Py.bind]. eauto.
Qed.

Lemma filter_test_case_compliance_container (f : Py.PyVal)
    (secs : list TestCaseCompliance.t) :
  is_container f = true ->
  exists secs', Routes.filter_test_case_compliance f secs = Py.Return secs'.
Proof.
  intros Hc. induction secs as [|sec secs [secs' IH]];
    cbn [Routes.filter_test_case_compliance]; [eauto|].
  rewrite (filter_results_container _ _ Hc), IH. cbn [Py.bind]. eauto.
Qed.

Lemma apply_standards_filter_returns (f : Py.PyVal) (report : Report.t) :
  is_container f = true \/ Py.truthy f = false ->
  exists report', Routes.apply_standards_filter f report = Py.Return report'.
Proof.
  intros H. unfold Routes.apply_standards_filter.
  destruct (Py.truthy f) eqn:Ht; [|eauto].
  destruct H as [Hc|Hf]; [|discriminate].
  destruct (filter_requirement_compliance_container
              f (Report.requirement_compliance report) Hc) as [rc ->].
  destruct (filter_test_case_compliance_container
              f (Report.test_case_compliance report) Hc) as [tc ->].
  unfold Routes.filter_overall.
  destruct (filter_overall_items_container
              f (map_to_list (Report.overall_compliance report)) Hc) as [ov ->].
  cbn [Py.bind]. eauto.
Qed.

(** X17.  From the converted records on, the filter adds no failure of its
    own when the [standards] value is a string, a list, a dict or false
    (absent, [None], empty, zero): the engine call followed by the filter
    block raises exactly when the engine call alone raises, which is when
    a test case of the batch has [test_steps] that cannot be joined.  The
    steps of the route before the engine call are not part of this
    statement. *)
Theorem filter_adds_no_failure (now : string)
    (req_dicts tc_dicts : list Entity) (standards_filter : Py.PyVal) :
  is_container standards_filter = true \/ Py.truthy standards_filter = false ->
  (Routes.generate_compliance_report now req_dicts tc_dicts standards_filter
   = Py.TypeError
   <-> generate_compliance_report now req_dicts tc_dicts = Py.TypeError)
  /\ (Routes.generate_compliance_report now req_dicts tc_dicts standards_filter
      = Py.TypeError
      <-> exists tc, In tc tc_dicts /\ joinable (test_steps_of tc) = false).
Proof.
  intros Hf. rewrite <- all_joinable_false.
  unfold Routes.generate_compliance_report.
  destruct (report_outcome now req_dicts tc_dicts) as [Hraise Hret].
  destruct (all_joinable tc_dicts) eqn:J.
  - destruct (Hret eq_refl) as (rss & _ & ->). cbn [Py.bind].
    match goal with
    | |- context [Routes.apply_standards_filter _ ?r] =>
        destruct (apply_standards_filter_returns standards_filter r Hf)
          as [report' ->]
    end.
    split; split; discriminate.
  - rewrite (Hraise eq_refl). split; split; reflexivity.
Qed.

Lemma filter_adds_no_failure_witness :
  Routes.generate_compliance_report "2024-01-01T00:00:00"
    [stored_requirement] [numeric_steps_test_case] hipaa_object
  = Py.TypeError.
Proof.
  apply (proj2 (proj2 (filter_adds_no_failure "2024-01-01T00:00:00"
                         [stored_requirement] [numeric_steps_test_case]
                         hipaa_object (or_introl eq_refl)))).
  exists numeric_steps_test_case. split; [simpl; auto|vm_compute; reflexivity].
Defined.

(** A filter given as a JSON object is a key test: it selects what the
    list of its keys selects. *)
Example object_filter_is_a_key_test :
  Routes.apply_standards_filter hipaa_object sample_report
  = Routes.apply_standards_filter hipaa_only sample_report
  /\ Routes.apply_standards_filter (Py.PFloat 0.5%float) sample_report
     = Py.TypeError
  /\ Routes.apply_standards_filter (Py.PFloat 0%float) sample_report
     = Py.Return sample_report.
Proof. repeat split; vm_compute; reflexivity. Qed.

Lemma filter_requirement_compliance_concat (f : Py.PyVal)
    (secs secs' : list RequirementCompliance.t) :
  Routes.filter_requirement_compliance f secs = Py.Return secs' ->
  concat (List.map RequirementCompliance.compliance_results secs')
  = List.filter (fun r => allowed f (ResultDict.standard r))
      (concat (List.map RequirementCompliance.compliance_results secs)).
Proof.
  revert secs'; induction secs as [|sec secs IH]; intros secs';
    cbn [Routes.filter_requirement_compliance].
  - intros H. now injection H as <-.
  - destruct (Routes.filter_results f (RequirementCompliance.compliance_results sec))
      as [rs|] eqn:Ers; cbn [Py.bind]; [|discriminate].
    destruct (Routes.filter_requirement_compliance f secs) as [rest|];
      cbn [Py.bind]; [|discriminate].
    intros H. injection H as <-.
    apply filter_results_spec in Ers. specialize (IH rest eq_refl).
    cbn [List.map concat]. rewrite List.filter_app, <- Ers, <- IH.
    destruct rs; reflexivity.
Qed.

Lemma filter_test_case_compliance_concat (f : Py.PyVal)
    (secs secs' : list TestCaseCompliance.t) :
  Routes.filter_test_case_compliance f secs = Py.Return secs' ->
  concat (List.map TestCaseCompliance.compliance_results secs')
  = List.filter (fun r => allowed f (ResultDict.standard r))
      (concat (List.map TestCaseCompliance.compliance_results secs)).
Proof.
  revert secs'; induction secs as [|sec secs IH]; intros secs';
    cbn [Routes.filter_test_case_compliance].
  - intros H. now injection H as <-.
  - destruct (Routes.filter_results f (TestCaseCompliance.compliance_results sec))
      as [rs|] eqn:Ers; cbn [Py.bind]; [|discriminate].
    destruct (Routes.filter_test_case_compliance f secs) as [rest|];
      cbn [Py.bind]; [|discriminate].
    intros H. injection H as <-.
    apply filter_results_spec in Ers. specialize (IH rest eq_refl).
    cbn [List.map concat]. rewrite List.filter_app, <- Ers, <- IH.
    destruct rs; reflexivity.
Qed.

Lemma count_after_filter (f : Py.PyVal) (standard : string) (l : list ResultDict.t) :
  List.length
    (List.filter (fun r => String.eqb (ResultDict.standard r) standard)
       (List.filter (fun r => allowed f (ResultDict.standard r)) l))
  = if allowed f standard
    then List.length
           (List.filter (fun r => String.eqb (ResultDict.standard r) standard) l)
    else 0.
Proof.
  induction l as [|r l IH]; cbn [List.filter]; [now destruct (allowed f standard)|].
  destruct (String.eqb_spec (ResultDict.standard r) standard) as [E|N].
  - rewrite E. destruct (allowed f standard) eqn:Ea.
    + cbn [List.filter]. rewrite E, String.eqb_refl. cbn [List.length].
      now rewrite IH.
    + exact IH.
  - destruct (allowed f (ResultDict.standard r)); [|exact IH].
    cbn [List.filter]. destruct (String.eqb_spec (ResultDict.standard r) standard);
      [contradiction|exact IH].
Qed.

Lemma count_dicts (standard : string) (results : list ComplianceResult.t) :
  List.length
    (List.filter (fun r => String.eqb (ResultDict.standard r) standard)
       (List.map _compliance_result_to_dict results))
  = List.length (results_for standard results).
Proof.
  unfold results_for. induction results as [|r results IH]; [reflexivity|].
  cbn [List.map List.filter _compliance_result_to_dict ResultDict.standard].
  destruct (String.eqb (ComplianceResult.standard r) standard);
    cbn [List.length]; now rewrite IH.
Qed.

Lemma results_for_unlisted (standard : string) (results : list ComplianceResult.t) :
  (forall r, In r results -> In (ComplianceResult.standard r) standards) ->
  ~ In standard standards ->
  results_for standard results = [].
Proof.
  intros Hall Hnot. unfold results_for.
  induction results as [|r results IH]; [reflexivity|]. cbn [List.filter].
  destruct (String.eqb_spec (ComplianceResult.standard r) standard) as [E|_].
  - exfalso. apply Hnot. rewrite <- E. apply Hall. now left.
  - apply IH. intros r' Hr'. apply Hall. now right.
Qed.

Lemma rollup_counts_all (standard : string)
    (req_results tc_results : list ComplianceResult.t) :
  (forall r, In r req_results -> In (ComplianceResult.standard r) standards) ->
  (forall r, In r tc_results -> In (ComplianceResult.standard r) standards) ->
  requirement_count_of (_calculate_overall_compliance req_results tc_results) standard
  = List.length (results_for standard req_results)
  /\ test_case_count_of (_calculate_overall_compliance req_results tc_results) standard
     = List.length (results_for standard tc_results).
Proof.
  intros Hreq Htc.
  destruct (existsb (String.eqb standard) standards) eqn:E.
  - apply rollup_counts. now apply existsb_eqb_in.
  - assert (Hnot : ~ In standard standards).
    { intros Hin. apply existsb_eqb_in in Hin. congruence. }
    rewrite (results_for_unlisted _ _ Hreq Hnot), (results_for_unlisted _ _ Htc Hnot).
    unfold requirement_count_of, test_case_count_of, _calculate_overall_compliance.
    rewrite calculate_overall_with_lookup, E. auto.
Qed.

Lemma filtered_count (f : Py.PyVal) (overall overall' : gmap string Overall.t)
    (standard : string) :
  Routes.filter_overall f overall = Py.Return overall' ->
  requirement_count_of overall' standard
  = (if allowed f standard then requirement_count_of overall standard else 0)
  /\ test_case_count_of overall' standard
     = (if allowed f standard then test_case_count_of overall standard else 0).
Proof.
  intros H. unfold requirement_count_of, test_case_count_of.
  rewrite (filter_overall_spec _ _ _ H standard).
  destruct (allowed f standard); auto.
Qed.

Lemma engine_report_counts (now : string) (requirements test_cases : list Entity)
    (report : Report.t) (standard : string) :
  generate_compliance_report now requirements test_cases = Py.Return report ->
  requirement_count_of (Report.overall_compliance report) standard
  = List.length
      (List.filter (fun r => String.eqb (ResultDict.standard r) standard)
         (concat (List.map RequirementCompliance.compliance_results
                    (Report.requirement_compliance report))))
  /\ test_case_count_of (Report.overall_compliance report) standard
     = List.length
         (List.filter (fun r => String.eqb (ResultDict.standard r) standard)
            (concat (List.map TestCaseCompliance.compliance_results
                       (Report.test_case_compliance report)))).
Proof.
  destruct (report_outcome now requirements test_cases) as [Hraise Hret].
  destruct (all_joinable test_cases) eqn:J.
  2:{ rewrite (Hraise eq_refl). discriminate. }
  destruct (Hret eq_refl) as (rss & Hall & ->).
  intros H. injection H as <-.
  cbn [Report.requirement_compliance Report.test_case_compliance
       Report.overall_compliance].
  destruct (rollup_counts_all standard
              (flat_map assess_requirement_compliance requirements) (concat rss))
    as [H1 H2].
  - intros r Hr. apply in_flat_map in Hr. destruct Hr as (req & _ & Hr).
    now apply (requirement_result_standard_listed req).
  - intros r Hr. apply in_concat in Hr. destruct Hr as (rs & Hrs & Hr).
    clear - Hall Hrs Hr.
    induction Hall as [|tc rs' test_cases' rss' Hres _ IH]; [destruct Hrs|].
    destruct Hrs as [->|Hrs]; [|now apply IH].
    now apply (test_case_result_standard_listed _ _ _ _ Hres).
  - rewrite H1, H2. split.
    + rewrite map_map. cbn [RequirementCompliance.compliance_results].
      rewrite <- (map_map assess_requirement_compliance
                    (List.map _compliance_result_to_dict)).
      rewrite <- concat_map, <- flat_map_concat_map. apply eq_sym, count_dicts.
    + rewrite map_map. cbn [TestCaseCompliance.compliance_results].
      rewrite <- count_dicts. f_equal. f_equal.
      clear - Hall.
      induction Hall as [|tc rs test_cases' rss' _ _ IH]; simpl; [reflexivity|].
      rewrite map_app. f_equal. exact IH.
Qed.

(** X18.  A report the route returns, filtered or not, is consistent: for
    every standard, the requirement count and the test-case count of its
    rollup entry (0 without an entry) are the numbers of results of that
    standard in the requirement sections and in the test-case sections of
    the same report. *)
Theorem route_report_counts_match_sections (now : string)
    (req_dicts tc_dicts : list Entity) (standards_filter : Py.PyVal)
    (report : Report.t) (standard : string) :
  Routes.generate_compliance_report now req_dicts tc_dicts standards_filter
  = Py.Return report ->
  requirement_count_of (Report.overall_compliance report) standard
  = List.length
      (List.filter (fun r => String.eqb (ResultDict.standard r) standard)
         (concat (List.map RequirementCompliance.compliance_results
                    (Report.requirement_compliance report))))
  /\ test_case_count_of (Report.overall_compliance report) standard
     = List.length
         (List.filter (fun r => String.eqb (ResultDict.standard r) standard)
            (concat (List.map TestCaseCompliance.compliance_results
                       (Report.test_case_compliance report)))).
Proof.
  unfold Routes.generate_compliance_report.
  destruct (generate_compliance_report now req_dicts tc_dicts) as [report0|] eqn:E0;
    cbn [Py.bind]; [|discriminate].
  intros H. destruct (engine_report_counts _ _ _ _ standard E0) as [H1 H2].
  destruct (Py.truthy standards_filter) eqn:Ht.
  - destruct (apply_standards_filter_parts _ _ _ Ht H) as (Hreq & Htc & Hov & _).
    destruct (filtered_count _ _ _ standard Hov) as [-> ->].
    rewrite (filter_requirement_compliance_concat _ _ _ Hreq).
    rewrite (filter_test_case_compliance_concat _ _ _ Htc).
    rewrite !count_after_filter, H1, H2.
    destruct (allowed standards_filter standard); auto.
  - unfold Routes.apply_standards_filter in H. rewrite Ht in H.
    injection H as <-. auto.
Qed.

Lemma route_report_counts_match_sections_witness :
  exists report,
    Routes.generate_compliance_report "2024-01-01T00:00:00"
      [stored_requirement; risk_requirement] [linked_test_case] hipaa_only
    = Py.Return report
    /\ requirement_count_of (Report.overall_compliance report) "HIPAA"
       = List.length
           (List.filter (fun r => String.eqb (ResultDict.standard r) "HIPAA")
              (concat (List.map RequirementCompliance.compliance_results
                         (Report.requirement_compliance report)))).
Proof.
  destruct (Routes.generate_compliance_report "2024-01-01T00:00:00"
              [stored_requirement; risk_requirement] [linked_test_case] hipaa_only)
    as [report|] eqn:E; [|vm_compute in E; discriminate E].
  exists report. split; [reflexivity|].
  exact (proj1 (route_report_counts_match_sections _ _ _ _ _ "HIPAA" E)).
Defined.

(** ** Standards without a rule *)

Lemma requirement_result_has_rule (requirement : Entity) (r : ComplianceResult.t) :
  In r (assess_requirement_compliance requirement) ->
  exists rule,
    In rule compliance_rules
    /\ ComplianceRule.standard rule = ComplianceResult.standard r.
Proof.
  intros Hr. apply assess_requirement_with_in in Hr.
  destruct Hr as (rule & Hin & -> & Hu).
  apply evaluate_requirement_known in Hu.
  destruct (evaluate_requirement_score _ requirement rule Hu) as (_ & _ & _ & _ & ->).
  now exists rule.
Qed.

Lemma test_case_result_has_rule (test_case : Entity)
    (requirement : option Entity) (results : list ComplianceResult.t)
    (r : ComplianceResult.t) :
  assess_test_case_compliance test_case requirement = Py.Return results ->
  In r results ->
  exists rule,
    In rule compliance_rules
    /\ ComplianceRule.standard rule = ComplianceResult.standard r.
Proof.
  intros Hres Hr.
  destruct (assess_test_case_with_in _ _ _ _ Hres) as (text & _ & Hspec).
  apply Hspec in Hr. destruct Hr as (rule & Hin & He & Hu).
  destruct (evaluate_test_case_cases _ _ _ _ _ He) as [(_ & _ & ->)|[Hmq _]];
    [discriminate Hu|].
  destruct (evaluate_test_case_score text test_case rule requirement Hmq)
    as [[He' _]|(r' & c & Hr' & _ & _ & _ & _ & Hs)]; [congruence|].
  assert (r' = r) as -> by congruence.
  exists rule. auto.
Qed.

Lemma results_for_in (standard : string) (results : list ComplianceResult.t) :
  results_for standard results <> [] ->
  exists r, In r results /\ ComplianceResult.standard r = standard.
Proof.
  unfold results_for. intros H.
  destruct (List.filter _ results) as [|r rs] eqn:E; [congruence|].
  assert (Hin : In r (List.filter
                        (fun r => String.eqb (ComplianceResult.standard r) standard)
                        results)) by (rewrite E; now left).
  apply filter_In in Hin. destruct Hin as [Hin Heq].
  exists r. split; [exact Hin|now apply String.eqb_eq].
Qed.

Lemma no_rule_for_iso_9001 :
  forallb
    (fun rule => negb (String.eqb (ComplianceRule.standard rule) "ISO 9001"))
    compliance_rules = true.
Proof. vm_compute. reflexivity. Qed.

(** X19.  A standard has a rollup entry in a report only if the catalog
    has a rule for it and the batch has a result for it.  The summary
    names all seven standards as assessed, but ISO 9001, for which the
    catalog has no rule, never has an entry. *)
Theorem rollup_entry_needs_a_rule (now : string)
    (requirements test_cases : list Entity) (report : Report.t) :
  generate_compliance_report now requirements test_cases = Py.Return report ->
  Summary.standards_assessed (Report.summary report) = standards
  /\ (forall standard e,
         Report.overall_compliance report !! standard = Some e ->
         (exists rule,
             In rule compliance_rules /\ ComplianceRule.standard rule = standard)
         /\ 0 < Overall.requirement_count e + Overall.test_case_count e)
  /\ Report.overall_compliance report !! "ISO 9001" = None.
Proof.
  destruct (report_outcome now requirements test_cases) as [Hraise Hret].
  destruct (all_joinable test_cases) eqn:J.
  2:{ rewrite (Hraise eq_refl). discriminate. }
  destruct (Hret eq_refl) as (rss & Hall & ->).
  intros H. injection H as <-.
  cbn [Report.summary Report.overall_compliance Summary.standards_assessed].
  assert (Hentry :
            forall standard e,
              _calculate_overall_compliance
                (flat_map assess_requirement_compliance requirements) (concat rss)
                !! standard = Some e ->
              (exists rule,
                  In rule compliance_rules /\ ComplianceRule.standard rule = standard)
              /\ 0 < Overall.requirement_count e + Overall.test_case_count e).
  { intros standard e He.
    unfold _calculate_overall_compliance in He.
    rewrite calculate_overall_with_lookup in He.
    destruct (existsb (String.eqb standard) standards); [|discriminate].
    set (R := flat_map assess_requirement_compliance requirements) in *.
    set (T := concat rss) in *.
    destruct (results_for standard R) as [|r0 R0] eqn:ER.
    - destruct (results_for standard T) as [|t0 T0] eqn:ET.
      + rewrite (overall_entry_none _ _ _ ER ET) in He. discriminate.
      + destruct (overall_entry_some standard R T) as (e' & He' & H1 & H2 & _).
        { right. rewrite ET. discriminate. }
        assert (e' = e) as -> by congruence.
        split; [|rewrite H2, ET; simpl; lia].
        destruct (results_for_in standard T) as (r & Hr & <-);
          [rewrite ET; discriminate|].
        apply in_concat in Hr. destruct Hr as (rs & Hrs & Hr).
        clear - Hall Hrs Hr.
        induction Hall as [|tc rs' test_cases' rss' Hres _ IH]; [destruct Hrs|].
        destruct Hrs as [->|Hrs]; [|now apply IH].
        exact (test_case_result_has_rule _ _ _ _ Hres Hr).
    - destruct (overall_entry_some standard R T) as (e' & He' & H1 & H2 & _).
      { left. rewrite ER. discriminate. }
      assert (e' = e) as -> by congruence.
      split; [|rewrite H1, ER; simpl; lia].
      destruct (results_for_in standard R) as (r & Hr & <-);
        [rewrite ER; discriminate|].
      apply in_flat_map in Hr. destruct Hr as (req & _ & Hr).
      exact (requirement_result_has_rule req r Hr). }
  split; [reflexivity|]. split; [exact Hentry|].
  destruct (_calculate_overall_compliance _ _ !! "ISO 9001") as [e|] eqn:E;
    [|reflexivity].
  destruct (Hentry _ _ E) as [(rule & Hin & Hs) _].
  pose proof (in_catalog_forallb _ rule no_rule_for_iso_9001 Hin) as Hno.
  cbv beta in Hno. rewrite Hs in Hno. discriminate Hno.
Qed.

Lemma rollup_entry_needs_a_rule_witness :
  exists report,
    generate_compliance_report "2024-01-01T00:00:00"
      [stored_requirement; risk_requirement] [linked_test_case] = Py.Return report
    /\ Summary.standards_assessed (Report.summary report) = standards
    /\ Report.overall_compliance report !! "ISO 9001" = None.
Proof.
  destruct (proj2 (report_outcome "2024-01-01T00:00:00"
                     [stored_requirement; risk_requirement] [linked_test_case]))
    as (rss & _ & E); [vm_compute; reflexivity|].
  eexists. split; [exact E|].
  destruct (rollup_entry_needs_a_rule _ _ _ _ E) as (H1 & _ & H3).
  split; [exact H1|exact H3].
Defined.

(** ** A bare standard name as the filter *)

Lemma allowed_bare_name (s k : string) :
  In s standards -> In k standards ->
  allowed (Py.PStr s) k = allowed (Py.PList [Py.PStr s]) k.
Proof.
  intros Hs Hk. simpl in Hs, Hk.
  repeat match goal with H : _ \/ _ |- _ => destruct H as [<-|H] end;
    try contradiction; vm_compute; reflexivity.
Qed.

Lemma filter_results_agree (f g : Py.PyVal) (rs : list ResultDict.t) :
  is_container f = true -> is_container g = true ->
  (forall r, In r rs ->
             allowed f (ResultDict.standard r) = allowed g (ResultDict.standard r)) ->
  Routes.filter_results f rs = Routes.filter_results g rs.
Proof.
  intros Hf Hg H.
  rewrite (filter_results_container _ _ Hf), (filter_results_container _ _ Hg).
  f_equal. apply filter_ext_in. exact H.
Qed.

Lemma filter_requirement_compliance_agree (f g : Py.PyVal)
    (secs : list RequirementCompliance.t) :
  (forall sec, In sec secs ->
               Routes.filter_results f (RequirementCompliance.compliance_results sec)
               = Routes.filter_results g (RequirementCompliance.compliance_results sec)) ->
  Routes.filter_requirement_compliance f secs
  = Routes.filter_requirement_compliance g secs.
Proof.
  induction secs as [|sec secs IH]; intros H; [reflexivity|].
  cbn [Routes.filter_requirement_compliance].
  rewrite (H sec) by now left. rewrite IH; [reflexivity|].
  intros sec' Hin. apply H. now right.
Qed.

Lemma filter_test_case_compliance_agree (f g : Py.PyVal)
    (secs : list TestCaseCompliance.t) :
  (forall sec, In sec secs ->
               Routes.filter_results f (TestCaseCompliance.compliance_results sec)
               = Routes.filter_results g (TestCaseCompliance.compliance_results sec)) ->
  Routes.filter_test_case_compliance f secs
  = Routes.filter_test_case_compliance g secs.
Proof.
  induction secs as [|sec secs IH]; intros H; [reflexivity|].
  cbn [Routes.filter_test_case_compliance].
  rewrite (H sec) by now left. rewrite IH; [reflexivity|].
  intros sec' Hin. apply H. now right.
Qed.

Lemma filter_overall_items_agree (f g : Py.PyVal) (items : list (string * Overall.t)) :
  (forall item, In item items ->
                Routes.standard_in (fst item) f = Routes.standard_in (fst item) g) ->
  Routes.filter_overall_items f items = Routes.filter_overall_items g items.
Proof.
  induction items as [|[s c] items IH]; intros H; [reflexivity|].
  cbn [Routes.filter_overall_items].
  pose proof (H (s, c) (or_introl eq_refl)) as Hs. cbn [fst] in Hs.
  rewrite Hs, IH; [reflexivity|].
  intros item Hin. apply H. now right.
Qed.

Lemma rollup_keys_listed (req_results tc_results : list ComplianceResult.t)
    (standard : string) (e : Overall.t) :
  _calculate_overall_compliance req_results tc_results !! standard = Some e ->
  In standard standards.
Proof.
  unfold _calculate_overall_compliance. rewrite calculate_overall_with_lookup.
  destruct (existsb (String.eqb standard) standards) eqn:E; [|discriminate].
  intros _. now apply existsb_eqb_in.
Qed.

(** X20.  For the route, the name of one of the engine's standards given
    as a bare string selects exactly what the one-item list with that name
    selects: the substring test the string gets cannot pick up another
    standard, no name of the engine's list being part of another. *)
Theorem bare_name_filters_like_list (now : string)
    (req_dicts tc_dicts : list Entity) (name : string) :
  In name standards ->
  Routes.generate_compliance_report now req_dicts tc_dicts (Py.PStr name)
  = Routes.generate_compliance_report now req_dicts tc_dicts
      (Py.PList [Py.PStr name]).
Proof.
  intros Hname. unfold Routes.generate_compliance_report.
  destruct (report_outcome now req_dicts tc_dicts) as [Hraise Hret].
  destruct (all_joinable tc_dicts) eqn:J.
  2:{ now rewrite (Hraise eq_refl). }
  destruct (Hret eq_refl) as (rss & Hall & ->). cbn [Py.bind].
  unfold Routes.apply_standards_filter.
  assert (Ht : Py.truthy (Py.PStr name) = true).
  { simpl in Hname.
    repeat match goal with H : _ \/ _ |- _ => destruct H as [<-|H] end;
      try contradiction; reflexivity. }
  rewrite Ht. cbn [Py.truthy Report.requirement_compliance
                     Report.test_case_compliance Report.overall_compliance
                     Report.generated_at Report.summary Report.recommendations].
  assert (Hdicts :
            forall rs : list ComplianceResult.t,
              (forall r, In r rs -> In (ComplianceResult.standard r) standards) ->
              Routes.filter_results (Py.PStr name)
                (List.map _compliance_result_to_dict rs)
              = Routes.filter_results (Py.PList [Py.PStr name])
                  (List.map _compliance_result_to_dict rs)).
  { intros rs Hrs. apply filter_results_agree; [reflexivity|reflexivity|].
    intros d Hd. apply in_map_iff in Hd. destruct Hd as (r & <- & Hr).
    apply allowed_bare_name; [exact Hname|]. now apply Hrs. }
  rewrite (filter_requirement_compliance_agree (Py.PStr name)
             (Py.PList [Py.PStr name])).
  2:{ intros sec Hsec. apply in_map_iff in Hsec. destruct Hsec as (req & <- & _).
      cbn [RequirementCompliance.compliance_results]. apply Hdicts.
      intros r Hr. now apply (requirement_result_standard_listed req). }
  rewrite (filter_test_case_compliance_agree (Py.PStr name)
             (Py.PList [Py.PStr name])).
  2:{ intros sec Hsec. apply in_map_iff in Hsec. destruct Hsec as ([tc rs] & <- & Hp).
      cbn [TestCaseCompliance.compliance_results fst snd]. apply Hdicts.
      intros r Hr. clear - Hall Hp Hr.
      induction Hall as [|tc' rs' test_cases' rss' Hres _ IH]; [destruct Hp|].
      destruct Hp as [Hp|Hp]; [|now apply IH].
      injection Hp as -> ->.
      now apply (test_case_result_standard_listed _ _ _ _ Hres). }
  unfold Routes.filter_overall.
  rewrite (filter_overall_items_agree (Py.PStr name) (Py.PList [Py.PStr name])).
  2:{ intros [k e] Hin. cbn [fst].
      apply list_elem_of_In, elem_of_map_to_list in Hin.
      apply rollup_keys_listed in Hin.
      rewrite (standard_in_container k (Py.PStr name) eq_refl).
      rewrite (standard_in_container k (Py.PList [Py.PStr name]) eq_refl).
      f_equal. now apply allowed_bare_name. }
  reflexivity.
Qed.

Lemma bare_name_filters_like_list_witness :
  Routes.generate_compliance_report "2024-01-01T00:00:00"
    [stored_requirement; risk_requirement] [linked_test_case] (Py.PStr "HIPAA")
  = Routes.generate_compliance_report "2024-01-01T00:00:00"
      [stored_requirement; risk_requirement] [linked_test_case] hipaa_only.
Proof.
  apply (bare_name_filters_like_list "2024-01-01T00:00:00"
           [stored_requirement; risk_requirement] [linked_test_case] "HIPAA").
  simpl. auto 10.
Defined.

(** ** Scores do not go down when a record improves *)

Lemma catalog_req_monotone : forallb req_scores_monotone compliance_rules = true.
Proof. vm_compute. reflexivity. Qed.

Lemma catalog_tc_monotone : forallb tc_scores_monotone compliance_rules = true.
Proof. vm_compute. reflexivity. Qed.

Lemma not_worse_spec (s s' : float) :
  not_worse s s' = true ->
  PrimFloat.leb s s' = true
  /\ level_rank (threshold_level s) <= level_rank (threshold_level s').
Proof.
  unfold not_worse. destruct (PrimFloat.leb s s'); [|discriminate].
  intros H. split; [reflexivity|now apply Nat.leb_le].
Qed.

Lemma le_pairs_in (b b' : bool) : (b = true -> b' = true) -> In (b, b') le_pairs.
Proof.
  unfold le_pairs. destruct b, b'; simpl; auto.
  intros H. specialize (H eq_refl). discriminate.
Qed.

Lemma le_pairs_implb (b b' : bool) : implb b b' = true -> In (b, b') le_pairs.
Proof. unfold le_pairs. destruct b, b'; simpl; auto. discriminate. Qed.

(** X21.  For a rule of the catalog, the result of a requirement does not
    get worse when the requirement improves: if at least as many of the
    rule's patterns are found and at least as many of its required
    criteria are met, the score is not lower and the level is not below
    the level before. *)
Theorem requirement_score_monotone (rule : ComplianceRule.t)
    (requirement requirement' : Entity) :
  In rule compliance_rules ->
  count_patterns (ComplianceRule.requirement_patterns rule) (item_text_of requirement)
  <> 0 ->
  count_patterns (ComplianceRule.requirement_patterns rule) (item_text_of requirement)
  <= count_patterns (ComplianceRule.requirement_patterns rule)
       (item_text_of requirement') ->
  criteria_met_count (item_text_of requirement)
    (map_to_list (ComplianceRule.validation_criteria rule))
  <= criteria_met_count (item_text_of requirement')
       (map_to_list (ComplianceRule.validation_criteria rule)) ->
  PrimFloat.leb
    (ComplianceResult.score
       (_evaluate_requirement_against_rule (item_text_of requirement) requirement rule))
    (ComplianceResult.score
       (_evaluate_requirement_against_rule (item_text_of requirement') requirement'
          rule)) = true
  /\ level_rank
       (ComplianceResult.compliance_level
          (_evaluate_requirement_against_rule (item_text_of requirement) requirement
             rule))
     <= level_rank
          (ComplianceResult.compliance_level
             (_evaluate_requirement_against_rule (item_text_of requirement')
                requirement' rule)).
Proof.
  intros Hin Hm Hmm Hkk.
  set (ps := ComplianceRule.requirement_patterns rule) in *.
  set (cs := map_to_list (ComplianceRule.validation_criteria rule)) in *.
  assert (Hm' : count_patterns ps (item_text_of requirement') <> 0) by lia.
  destruct (evaluate_requirement_score _ requirement rule Hm) as (Hs & Hl & _).
  destruct (evaluate_requirement_score _ requirement' rule Hm') as (Hs' & Hl' & _).
  cbv zeta in Hs, Hl, Hs', Hl'. rewrite Hl, Hl', Hs, Hs'.
  apply not_worse_spec.
  pose proof (in_catalog_forallb _ rule catalog_req_monotone Hin) as HP.
  unfold req_scores_monotone in HP. cbv zeta in HP.
  fold ps in HP.
  pose proof (count_patterns_le ps (item_text_of requirement)) as B1.
  pose proof (count_patterns_le ps (item_text_of requirement')) as B2.
  pose proof (criteria_met_count_le (item_text_of requirement) cs) as B3.
  pose proof (criteria_met_count_le (item_text_of requirement') cs) as B4.
  unfold cs in B3, B4. rewrite length_map_to_list in B3, B4. fold cs in B3, B4.
  rewrite forallb_forall in HP.
  assert (I1 : In (count_patterns ps (item_text_of requirement))
                 (seq 1 (List.length ps))) by (apply in_seq; lia).
  assert (I2 : In (count_patterns ps (item_text_of requirement'))
                 (seq 1 (List.length ps))) by (apply in_seq; lia).
  assert (I3 : In (criteria_met_count (item_text_of requirement) cs)
                 (seq 0 (S (size (ComplianceRule.validation_criteria rule)))))
    by (apply in_seq; lia).
  assert (I4 : In (criteria_met_count (item_text_of requirement') cs)
                 (seq 0 (S (size (ComplianceRule.validation_criteria rule)))))
    by (apply in_seq; lia).
  specialize (HP _ I1). rewrite forallb_forall in HP.
  specialize (HP _ I2). rewrite (proj2 (Nat.leb_le _ _) Hmm) in HP.
  rewrite forallb_forall in HP. specialize (HP _ I3).
  rewrite forallb_forall in HP. specialize (HP _ I4).
  now rewrite (proj2 (Nat.leb_le _ _) Hkk) in HP.
Qed.

Lemma requirement_score_monotone_witness :
  PrimFloat.leb
    (ComplianceResult.score
       (_evaluate_requirement_against_rule (item_text_of encryption_requirement)
          encryption_requirement ISO_27001_001))
    (ComplianceResult.score
       (_evaluate_requirement_against_rule (item_text_of secure_requirement)
          secure_requirement ISO_27001_001)) = true
  /\ level_rank
       (ComplianceResult.compliance_level
          (_evaluate_requirement_against_rule (item_text_of encryption_requirement)
             encryption_requirement ISO_27001_001))
     <= level_rank
          (ComplianceResult.compliance_level
             (_evaluate_requirement_against_rule (item_text_of secure_requirement)
                secure_requirement ISO_27001_001)).
Proof.
  apply (requirement_score_monotone ISO_27001_001 encryption_requirement
           secure_requirement).
  - simpl. auto 10.
  - vm_compute. discriminate.
  - vm_compute. lia.
  - vm_compute. lia.
Defined.

(** X22.  For a rule of the catalog, the result of a test case does not
    get worse when the test case improves: if at least as many of the
    rule's test patterns are found, the requirement bonus is not lost,
    every populated field stays populated and counted steps stay counted,
    the score is not lower and the level is not below the level before. *)
Theorem test_case_score_monotone (rule : ComplianceRule.t)
    (text text' : string) (test_case test_case' : Entity)
    (requirement requirement' : option Entity) (r r' : ComplianceResult.t) :
  In rule compliance_rules ->
  _evaluate_test_case_against_rule text test_case rule requirement = Py.Return r ->
  _evaluate_test_case_against_rule text' test_case' rule requirement' = Py.Return r' ->
  is_unknown r = false ->
  count_patterns (ComplianceRule.test_case_patterns rule) text
  <= count_patterns (ComplianceRule.test_case_patterns rule) text' ->
  (req_pattern_matches_of rule requirement <> 0 ->
   req_pattern_matches_of rule requirement' <> 0) ->
  forallb
    (fun field =>
       implb (Py.get_truthy test_case field) (Py.get_truthy test_case' field))
    [ "title"; "description"; "preconditions"; "expected_results";
      "postconditions"; "priority" ] = true ->
  (has_test_steps test_case = Py.Return true ->
   has_test_steps test_case' = Py.Return true) ->
  PrimFloat.leb (ComplianceResult.score r) (ComplianceResult.score r') = true
  /\ level_rank (ComplianceResult.compliance_level r)
     <= level_rank (ComplianceResult.compliance_level r').
Proof.
  intros Hin Hr Hr' Hu Hmm Hqq Hfields Hsteps.
  cbn [forallb] in Hfields.
  repeat match goal with
         | H : _ && _ = true |- _ =>
             let H1 := fresh "Hf" in
             apply andb_true_iff in H; destruct H as [H1 H]
         end.
  set (ps := ComplianceRule.test_case_patterns rule) in *.
  set (m := count_patterns ps text) in *.
  set (m' := count_patterns ps text') in *.
  set (q := req_pattern_matches_of rule requirement) in *.
  set (q' := req_pattern_matches_of rule requirement') in *.
  assert (Hmq : m <> 0 \/ q <> 0).
  { destruct (evaluate_test_case_cases _ _ _ _ _ Hr) as [(_ & _ & ->)|[H _]];
      [discriminate Hu|exact H]. }
  assert (Hmq' : m' <> 0 \/ q' <> 0).
  { destruct Hmq as [H|H]; [left; lia|right; auto]. }
  destruct (evaluate_test_case_score text test_case rule requirement Hmq)
    as [[He _]|(r0 & c & Hr0 & Hc & Hs & Hl & _)]; [congruence|].
  assert (r0 = r) as -> by congruence.
  destruct (evaluate_test_case_score text' test_case' rule requirement' Hmq')
    as [[He _]|(r0 & c' & Hr0' & Hc' & Hs' & Hl' & _)]; [congruence|].
  assert (r0 = r') as -> by congruence.
  destruct (completeness_shape _ _ Hc) as (steps & Hst & ->).
  destruct (completeness_shape _ _ Hc') as (steps' & Hst' & ->).
  rewrite Hl, Hl', Hs, Hs'. fold ps m m' q q'.
  apply not_worse_spec.
  pose proof (in_catalog_forallb _ rule catalog_tc_monotone Hin) as HP.
  unfold tc_scores_monotone in HP. cbv zeta in HP. fold ps in HP.
  pose proof (count_patterns_le ps text) as B1. fold m in B1.
  pose proof (count_patterns_le ps text') as B2. fold m' in B2.
  assert (I1 : In m (seq 0 (S (List.length ps)))) by (apply in_seq; lia).
  assert (I2 : In m' (seq 0 (S (List.length ps)))) by (apply in_seq; lia).
  assert (Iq : In (Nat.ltb 0 q, Nat.ltb 0 q') le_pairs).
  { apply le_pairs_in. intros H. apply Nat.ltb_lt in H. apply Nat.ltb_lt.
    assert (q' <> 0) by (apply Hqq; lia). lia. }
  assert (Is : In (steps, steps') le_pairs).
  { apply le_pairs_in. intros ->. rewrite (Hsteps Hst) in Hst'. congruence. }
  rewrite forallb_forall in HP. specialize (HP _ I1).
  rewrite forallb_forall in HP. specialize (HP _ I2).
  rewrite (proj2 (Nat.leb_le _ _) Hmm) in HP.
  rewrite forallb_forall in HP. specialize (HP _ Iq).
  rewrite forallb_forall in HP.
  specialize (HP (Py.get_truthy test_case "title", Py.get_truthy test_case' "title")
                ltac:(apply le_pairs_implb; assumption)).
  rewrite forallb_forall in HP.
  specialize (HP (Py.get_truthy test_case "description", Py.get_truthy test_case' "description")
                ltac:(apply le_pairs_implb; assumption)).
  rewrite forallb_forall in HP.
  specialize (HP (Py.get_truthy test_case "preconditions", Py.get_truthy test_case' "preconditions")
                ltac:(apply le_pairs_implb; assumption)).
  rewrite forallb_forall in HP. specialize (HP _ Is).
  rewrite forallb_forall in HP.
  specialize (HP (Py.get_truthy test_case "expected_results", Py.get_truthy test_case' "expected_results")
                ltac:(apply le_pairs_implb; assumption)).
  rewrite forallb_forall in HP.
  specialize (HP (Py.get_truthy test_case "postconditions", Py.get_truthy test_case' "postconditions")
                ltac:(apply le_pairs_implb; assumption)).
  rewrite forallb_forall in HP.
  specialize (HP (Py.get_truthy test_case "priority", Py.get_truthy test_case' "priority")
                ltac:(apply le_pairs_implb; assumption)).
  exact HP.
Qed.

Lemma test_case_score_monotone_witness :
  exists r r',
    _evaluate_test_case_against_rule "verify access control authentication test"
      access_control_test_case ISO_27001_001 None = Py.Return r
    /\ _evaluate_test_case_against_rule "verify access control authentication test"
         complete_access_control_test_case ISO_27001_001 None = Py.Return r'
    /\ PrimFloat.leb (ComplianceResult.score r) (ComplianceResult.score r') = true
    /\ level_rank (ComplianceResult.compliance_level r)
       <= level_rank (ComplianceResult.compliance_level r').
Proof.
  destruct (_evaluate_test_case_against_rule
              "verify access control authentication test"
              access_control_test_case ISO_27001_001 None) as [r|] eqn:E;
    [|vm_compute in E; discriminate E].
  destruct (_evaluate_test_case_against_rule
              "verify access control authentication test"
              complete_access_control_test_case ISO_27001_001 None) as [r'|] eqn:E';
    [|vm_compute in E'; discriminate E'].
  exists r, r'. split; [reflexivity|]. split; [reflexivity|].
  apply (test_case_score_monotone ISO_27001_001
           "verify access control authentication test"
           "verify access control authentication test"
           access_control_test_case complete_access_control_test_case
           None None r r').
  - simpl. auto 10.
  - exact E.
  - exact E'.
  - vm_compute in E. injection E as <-. reflexivity.
  - lia.
  - intros H. exact H.
  - vm_compute. reflexivity.
  - intros _. vm_compute. reflexivity.
Defined.
